(** * EVP 15 kVA generator controller: a shallow embedding of
    [generator_control.py] and the properties of its control core.

    The Python class [GeneratorController] becomes a record of its
    attributes; each method becomes a function over that record.  Methods
    that talk to the outside (D-Bus proxies, [time()]) run in a small
    state-and-exception monad over a [World].

    Numbers.  Python's [int] is [Z].  Measured quantities (state of charge,
    current limits, AC current, the readings of [time()]) are floats in the
    program; they are embedded as rationals [Q], which is exact for the
    comparisons and the subtraction the control logic performs on them.
    The integer-coded bus paths ([/Mode], [/Relay/n/State]) carry [Z].

    Left out: the [print] calls, the memory snapshots, and failures of the
    GPIO files behind [read_input]; none of them assigns an attribute. *)

From Stdlib Require Import ZArith QArith Qround Lqa.
From stdpp Require Import base option list gmap strings pretty.

Local Open Scope Z_scope.

(** ** Module constants *)

Definition INV_SWITCH_OFF : Z := 4.
Definition INV_SWITCH_ON : Z := 3.
Definition INV_SWITCH_INVERT_ONLY : Z := 2.
Definition INV_SWITCH_CHARGE_ONLY : Z := 1.

Definition REVERSE_POWER_CURRENT_THRESHOLD : Q := (-5)%Q.

Definition DEFAULT_MODE : string := "Off".

Definition TIMESTEP : Z := 1.
(** [10 / TIMESTEP] is the float [10.0]; it is only ever compared with the
    integer counter. *)
Definition REVERSE_POWER_COUNTER_THRESHOLD : Z := 10 / TIMESTEP.

(** ** Python values *)

(** Truth value of a number: zero is falsy. *)
Definition truthy (q : Q) : bool := negb (Qeq_bool q 0).

(** [a and b] on numbers returns [a] when [a] is falsy and [b] otherwise. *)
Definition py_and (a b : Q) : Q := if truthy a then b else a.

(** [x < y] on numbers. *)
Definition Qltb (x y : Q) : bool :=
  match (x ?= y)%Q with Lt => true | _ => false end.

(** [x > y] on numbers. *)
Definition Qgtb (x y : Q) : bool := Qltb y x.

(** [a != b] where [a] may be [None] and [b] is an integer: [None] differs
    from every integer. *)
Definition py_ne (a : option Z) (b : Z) : bool :=
  match a with
  | Some x => negb (x =? b)
  | None => true
  end.

(** [a != b] where [a] is an integer and [b] may be [None]. *)
Definition py_ne_opt (a : Z) (b : option Z) : bool :=
  match b with
  | Some y => negb (a =? y)
  | None => true
  end.

(** [x is not None]. *)
Definition is_not_None {A : Type} (x : option A) : bool :=
  match x with Some _ => true | None => false end.

(** Rounding to the nearest integer, ties to even: the rounding mode of
    Python's [round]. *)
Definition round_half_even (q : Q) : Z :=
  let f := Qfloor q in
  match ((q - inject_Z f) ?= (1 # 2))%Q with
  | Lt => f
  | Gt => f + 1
  | Eq => if Z.even f then f else f + 1
  end.

(** Exceptions that the modelled code can raise. *)
Inductive exn : Type :=
| TypeError      (* round(None, 1) *)
| KeyError       (* dict.pop on a missing key *)
| SystemExit.    (* exit() *)

Inductive result (A : Type) : Type :=
| Ok (a : A)
| Raise (e : exn).
Arguments Ok {A} a.
Arguments Raise {A} e.

(** [round(x, 1)]: one decimal place, computed on the rational; raises
    [TypeError] on [None]. *)
Definition round1 (x : option Q) : result Q :=
  match x with
  | Some q => Ok (Qred (round_half_even (q * 10) # 10))
  | None => Raise TypeError
  end.

(** ** The outside world *)

(** What a proxy's [GetValue()] does: it answers with a value (the bus's
    invalid value unwraps to [None]) or raises [DBusException]. *)
Inductive reply (A : Type) : Type :=
| Value (v : option A)
| DBusException.
Arguments Value {A} v.
Arguments DBusException {A}.

(** The seven digital inputs, the keys of [input_values]; [read_input]
    yields [1] or [0], read here as a boolean.  The four feedback inputs
    carry the suffix [_in], their keys being the names of LED properties. *)
Record Inputs : Type := mkInputs {
  Off_Button : bool;
  On_Button : bool;
  Charge_Button : bool;
  Off_LED_in : bool;
  On_LED_in : bool;
  Charge_LED_in : bool;
  BMS_Wake_in : bool;
}.

(** Observable actions of the sequencer.  [Command] is a call of
    [set_dbus_value]; [BusWrite] is the proxied [set_value] that went
    through. *)
Inductive event : Type :=
| Command (name : string) (value : option Z)
| BusWrite (name : string) (value : option Z).

Record Env : Type := mkEnv {
  digital_inputs : Inputs;
  analog : string -> reply Q;      (* GetValue on a measured quantity *)
  discrete : string -> reply Z;    (* GetValue on /Mode, /Relay/n/State *)
  set_value_raises : string -> bool;
  importable : string -> bool;     (* VeDbusItemImport(...) succeeds *)
}.

Record World : Type := mkWorld {
  env : Env;
  clock : nat -> Q;                (* successive readings of time() *)
  clock_reads : nat;
  log : list event;                (* newest first *)
}.

Definition M (A : Type) : Type := World -> result (A * World).

Global Instance M_ret : MRet M := fun A a w => Ok (a, w).

Global Instance M_bind : MBind M := fun A B f m w =>
  match m w with
  | Ok (a, w') => f a w'
  | Raise e => Raise e
  end.

Definition raise {A : Type} (e : exn) : M A := fun _ => Raise e.

Definition lift {A : Type} (r : result A) : M A :=
  fun w => match r with Ok a => Ok (a, w) | Raise e => Raise e end.

(** [time()] *)
Definition time : M Q :=
  fun w => Ok (clock w (clock_reads w),
               mkWorld (env w) (clock w) (S (clock_reads w)) (log w)).

Definition emit (e : event) : M unit :=
  fun w => Ok (tt, mkWorld (env w) (clock w) (clock_reads w) (e :: log w)).

Definition ask {A : Type} (f : Env -> A) : M A := fun w => Ok (f (env w), w).

(** [for x in l: body] over a threaded state. *)
Fixpoint for_each {A S : Type} (l : list A) (body : A -> S -> M S) (s : S) :
  M S :=
  match l with
  | [] => mret s
  | x :: l' => s' ← body x s; for_each l' body s'
  end.

(** ** The controller object *)

(** A bus item handle, as built by [VeDbusItemImport(conn, service, path)]. *)
Record VeDbusItemImport : Type := mkItem {
  serviceName : string;
  path : string;
}.

Record GeneratorController : Type := mkController {
  Mode : string;
  _Toggle_State : bool;
  _inverter_switch_mode_update_time : Q;
  Off_Button_Pressed_Counter : Z;
  BMS_Disable : bool;
  Battery_SOC : Q;
  Battery_Charge_Limit : Q;
  Battery_Discharge_Limit : Q;
  AC_Output_Current : option Q;
  Inverter_Switch_Mode : Z;
  Reverse_Power_Counter : Z;
  Reverse_Power_Alarm : bool;
  Inverter_Connected : bool;
  BMS_Connected : bool;
  relay_states : gmap Z (option Z);
  inverter_delay : Z;
  dbus_items : gmap string (option VeDbusItemImport);
  input_values : Inputs;
}.

(** Attribute assignment [self.x = v], one function per attribute: the
    object with [x] replaced by [v] and every other attribute kept. *)

Definition with_Mode (v : string) (self : GeneratorController) :
  GeneratorController :=
  mkController v (_Toggle_State self)
    (_inverter_switch_mode_update_time self)
    (Off_Button_Pressed_Counter self) (BMS_Disable self) (Battery_SOC self)
    (Battery_Charge_Limit self) (Battery_Discharge_Limit self)
    (AC_Output_Current self) (Inverter_Switch_Mode self)
    (Reverse_Power_Counter self) (Reverse_Power_Alarm self)
    (Inverter_Connected self) (BMS_Connected self) (relay_states self)
    (inverter_delay self) (dbus_items self) (input_values self).

Definition with_Toggle_State (v : bool) (self : GeneratorController) :
  GeneratorController :=
  mkController (Mode self) v (_inverter_switch_mode_update_time self)
    (Off_Button_Pressed_Counter self) (BMS_Disable self) (Battery_SOC self)
    (Battery_Charge_Limit self) (Battery_Discharge_Limit self)
    (AC_Output_Current self) (Inverter_Switch_Mode self)
    (Reverse_Power_Counter self) (Reverse_Power_Alarm self)
    (Inverter_Connected self) (BMS_Connected self) (relay_states self)
    (inverter_delay self) (dbus_items self) (input_values self).

Definition with_inverter_switch_mode_update_time (v : Q) (self : GeneratorController) :
  GeneratorController :=
  mkController (Mode self) (_Toggle_State self) v
    (Off_Button_Pressed_Counter self) (BMS_Disable self) (Battery_SOC self)
    (Battery_Charge_Limit self) (Battery_Discharge_Limit self)
    (AC_Output_Current self) (Inverter_Switch_Mode self)
    (Reverse_Power_Counter self) (Reverse_Power_Alarm self)
    (Inverter_Connected self) (BMS_Connected self) (relay_states self)
    (inverter_delay self) (dbus_items self) (input_values self).

Definition with_Off_Button_Pressed_Counter (v : Z) (self : GeneratorController) :
  GeneratorController :=
  mkController (Mode self) (_Toggle_State self)
    (_inverter_switch_mode_update_time self) v (BMS_Disable self)
    (Battery_SOC self) (Battery_Charge_Limit self)
    (Battery_Discharge_Limit self) (AC_Output_Current self)
    (Inverter_Switch_Mode self) (Reverse_Power_Counter self)
    (Reverse_Power_Alarm self) (Inverter_Connected self) (BMS_Connected self)
    (relay_states self) (inverter_delay self) (dbus_items self)
    (input_values self).

Definition with_BMS_Disable (v : bool) (self : GeneratorController) :
  GeneratorController :=
  mkController (Mode self) (_Toggle_State self)
    (_inverter_switch_mode_update_time self)
    (Off_Button_Pressed_Counter self) v (Battery_SOC self)
    (Battery_Charge_Limit self) (Battery_Discharge_Limit self)
    (AC_Output_Current self) (Inverter_Switch_Mode self)
    (Reverse_Power_Counter self) (Reverse_Power_Alarm self)
    (Inverter_Connected self) (BMS_Connected self) (relay_states self)
    (inverter_delay self) (dbus_items self) (input_values self).

Definition with_Battery_SOC (v : Q) (self : GeneratorController) :
  GeneratorController :=
  mkController (Mode self) (_Toggle_State self)
    (_inverter_switch_mode_update_time self)
    (Off_Button_Pressed_Counter self) (BMS_Disable self) v
    (Battery_Charge_Limit self) (Battery_Discharge_Limit self)
    (AC_Output_Current self) (Inverter_Switch_Mode self)
    (Reverse_Power_Counter self) (Reverse_Power_Alarm self)
    (Inverter_Connected self) (BMS_Connected self) (relay_states self)
    (inverter_delay self) (dbus_items self) (input_values self).

Definition with_Battery_Charge_Limit (v : Q) (self : GeneratorController) :
  GeneratorController :=
  mkController (Mode self) (_Toggle_State self)
    (_inverter_switch_mode_update_time self)
    (Off_Button_Pressed_Counter self) (BMS_Disable self) (Battery_SOC self) v
    (Battery_Discharge_Limit self) (AC_Output_Current self)
    (Inverter_Switch_Mode self) (Reverse_Power_Counter self)
    (Reverse_Power_Alarm self) (Inverter_Connected self) (BMS_Connected self)
    (relay_states self) (inverter_delay self) (dbus_items self)
    (input_values self).

Definition with_Battery_Discharge_Limit (v : Q) (self : GeneratorController) :
  GeneratorController :=
  mkController (Mode self) (_Toggle_State self)
    (_inverter_switch_mode_update_time self)
    (Off_Button_Pressed_Counter self) (BMS_Disable self) (Battery_SOC self)
    (Battery_Charge_Limit self) v (AC_Output_Current self)
    (Inverter_Switch_Mode self) (Reverse_Power_Counter self)
    (Reverse_Power_Alarm self) (Inverter_Connected self) (BMS_Connected self)
    (relay_states self) (inverter_delay self) (dbus_items self)
    (input_values self).

Definition with_AC_Output_Current (v : option Q) (self : GeneratorController) :
  GeneratorController :=
  mkController (Mode self) (_Toggle_State self)
    (_inverter_switch_mode_update_time self)
    (Off_Button_Pressed_Counter self) (BMS_Disable self) (Battery_SOC self)
    (Battery_Charge_Limit self) (Battery_Discharge_Limit self) v
    (Inverter_Switch_Mode self) (Reverse_Power_Counter self)
    (Reverse_Power_Alarm self) (Inverter_Connected self) (BMS_Connected self)
    (relay_states self) (inverter_delay self) (dbus_items self)
    (input_values self).

Definition with_Inverter_Switch_Mode (v : Z) (self : GeneratorController) :
  GeneratorController :=
  mkController (Mode self) (_Toggle_State self)
    (_inverter_switch_mode_update_time self)
    (Off_Button_Pressed_Counter self) (BMS_Disable self) (Battery_SOC self)
    (Battery_Charge_Limit self) (Battery_Discharge_Limit self)
    (AC_Output_Current self) v (Reverse_Power_Counter self)
    (Reverse_Power_Alarm self) (Inverter_Connected self) (BMS_Connected self)
    (relay_states self) (inverter_delay self) (dbus_items self)
    (input_values self).

Definition with_Reverse_Power_Counter (v : Z) (self : GeneratorController) :
  GeneratorController :=
  mkController (Mode self) (_Toggle_State self)
    (_inverter_switch_mode_update_time self)
    (Off_Button_Pressed_Counter self) (BMS_Disable self) (Battery_SOC self)
    (Battery_Charge_Limit self) (Battery_Discharge_Limit self)
    (AC_Output_Current self) (Inverter_Switch_Mode self) v
    (Reverse_Power_Alarm self) (Inverter_Connected self) (BMS_Connected self)
    (relay_states self) (inverter_delay self) (dbus_items self)
    (input_values self).

Definition with_Reverse_Power_Alarm (v : bool) (self : GeneratorController) :
  GeneratorController :=
  mkController (Mode self) (_Toggle_State self)
    (_inverter_switch_mode_update_time self)
    (Off_Button_Pressed_Counter self) (BMS_Disable self) (Battery_SOC self)
    (Battery_Charge_Limit self) (Battery_Discharge_Limit self)
    (AC_Output_Current self) (Inverter_Switch_Mode self)
    (Reverse_Power_Counter self) v (Inverter_Connected self)
    (BMS_Connected self) (relay_states self) (inverter_delay self)
    (dbus_items self) (input_values self).

Definition with_Inverter_Connected (v : bool) (self : GeneratorController) :
  GeneratorController :=
  mkController (Mode self) (_Toggle_State self)
    (_inverter_switch_mode_update_time self)
    (Off_Button_Pressed_Counter self) (BMS_Disable self) (Battery_SOC self)
    (Battery_Charge_Limit self) (Battery_Discharge_Limit self)
    (AC_Output_Current self) (Inverter_Switch_Mode self)
    (Reverse_Power_Counter self) (Reverse_Power_Alarm self) v
    (BMS_Connected self) (relay_states self) (inverter_delay self)
    (dbus_items self) (input_values self).

Definition with_BMS_Connected (v : bool) (self : GeneratorController) :
  GeneratorController :=
  mkController (Mode self) (_Toggle_State self)
    (_inverter_switch_mode_update_time self)
    (Off_Button_Pressed_Counter self) (BMS_Disable self) (Battery_SOC self)
    (Battery_Charge_Limit self) (Battery_Discharge_Limit self)
    (AC_Output_Current self) (Inverter_Switch_Mode self)
    (Reverse_Power_Counter self) (Reverse_Power_Alarm self)
    (Inverter_Connected self) v (relay_states self) (inverter_delay self)
    (dbus_items self) (input_values self).

Definition with_relay_states (v : gmap Z (option Z)) (self : GeneratorController) :
  GeneratorController :=
  mkController (Mode self) (_Toggle_State self)
    (_inverter_switch_mode_update_time self)
    (Off_Button_Pressed_Counter self) (BMS_Disable self) (Battery_SOC self)
    (Battery_Charge_Limit self) (Battery_Discharge_Limit self)
    (AC_Output_Current self) (Inverter_Switch_Mode self)
    (Reverse_Power_Counter self) (Reverse_Power_Alarm self)
    (Inverter_Connected self) (BMS_Connected self) v (inverter_delay self)
    (dbus_items self) (input_values self).

Definition with_inverter_delay (v : Z) (self : GeneratorController) :
  GeneratorController :=
  mkController (Mode self) (_Toggle_State self)
    (_inverter_switch_mode_update_time self)
    (Off_Button_Pressed_Counter self) (BMS_Disable self) (Battery_SOC self)
    (Battery_Charge_Limit self) (Battery_Discharge_Limit self)
    (AC_Output_Current self) (Inverter_Switch_Mode self)
    (Reverse_Power_Counter self) (Reverse_Power_Alarm self)
    (Inverter_Connected self) (BMS_Connected self) (relay_states self) v
    (dbus_items self) (input_values self).

Definition with_dbus_items (v : gmap string (option VeDbusItemImport)) (self : GeneratorController) :
  GeneratorController :=
  mkController (Mode self) (_Toggle_State self)
    (_inverter_switch_mode_update_time self)
    (Off_Button_Pressed_Counter self) (BMS_Disable self) (Battery_SOC self)
    (Battery_Charge_Limit self) (Battery_Discharge_Limit self)
    (AC_Output_Current self) (Inverter_Switch_Mode self)
    (Reverse_Power_Counter self) (Reverse_Power_Alarm self)
    (Inverter_Connected self) (BMS_Connected self) (relay_states self)
    (inverter_delay self) v (input_values self).

Definition with_input_values (v : Inputs) (self : GeneratorController) :
  GeneratorController :=
  mkController (Mode self) (_Toggle_State self)
    (_inverter_switch_mode_update_time self)
    (Off_Button_Pressed_Counter self) (BMS_Disable self) (Battery_SOC self)
    (Battery_Charge_Limit self) (Battery_Discharge_Limit self)
    (AC_Output_Current self) (Inverter_Switch_Mode self)
    (Reverse_Power_Counter self) (Reverse_Power_Alarm self)
    (Inverter_Connected self) (BMS_Connected self) (relay_states self)
    (inverter_delay self) (dbus_items self) v.

(** [dbus_items_spec]: key, service, path; in insertion order. *)
Definition dbus_items_spec : list (string * VeDbusItemImport) :=
  [ ("battery_soc", mkItem "com.victronenergy.system" "/Dc/Battery/Soc");
    ("battery_charge_limit",
     mkItem "com.victronenergy.battery.socketcan_vecan0" "/Info/MaxChargeCurrent");
    ("battery_discharge_limit",
     mkItem "com.victronenergy.battery.socketcan_vecan0" "/Info/MaxDischargeCurrent");
    ("ac_output_current", mkItem "com.victronenergy.vebus.ttyS2" "/Ac/Out/L1/I");
    ("inverter_switch_mode", mkItem "com.victronenergy.vebus.ttyS2" "/Mode");
    ("relay_2", mkItem "com.victronenergy.system" "/Relay/2/State");
    ("relay_3", mkItem "com.victronenergy.system" "/Relay/3/State");
    ("relay_4", mkItem "com.victronenergy.system" "/Relay/4/State");
    ("relay_5", mkItem "com.victronenergy.system" "/Relay/5/State");
    ("relay_6", mkItem "com.victronenergy.system" "/Relay/6/State");
    ("relay_7", mkItem "com.victronenergy.system" "/Relay/7/State");
    ("relay_8", mkItem "com.victronenergy.system" "/Relay/8/State");
    ("relay_9", mkItem "com.victronenergy.system" "/Relay/9/State") ].

(** [d.get(k)] on a dictionary whose values may be [None]: a missing key
    and a stored [None] both give [None]. *)
Definition dict_get {K A : Type} `{Countable K} (d : gmap K (option A)) (k : K) :
  option A :=
  match d !! k with
  | Some v => v
  | None => None
  end.

(** The attributes as [__init__] leaves them before it opens the bus
    connections.  [input_values] is created by [update_inputs], which every
    pass of the loop runs before anything reads it; the value given here is
    never consulted. *)
Definition init : GeneratorController :=
  {| Mode := EmptyString;
     _Toggle_State := false;
     _inverter_switch_mode_update_time := 0%Q;
     Off_Button_Pressed_Counter := 0;
     BMS_Disable := false;
     Battery_SOC := 0%Q;
     Battery_Charge_Limit := 0%Q;
     Battery_Discharge_Limit := 0%Q;
     AC_Output_Current := None;
     Inverter_Switch_Mode := 0;
     Reverse_Power_Counter := 0;
     Reverse_Power_Alarm := false;
     Inverter_Connected := false;
     BMS_Connected := false;
     relay_states := ∅;
     inverter_delay := 0;
     dbus_items := ∅;
     input_values := mkInputs false false false false false false false |}.

(** ** The [@property] attributes *)

Definition Off_Button_Pressed (self : GeneratorController) : bool :=
  Off_Button (input_values self).
Definition On_Button_Pressed (self : GeneratorController) : bool :=
  On_Button (input_values self).
Definition Charge_Button_Pressed (self : GeneratorController) : bool :=
  Charge_Button (input_values self).

Definition Fault_Detected (self : GeneratorController) : bool :=
  if negb (existsb (String.eqb (Mode self)) ["Off"; "On"; "ChargeOnly"]) then true
  else if negb (BMS_Connected self) then true
  else if negb (Mode self =? "Off")%string && negb (Inverter_Connected self)
  then true
  else if negb (Mode self =? "Off")%string && Reverse_Power_Alarm self then true
  else false.   (* falls off the end: None, which is falsy *)

Definition Off_LED (self : GeneratorController) : bool :=
  (Mode self =? "Off")%string.
Definition On_LED (self : GeneratorController) : bool :=
  (Mode self =? "On")%string.
Definition Charge_LED (self : GeneratorController) : bool :=
  (Mode self =? "ChargeOnly")%string.

Definition BMS_Wake (self : GeneratorController) : bool :=
  negb ((Mode self =? "Off")%string
        && (Qltb (Battery_SOC self) 50 || BMS_Disable self)).

Definition DSE_Remote_Start (self : GeneratorController) : bool :=
  (Mode self =? "On")%string.

Definition DSE_Mode_Request (self : GeneratorController) : bool :=
  (Mode self =? "On")%string || (Mode self =? "ChargeOnly")%string.

Definition RCD_Reset_Switch (self : GeneratorController) : bool :=
  (Off_Button_Pressed self && On_Button_Pressed self
   && negb (Charge_Button_Pressed self))
  || (Off_Button_Pressed self && Charge_Button_Pressed self
      && negb (On_Button_Pressed self)).

Definition Service_Restart_Requested (self : GeneratorController) : bool :=
  Off_Button_Pressed self && On_Button_Pressed self
  && Charge_Button_Pressed self.

(** The dictionary literal of [Inverter_Switch_Mode_Target]. *)
Definition modes : gmap string Z :=
  <["ChargeOnly" := INV_SWITCH_CHARGE_ONLY]>
    (<["InvertOnly" := INV_SWITCH_INVERT_ONLY]>
       (<["On" := INV_SWITCH_ON]> (<["Off" := INV_SWITCH_OFF]> ∅))).

Definition Inverter_Switch_Mode_Target (self : GeneratorController) : option Z :=
  if Reverse_Power_Alarm self then Some INV_SWITCH_OFF
  else modes !! Mode self.

Definition Reverse_Power_Detected (self : GeneratorController) : bool :=
  match AC_Output_Current self with
  | Some i => Qltb i REVERSE_POWER_CURRENT_THRESHOLD
  | None => false
  end.

(** A property with a side effect: reading it while the limits are not
    both non-zero sets [inverter_delay] to 10.  It returns the value of the
    [and] expression together with the object after the read. *)
Definition Battery_Contactors_Closed (self : GeneratorController) :
  Q * GeneratorController :=
  let val := py_and (Battery_Charge_Limit self) (Battery_Discharge_Limit self) in
  if Qeq_bool val 0            (* val == False *)
  then (val, with_inverter_delay 10 self)
  else (val, self).

(** ** The mode state machine *)

Definition update_mode (self : GeneratorController) : GeneratorController :=
  let self := if (Mode self =? EmptyString)%string then with_Mode DEFAULT_MODE self
              else self in
  let self := if Off_Button_Pressed self
              then with_Off_Button_Pressed_Counter
                     (Off_Button_Pressed_Counter self + 1) self
              else with_Off_Button_Pressed_Counter 0 self in
  let self := if 10 <=? Off_Button_Pressed_Counter self
              then with_BMS_Disable true self else self in
  if Off_Button_Pressed self
     && negb (On_Button_Pressed self || Charge_Button_Pressed self)
  then with_Mode "Off" self
  else if On_Button_Pressed self
          && negb (Off_Button_Pressed self || Charge_Button_Pressed self)
  then with_BMS_Disable false (with_Mode "On" self)
  else if Charge_Button_Pressed self
          && negb (On_Button_Pressed self || Off_Button_Pressed self)
  then with_BMS_Disable false (with_Mode "ChargeOnly" self)
  else self.   (* Leave mode unchanged *)

(** ** Bus access *)

(** [self.dbus_items.pop(name)]: raises [KeyError] when the key is absent. *)
Definition clear_dbus_item (dbus_item_name : string)
  (self : GeneratorController) : M GeneratorController :=
  match dbus_items self !! dbus_item_name with
  | Some _ => mret (with_dbus_items (delete dbus_item_name (dbus_items self)) self)
  | None => raise KeyError
  end.

(** [GetValue] is the answer of the proxy behind the item: [analog] or
    [discrete], by the kind of quantity read.  Falling off the end of the
    method returns [None]. *)
Definition get_dbus_value {A : Type} (GetValue : Env -> string -> reply A)
  (dbus_item_name : string) (self : GeneratorController) :
  M (option A * GeneratorController) :=
  match dict_get (dbus_items self) dbus_item_name with
  | Some dbus_item =>
      r ← ask (fun e => GetValue e dbus_item_name);
      match r with
      | Value v => mret (v, self)
      | DBusException =>
          self ← clear_dbus_item dbus_item_name self;
          mret (None, self)
      end
  | None => mret (None, self)
  end.

Definition set_dbus_value (dbus_item_name : string) (value : option Z)
  (self : GeneratorController) : M GeneratorController :=
  emit (Command dbus_item_name value);;
  match dict_get (dbus_items self) dbus_item_name with
  | Some dbus_item =>
      raises ← ask (fun e => set_value_raises e dbus_item_name);
      if raises : bool
      then clear_dbus_item dbus_item_name self
      else emit (BusWrite dbus_item_name value);; mret self
  | None => mret self
  end.

Definition check_and_create_connections (self : GeneratorController) :
  M GeneratorController :=
  for_each dbus_items_spec
    (fun '(k, v) self =>
       match dict_get (dbus_items self) k with
       | None =>
           ok ← ask (fun e => importable e k);
           if ok : bool
           then mret (with_dbus_items (<[k := Some v]> (dbus_items self)) self)
           else mret (with_dbus_items (<[k := None]> (dbus_items self)) self)
       | Some _ => mret self
       end)
    self.

Definition update_inputs (self : GeneratorController) : M GeneratorController :=
  i ← ask digital_inputs;
  mret (with_input_values i self).

(** ** Telemetry *)

Definition update_battery_soc (self : GeneratorController) :
  M GeneratorController :=
  '(val, self) ← get_dbus_value analog "battery_soc" self;
  match val with
  | Some v => mret (with_Battery_SOC v (with_BMS_Connected true self))
  | None => mret (with_Battery_SOC 0%Q (with_BMS_Connected false self))
  end.

(** The test is on the two attributes of the object, not on the two values
    just read; the attributes hold numbers, never [None]. *)
Definition update_battery_limits (self : GeneratorController) :
  M GeneratorController :=
  '(charge_lim, self) ← get_dbus_value analog "battery_charge_limit" self;
  '(discharge_lim, self) ← get_dbus_value analog "battery_discharge_limit" self;
  if is_not_None (Some (Battery_Charge_Limit self))
     && is_not_None (Some (Battery_Discharge_Limit self))
  then
    let self := with_BMS_Connected true self in
    c ← lift (round1 charge_lim);
    let self := with_Battery_Charge_Limit c self in
    d ← lift (round1 discharge_lim);
    mret (with_Battery_Discharge_Limit d self)
  else mret (with_BMS_Connected false self).

Definition update_ac_output_current (self : GeneratorController) :
  M GeneratorController :=
  '(val, self) ← get_dbus_value analog "ac_output_current" self;
  match val with
  | Some v =>
      let self := with_Inverter_Connected true self in
      r ← lift (round1 (Some v));
      mret (with_AC_Output_Current (Some r) self)
  | None =>
      let self := with_Inverter_Connected false self in
      let self := with_AC_Output_Current None self in
      clear_dbus_item "ac_output_current" self
  end.

Definition update_inverter_switch_mode (self : GeneratorController) :
  M GeneratorController :=
  '(val, self) ← get_dbus_value discrete "inverter_switch_mode" self;
  match val with
  | Some v => mret (with_Inverter_Switch_Mode v (with_Inverter_Connected true self))
  | None => mret (with_Inverter_Switch_Mode 0 (with_Inverter_Connected false self))
  end.

(** [f"relay_{relay_no}"] *)
Definition relay_name (relay_no : Z) : string := "relay_" +:+ pretty relay_no.

Definition update_relay_states (self : GeneratorController) :
  M GeneratorController :=
  let self := with_relay_states ∅ self in
  for_each (seqZ 2 8)          (* range(2, 10) *)
    (fun relay_no self =>
       '(val, self) ← get_dbus_value discrete (relay_name relay_no) self;
       mret (with_relay_states (<[relay_no := val]> (relay_states self)) self))
    self.

(** ** The output sequencer *)

(** A relay target as the callers pass it: a [bool] or an [int]. *)
Inductive target_value : Type :=
| PyBool (b : bool)
| PyInt (z : Z).

(** [int(target_value)] when it is a [bool], the value itself otherwise. *)
Definition coerce (t : target_value) : Z :=
  match t with
  | PyBool b => Z.b2z b
  | PyInt z => z
  end.

Definition set_relay (relay_no : Z) (t : target_value)
  (self : GeneratorController) : M GeneratorController :=
  let t := coerce t in
  if py_ne_opt t (dict_get (relay_states self) relay_no)
  then set_dbus_value (relay_name relay_no) (Some t) self
  else mret self.

Definition set_outputs (self : GeneratorController) : M GeneratorController :=
  self ← (if Fault_Detected self
          then self ← set_relay 2 (PyBool (_Toggle_State self)) self;
               mret (with_Toggle_State (negb (_Toggle_State self)) self)
          else set_relay 2 (PyBool (Off_LED self)) self);
  self ← set_relay 3 (PyBool (On_LED self)) self;
  self ← set_relay 4 (PyBool (Charge_LED self)) self;
  self ← set_relay 5 (PyBool (BMS_Wake self)) self;
  self ← set_relay 6 (PyBool (DSE_Remote_Start self)) self;
  self ← set_relay 7 (PyBool (DSE_Mode_Request self)) self;
  self ← set_relay 8 (PyBool (RCD_Reset_Switch self)) self;
  set_relay 9 (PyBool (Reverse_Power_Alarm self)) self.

Definition set_inverter_switch_mode (self : GeneratorController) :
  M GeneratorController :=
  if py_ne (Inverter_Switch_Mode_Target self) (Inverter_Switch_Mode self)
  then
    let '(closed, self) := Battery_Contactors_Closed self in
    if truthy closed
    then
      if inverter_delay self =? 0
      then
        now ← time;
        if Qgtb (now - _inverter_switch_mode_update_time self) 5
        then
          stamp ← time;
          let self := with_inverter_switch_mode_update_time stamp self in
          set_dbus_value "inverter_switch_mode"
            (Inverter_Switch_Mode_Target self) self
        else mret self
      else
        let self := with_inverter_delay (inverter_delay self - 1) self in
        mret (with_inverter_delay (Z.max 0 (inverter_delay self)) self)
    else mret self
  else mret self.

(** ** Reverse power *)

(** In the detected branch the value of the [max] expression is dropped,
    as in the source. *)
Definition check_reverse_power (self : GeneratorController) :
  GeneratorController :=
  let self :=
    if Reverse_Power_Detected self
    then
      let self := with_Reverse_Power_Counter (Reverse_Power_Counter self + 1) self in
      let _ := Z.max REVERSE_POWER_COUNTER_THRESHOLD (Reverse_Power_Counter self) in
      self
    else
      let self := with_Reverse_Power_Counter (Reverse_Power_Counter self - 1) self in
      with_Reverse_Power_Counter (Z.max 0 (Reverse_Power_Counter self)) self in
  if REVERSE_POWER_COUNTER_THRESHOLD <=? Reverse_Power_Counter self
  then with_Reverse_Power_Alarm true self
  else if (Mode self =? "Off")%string && (Reverse_Power_Counter self =? 0)
  then with_Reverse_Power_Alarm false self
  else self.

(** ** The loop *)

(** One pass of the [while True] body of [run].  The memory snapshot, the
    status line and the closing [sleep] leave the object unchanged; the
    closing [sleep] reads the clock once more. *)
Definition tick (self : GeneratorController) : M GeneratorController :=
  t0 ← time;
  self ← check_and_create_connections self;
  self ← update_inputs self;
  let self := update_mode self in
  self ← update_battery_soc self;
  self ← update_battery_limits self;
  self ← (if (Mode self =? "On")%string || (Mode self =? "ChargeOnly")%string
          then self ← update_ac_output_current self;
               mret (check_reverse_power self)
          else mret self);
  self ← update_relay_states self;
  self ← set_outputs self;
  self ← update_inverter_switch_mode self;
  self ← set_inverter_switch_mode self;
  if Service_Restart_Requested self
  then raise SystemExit
  else t1 ← time; mret self.

(** [run] over the passes for which an environment is given: the
    environment of the world is replaced before each pass. *)
Fixpoint run (envs : list Env) (self : GeneratorController) :
  M GeneratorController :=
  match envs with
  | [] => mret self
  | e :: envs' =>
      fun w =>
        match tick self (mkWorld e (clock w) (clock_reads w) (log w)) with
        | Ok (self', w') => run envs' self' w'
        | Raise x => Raise x
        end
  end.

(** * Vocabulary of the properties *)

(** ** The control core *)

(** The attributes the control policy lives in.  Only [update_mode] and
    [check_reverse_power] assign them. *)
Definition core (self : GeneratorController) : string * Z * bool * Z * bool :=
  (Mode self, Off_Button_Pressed_Counter self, BMS_Disable self,
   Reverse_Power_Counter self, Reverse_Power_Alarm self).

Definition valid_mode (m : string) : Prop :=
  m = "Off" \/ m = "On" \/ m = "ChargeOnly".

(** Events logged between two worlds, newest first. *)
Definition emitted (w w' : World) : list event :=
  take (length (log w') - length (log w)) (log w').

(** States the loop can be in at the top of a pass: the object built by
    [__init__], which ends by opening the bus connections, and whatever a
    completed pass leaves, under any environment. *)
Inductive reachable : GeneratorController -> Prop :=
| reachable_init w self w' :
    check_and_create_connections init w = Ok (self, w') -> reachable self
| reachable_tick self w self' w' :
    reachable self -> tick self w = Ok (self', w') -> reachable self'.

(** A method that leaves the control core, the sampled inputs and the
    environment alone. *)
Definition frame (f : GeneratorController -> M GeneratorController) : Prop :=
  forall self w self' w',
    f self w = Ok (self', w') ->
    core self' = core self /\ input_values self' = input_values self
    /\ env w' = env w.

(** ** Buttons *)

Section Buttons.

Variable i : Inputs.

(** Exactly one of the three buttons is asserted, and it is this one. *)
Definition Off_alone : Prop :=
  Off_Button i = true /\ On_Button i = false /\ Charge_Button i = false.
Definition On_alone : Prop :=
  On_Button i = true /\ Off_Button i = false /\ Charge_Button i = false.
Definition Charge_alone : Prop :=
  Charge_Button i = true /\ On_Button i = false /\ Off_Button i = false.

(** No button, or more than one. *)
Definition no_single_button : Prop :=
  ~ Off_alone /\ ~ On_alone /\ ~ Charge_alone.

End Buttons.

(** ** The switch-command gate *)

Section Gate.

Variable self : GeneratorController.

(** A command is pending: the target is not the confirmed switch mode. *)
Definition pending : Prop :=
  Inverter_Switch_Mode_Target self <> Some (Inverter_Switch_Mode self).

(** Both current limits are truthy. *)
Definition contactors_closed : Prop :=
  truthy (Battery_Charge_Limit self) = true
  /\ truthy (Battery_Discharge_Limit self) = true.

Definition contactors_open : Prop :=
  truthy (Battery_Charge_Limit self) = false
  \/ truthy (Battery_Discharge_Limit self) = false.

(** The gate of the code: the interval test is strict. *)
Definition switch_gate (now : Q) : Prop :=
  pending /\ contactors_closed /\ inverter_delay self = 0
  /\ (5 < now - _inverter_switch_mode_update_time self)%Q.

(** The gate as the specification words it: at least 5 time units since
    the last command. *)
Definition switch_gate_as_stated (now : Q) : Prop :=
  pending /\ contactors_closed /\ inverter_delay self = 0
  /\ (5 <= now - _inverter_switch_mode_update_time self)%Q.

End Gate.

(** What a call of [set_dbus_value] puts on the bus: the value, when the
    item handle is there and its [set_value] does not raise. *)
Definition bus_writes (name : string) (value : option Z)
  (self : GeneratorController) (w : World) : list event :=
  match dict_get (dbus_items self) name with
  | Some _ =>
      if set_value_raises (env w) name then [] else [BusWrite name value]
  | None => []
  end.

(** The switch-mode command of a state, as an event. *)
Definition switch_command (self : GeneratorController) : event :=
  Command "inverter_switch_mode" (Inverter_Switch_Mode_Target self).

(** ** Failed reads *)

(** A telemetry read fails when the item handle is missing, or the proxy
    raises, or the bus answers with its invalid value. *)
Definition read_fails {A : Type} (G : Env -> string -> reply A) (name : string)
  (self : GeneratorController) (w : World) : Prop :=
  dict_get (dbus_items self) name = None
  \/ G (env w) name = DBusException
  \/ G (env w) name = Value None.

(** An item cannot be read in a pass of the loop over [self] in [w]: the
    bus raises on the access, or answers with its invalid value, or the
    handle is missing and the item cannot be imported. *)
Definition link_down (name : string) (self : GeneratorController) (w : World) :
  Prop :=
  analog (env w) name = DBusException
  \/ analog (env w) name = Value None
  \/ (dict_get (dbus_items self) name = None
      /\ importable (env w) name = false).

(** ** Bench scenarios *)

Definition buttons (off on charge : bool) : Inputs :=
  mkInputs off on charge false false false false.

(** A bus on which every item imports and every call goes through: state
    of charge 80, both current limits [limit], AC output current [ac], the
    inverter reporting switch mode [mode], every relay reading 0. *)
Definition bench_env (i : Inputs) (limit ac : Q) (mode : Z) : Env :=
  mkEnv i
    (fun name =>
       if (name =? "ac_output_current")%string then Value (Some ac)
       else if (name =? "battery_soc")%string then Value (Some 80%Q)
       else Value (Some limit))
    (fun name =>
       if (name =? "inverter_switch_mode")%string then Value (Some mode)
       else Value (Some 0))
    (fun _ => false)
    (fun _ => true).

(** The same bus with the battery service gone: its two current limits
    raise on access. *)
Definition bench_env_battery_down (i : Inputs) : Env :=
  mkEnv i
    (fun name =>
       if (name =? "battery_charge_limit")%string then DBusException
       else if (name =? "battery_discharge_limit")%string then DBusException
       else Value (Some 80%Q))
    (fun name =>
       if (name =? "inverter_switch_mode")%string then Value (Some 4)
       else Value (Some 0))
    (fun _ => false)
    (fun _ => true).

(** The same bus with the inverter service gone. *)
Definition bench_env_inverter_down (i : Inputs) (limit : Q) : Env :=
  mkEnv i
    (fun name =>
       if (name =? "ac_output_current")%string then Value (Some 0%Q)
       else if (name =? "battery_soc")%string then Value (Some 80%Q)
       else Value (Some limit))
    (fun name =>
       if (name =? "inverter_switch_mode")%string then DBusException
       else Value (Some 0))
    (fun _ => false)
    (fun _ => true).

(** A clock whose successive readings are 10 time units apart. *)
Definition bench_clock (n : nat) : Q := inject_Z (1000 + 10 * Z.of_nat n).

Definition bench_world (e : Env) : World := mkWorld e bench_clock 0 [].

(** A world whose clock stands at [t]. *)
Definition world_at (e : Env) (t : Q) : World := mkWorld e (fun _ => t) 0 [].

Definition idle_env : Env := bench_env (buttons false false false) 0 0 4.

(** The result of a computation that returned. *)
Definition returned (r : result (GeneratorController * World)) :
  GeneratorController * World :=
  match r with
  | Ok p => p
  | Raise _ => (init, bench_world idle_env)
  end.

(** The controller as [__init__] leaves it on the bench. *)
Definition fresh : GeneratorController :=
  fst (returned (check_and_create_connections init (bench_world idle_env))).

(** Operator presses On; battery online with limits of 100 A; inverter
    still reporting Off. *)
Definition on_env : Env := bench_env (buttons false true false) 100 0 4.
Definition after_on : GeneratorController * World :=
  returned (tick fresh (bench_world on_env)).

(** The controller in mode On with a command pending, the contactors
    closed, no settle delay left, and the last command sent at time 1000. *)
Definition commanded_at_1000 : GeneratorController :=
  with_inverter_switch_mode_update_time 1000 (fst after_on).

(** Mode On with 8 A flowing backwards, for eleven passes. *)
Definition reverse_env : Env := bench_env (buttons false true false) 100 (-8) 4.
Definition after_eleven_reverse : GeneratorController * World :=
  returned (run (replicate 11 reverse_env) fresh (bench_world idle_env)).

(** Ten passes of reverse power in mode On, twelve passes without, then
    the operator presses Off. *)
Definition off_env : Env := bench_env (buttons true false false) 100 0 4.
Definition tripped_then_off : GeneratorController * World :=
  returned (run (replicate 10 reverse_env ++ replicate 12 on_env ++ [off_env])
              fresh (bench_world idle_env)).

Definition after_trip_idle : GeneratorController * World :=
  returned (tick (fst tripped_then_off) (bench_world idle_env)).

Definition after_idle : GeneratorController * World :=
  returned (tick fresh (bench_world idle_env)).

(** The inverter service gone, the clock at 1006. *)
Definition inverter_down_at_1006 : World :=
  world_at (bench_env_inverter_down (buttons false false false) 100) 1006.

(** Mode On, command pending, but the battery limits read 0. *)
Definition pending_contactors_open : GeneratorController :=
  with_Battery_Charge_Limit 0 (fst after_on).

(** ** Reads, step by step *)

(** The value a read of [name] yields: what the bus answers when the item
    handle is there, [None] when the handle is missing or the proxy raises. *)
Definition read_value {A : Type} (G : Env -> string -> reply A) (name : string)
  (self : GeneratorController) (w : World) : option A :=
  match dict_get (dbus_items self) name with
  | Some _ => match G (env w) name with
              | Value v => v
              | DBusException => None
              end
  | None => None
  end.

(** The item handles a read of [name] leaves: the handle is dropped when
    the proxy raises. *)
Definition handles_after_read {A : Type} (G : Env -> string -> reply A)
  (name : string) (self : GeneratorController) (w : World) :
  gmap string (option VeDbusItemImport) :=
  match dict_get (dbus_items self) name with
  | Some _ => match G (env w) name with
              | Value _ => dbus_items self
              | DBusException => delete name (dbus_items self)
              end
  | None => dbus_items self
  end.

(** The mode is On or ChargeOnly: the test that guards the inverter reads
    in [run]. *)
Definition running (self : GeneratorController) : bool :=
  (Mode self =? "On")%string || (Mode self =? "ChargeOnly")%string.

(** [round(q, 1)] on a number. *)
Definition rounded (q : Q) : Q := Qred (round_half_even (q * 10) # 10).

(** ** Writes, step by step *)

(** The item handles a call of [set_dbus_value] leaves: the handle is
    dropped when [set_value] raises. *)
Definition handles_after_write (name : string) (self : GeneratorController)
  (w : World) : gmap string (option VeDbusItemImport) :=
  match dict_get (dbus_items self) name with
  | Some _ =>
      if set_value_raises (env w) name then delete name (dbus_items self)
      else dbus_items self
  | None => dbus_items self
  end.

(** What one call of [set_relay] logs, newest first: nothing when the
    target is the recorded state. *)
Definition relay_events (relay_no : Z) (t : target_value)
  (self : GeneratorController) (w : World) : list event :=
  if py_ne_opt (coerce t) (dict_get (relay_states self) relay_no)
  then bus_writes (relay_name relay_no) (Some (coerce t)) self w
       ++ [Command (relay_name relay_no) (Some (coerce t))]
  else [].

(** The arguments of the eight [set_relay] calls of [set_outputs], in the
    order of the calls. *)
Definition relay_targets (self : GeneratorController) :
  list (Z * target_value) :=
  [ (2, PyBool (if Fault_Detected self then _Toggle_State self
                else Off_LED self));
    (3, PyBool (On_LED self));
    (4, PyBool (Charge_LED self));
    (5, PyBool (BMS_Wake self));
    (6, PyBool (DSE_Remote_Start self));
    (7, PyBool (DSE_Mode_Request self));
    (8, PyBool (RCD_Reset_Switch self));
    (9, PyBool (Reverse_Power_Alarm self)) ].

(** The log of a whole [set_outputs], newest first. *)
Definition outputs_events (self : GeneratorController) (w : World) :
  list event :=
  concat (reverse (map (fun '(n, t) => relay_events n t self w)
                     (relay_targets self))).

(** An event on one of the relays 2 to 9 carrying 0 or 1. *)
Definition relay_event (e : event) : Prop :=
  exists n v, 2 <= n <= 9 /\ (v = 0 \/ v = 1)
              /\ (e = Command (relay_name n) (Some v)
                  \/ e = BusWrite (relay_name n) (Some v)).

(** An event on the inverter switch carrying one of the codes 1, 3, 4. *)
Definition switch_event (e : event) : Prop :=
  exists v, (v = INV_SWITCH_CHARGE_ONLY \/ v = INV_SWITCH_ON
             \/ v = INV_SWITCH_OFF)
            /\ (e = Command "inverter_switch_mode" (Some v)
                \/ e = BusWrite "inverter_switch_mode" (Some v)).

(** ** How a pass ends *)

(** The object after the buttons of the pass have been sampled and
    [update_mode] has run on them. *)
Definition after_buttons (self : GeneratorController) (w : World) :
  GeneratorController :=
  update_mode (with_input_values (digital_inputs (env w)) self).

(** One of the two battery current limits cannot be read in the pass. *)
Definition battery_down (self : GeneratorController) (w : World) : Prop :=
  link_down "battery_charge_limit" self w
  \/ link_down "battery_discharge_limit" self w.

(** The proxy of the AC output current raises on the read, and the item has
    a handle in the pass: one it had, or one the pass imports. *)
Definition ac_read_raises (self : GeneratorController) (w : World) : Prop :=
  analog (env w) "ac_output_current" = DBusException
  /\ (dict_get (dbus_items self) "ac_output_current" <> None
      \/ importable (env w) "ac_output_current" = true).

(** The three buttons are asserted together. *)
Definition all_buttons (i : Inputs) : Prop :=
  Off_Button i = true /\ On_Button i = true /\ Charge_Button i = true.

(** [n] successive calls of a method. *)
Fixpoint times (n : nat) (f : GeneratorController -> M GeneratorController)
  (self : GeneratorController) : M GeneratorController :=
  match n with
  | O => mret self
  | S n' => self ← f self; times n' f self
  end.

(** ** More bench scenarios *)

(** The battery service gone, no button asserted. *)
Definition battery_down_world : World :=
  bench_world (bench_env_battery_down (buttons false false false)).

(** The bench with On pressed and the proxy of the AC output current
    raising on every read. *)
Definition ac_down_env : Env :=
  mkEnv (buttons false true false)
    (fun name =>
       if (name =? "ac_output_current")%string then DBusException
       else if (name =? "battery_soc")%string then Value (Some 80%Q)
       else Value (Some 100%Q))
    (discrete on_env)
    (fun _ => false)
    (fun _ => true).

(** The three buttons held together. *)
Definition restart_env : Env := bench_env (buttons true true true) 100 0 4.

(** The idle bench with every write raising. *)
Definition writes_fail_env : Env :=
  mkEnv (buttons false false false) (analog idle_env) (discrete idle_env)
    (fun _ => true) (fun _ => true).

(** Mode On with the record of every relay at its target. *)
Definition settled_outputs : GeneratorController :=
  with_relay_states
    (list_to_map (map (fun '(n, t) => (n, Some (coerce t)))
                    (relay_targets (fst after_on))))
    (fst after_on).

(** Mode On at a reading of 8 A flowing backwards. *)
Definition reverse_flow : GeneratorController :=
  with_AC_Output_Current (Some (-8)%Q) (fst after_on).

(** Mode On with the settle delay just armed. *)
Definition settling : GeneratorController :=
  with_inverter_delay 10 (fst after_on).

(** * Properties *)

(** *** Case analysis of [update_mode] *)

Ltac update_mode_cases self :=
  let Hm := fresh "Hmode" in
  let Ho := fresh "Hoff" in
  let Hn := fresh "Hon" in
  let Hc := fresh "Hcharge" in
  unfold update_mode, Off_Button_Pressed, On_Button_Pressed,
    Charge_Button_Pressed;
  destruct (Mode self =? EmptyString)%string eqn:Hm;
  destruct (Off_Button (input_values self)) eqn:Ho;
  destruct (On_Button (input_values self)) eqn:Hn;
  destruct (Charge_Button (input_values self)) eqn:Hc;
  repeat (simpl; rewrite ?Hm, ?Ho, ?Hn, ?Hc);
  try match goal with
      | |- context [10 <=? ?x] =>
          let Hh := fresh "Hhold" in
          destruct (10 <=? x) eqn:Hh; repeat (simpl; rewrite ?Hm, ?Ho, ?Hn, ?Hc)
      end.

Lemma update_mode_Mode self :
  let i := input_values self in
  Mode (update_mode self) =
    if Off_Button i && negb (On_Button i || Charge_Button i) then "Off"
    else if On_Button i && negb (Off_Button i || Charge_Button i) then "On"
    else if Charge_Button i && negb (On_Button i || Off_Button i)
    then "ChargeOnly"
    else if (Mode self =? EmptyString)%string then "Off" else Mode self.
Proof. update_mode_cases self; reflexivity. Qed.

Lemma update_mode_counter self :
  Off_Button_Pressed_Counter (update_mode self) =
    if Off_Button (input_values self)
    then Off_Button_Pressed_Counter self + 1 else 0.
Proof. update_mode_cases self; reflexivity. Qed.

Lemma update_mode_BMS_Disable self :
  let i := input_values self in
  BMS_Disable (update_mode self) =
    if (On_Button i && negb (Off_Button i || Charge_Button i))
       || (Charge_Button i && negb (On_Button i || Off_Button i))
    then false
    else if 10 <=? Off_Button_Pressed_Counter (update_mode self) then true
    else BMS_Disable self.
Proof.
  rewrite update_mode_counter.
  update_mode_cases self; reflexivity.
Qed.

Lemma update_mode_reverse_power self :
  Reverse_Power_Counter (update_mode self) = Reverse_Power_Counter self
  /\ Reverse_Power_Alarm (update_mode self) = Reverse_Power_Alarm self.
Proof. update_mode_cases self; split; reflexivity. Qed.

Lemma update_mode_input_values self :
  input_values (update_mode self) = input_values self.
Proof. update_mode_cases self; reflexivity. Qed.

(** [update_mode] reads nothing but the core and the sampled inputs. *)
Lemma update_mode_core_ext a b :
  core a = core b -> input_values a = input_values b ->
  core (update_mode a) = core (update_mode b).
Proof.
  unfold core at 1 2. intros Hc Hi.
  injection Hc as Hm Hc Hb Hr Ha.
  unfold core.
  rewrite !update_mode_Mode, !update_mode_BMS_Disable, !update_mode_counter.
  destruct (update_mode_reverse_power a) as [-> ->].
  destruct (update_mode_reverse_power b) as [-> ->].
  simpl. rewrite Hi, Hm, Hc, Hb, Hr, Ha. reflexivity.
Qed.

Lemma update_mode_valid self : valid_mode (Mode (update_mode self))
  \/ Mode (update_mode self) = Mode self.
Proof.
  rewrite update_mode_Mode; simpl. unfold valid_mode.
  repeat match goal with
         | |- context [if ?b then _ else _] => destruct b
         end; auto.
Qed.

(** After [update_mode] the mode is never the empty string. *)
Lemma update_mode_not_empty self : Mode (update_mode self) <> EmptyString.
Proof.
  rewrite update_mode_Mode; simpl.
  destruct (String.eqb_spec (Mode self) EmptyString);
  repeat match goal with
         | |- context [if ?b then _ else _] => destruct b
         end; congruence.
Qed.

(** *** Case analysis of [check_reverse_power] *)

Ltac check_reverse_power_cases self :=
  let Hd := fresh "Hdetected" in
  unfold check_reverse_power;
  destruct (Reverse_Power_Detected self) eqn:Hd; simpl;
  match goal with
  | |- context [REVERSE_POWER_COUNTER_THRESHOLD <=? ?x] =>
      let Ht := fresh "Hthreshold" in
      destruct (REVERSE_POWER_COUNTER_THRESHOLD <=? x) eqn:Ht; simpl
  end;
  try match goal with
      | |- context [(Mode self =? "Off")%string && ?c] =>
          let Hz := fresh "Hclear" in
          destruct ((Mode self =? "Off")%string && c) eqn:Hz; simpl
      end.

Lemma check_reverse_power_counter self :
  Reverse_Power_Counter (check_reverse_power self) =
    if Reverse_Power_Detected self then Reverse_Power_Counter self + 1
    else Z.max 0 (Reverse_Power_Counter self - 1).
Proof. check_reverse_power_cases self; reflexivity. Qed.

Lemma check_reverse_power_alarm self :
  Reverse_Power_Alarm (check_reverse_power self) =
    if REVERSE_POWER_COUNTER_THRESHOLD
       <=? Reverse_Power_Counter (check_reverse_power self)
    then true
    else if (Mode self =? "Off")%string
            && (Reverse_Power_Counter (check_reverse_power self) =? 0)
    then false
    else Reverse_Power_Alarm self.
Proof.
  rewrite check_reverse_power_counter.
  check_reverse_power_cases self; reflexivity.
Qed.

Lemma check_reverse_power_frame self :
  Mode (check_reverse_power self) = Mode self
  /\ Off_Button_Pressed_Counter (check_reverse_power self)
     = Off_Button_Pressed_Counter self
  /\ BMS_Disable (check_reverse_power self) = BMS_Disable self
  /\ input_values (check_reverse_power self) = input_values self.
Proof. check_reverse_power_cases self; repeat split; reflexivity. Qed.

(** ** Running the monad *)

Lemma bind_Ok {A B : Type} (m : M A) (f : A -> M B) (w : World)
  (r : B * World) :
  (m ≫= f) w = Ok r -> exists a w1, m w = Ok (a, w1) /\ f a w1 = Ok r.
Proof.
  unfold mbind, M_bind. destruct (m w) as [[a w1]|e]; [|discriminate].
  intros H. exists a, w1. split; [reflexivity | exact H].
Qed.

Lemma bind_Ok_eq {A B : Type} (m : M A) (f : A -> M B) (w w1 : World) (a : A) :
  m w = Ok (a, w1) -> (m ≫= f) w = f a w1.
Proof. unfold mbind, M_bind. intros ->. reflexivity. Qed.

Lemma bind_Raise {A B : Type} (m : M A) (f : A -> M B) (w : World) (e : exn) :
  m w = Raise e -> (m ≫= f) w = Raise e.
Proof. unfold mbind, M_bind. intros ->. reflexivity. Qed.

Lemma ret_Ok {A : Type} (a b : A) (w w' : World) :
  (mret a : M A) w = Ok (b, w') -> b = a /\ w' = w.
Proof. unfold mret, M_ret. intros [= <- <-]. split; reflexivity. Qed.

Lemma with_dbus_items_twice i j self :
  with_dbus_items i (with_dbus_items j self) = with_dbus_items i self.
Proof. reflexivity. Qed.

Lemma with_dbus_items_same self : with_dbus_items (dbus_items self) self = self.
Proof. destruct self; reflexivity. Qed.

(** [dict_get] finds something only under a key that is present. *)
Lemma dict_get_Some {K A : Type} `{Countable K} (d : gmap K (option A)) k x :
  dict_get d k = Some x -> d !! k = Some (Some x).
Proof. unfold dict_get. destruct (d !! k) as [v|]; [intros ->|]; done. Qed.

(** *** Bus access changes [dbus_items] and nothing else *)

Lemma get_dbus_value_spec {A : Type} (G : Env -> string -> reply A) name self w :
  exists items,
    get_dbus_value G name self w
    = Ok ((match dict_get (dbus_items self) name with
           | Some _ => match G (env w) name with
                       | Value v => v
                       | DBusException => None
                       end
           | None => None
           end, with_dbus_items items self), w)
    /\ (items = dbus_items self \/ items = delete name (dbus_items self)).
Proof.
  unfold get_dbus_value.
  destruct (dict_get (dbus_items self) name) as [item|] eqn:Hget.
  - apply dict_get_Some in Hget.
    unfold mbind, M_bind, ask, clear_dbus_item; simpl.
    destruct (G (env w) name) as [v|].
    + exists (dbus_items self). rewrite with_dbus_items_same. auto.
    + rewrite Hget. simpl. eexists. split; [reflexivity | auto].
  - exists (dbus_items self). rewrite with_dbus_items_same. auto.
Qed.

Lemma set_dbus_value_spec name v self w :
  exists items,
    set_dbus_value name v self w
    = Ok (with_dbus_items items self,
          mkWorld (env w) (clock w) (clock_reads w)
                  (bus_writes name v self w ++ Command name v :: log w)).
Proof.
  unfold set_dbus_value, bus_writes.
  destruct (dict_get (dbus_items self) name) as [item|] eqn:Hget.
  - apply dict_get_Some in Hget.
    unfold mbind, M_bind, ask, emit, clear_dbus_item; simpl.
    destruct (set_value_raises (env w) name).
    + rewrite Hget. simpl. eexists. reflexivity.
    + exists (dbus_items self). rewrite with_dbus_items_same. reflexivity.
  - exists (dbus_items self). rewrite with_dbus_items_same. reflexivity.
Qed.

Lemma elem_of_bus_writes name v self w :
  BusWrite name v ∈ bus_writes name v self w
  <-> dict_get (dbus_items self) name <> None
      /\ set_value_raises (env w) name = false.
Proof.
  unfold bus_writes.
  destruct (dict_get (dbus_items self) name) as [item|].
  - destruct (set_value_raises (env w) name).
    + split; [intros Hin; inversion Hin | intros [_ Hf]; discriminate].
    + split; [intros _; split; [discriminate | reflexivity]|].
      intros _. apply list_elem_of_singleton. reflexivity.
  - split; [intros Hin; inversion Hin | intros [Hn _]; contradiction].
Qed.

Lemma Command_not_in_bus_writes name v name' v' self w :
  Command name' v' ∉ bus_writes name v self w.
Proof.
  unfold bus_writes. intros Hin.
  destruct (dict_get (dbus_items self) name);
    [destruct (set_value_raises (env w) name)|];
    try (inversion Hin; fail).
  apply list_elem_of_singleton in Hin. discriminate.
Qed.

(** *** Methods that leave the control core alone *)

(** Replace the leading [get_dbus_value] of a computation by its result. *)
Ltac read_bus H v :=
  match type of H with
  | (get_dbus_value ?G ?n ?s ≫= _) ?w = _ =>
      let items := fresh "items" in
      let Hg := fresh "Hg" in
      destruct (get_dbus_value_spec G n s w) as (items & Hg & _);
      rewrite (bind_Ok_eq _ _ _ _ _ Hg) in H; clear Hg;
      cbv beta iota in H;
      match type of H with
      | context [match dict_get (dbus_items s) n with _ => _ end] =>
          set (v := match dict_get (dbus_items s) n with
                    | Some _ => _ | None => _ end) in H;
          clearbody v
      end
  end.

Ltac frame_done :=
  match goal with
  | H : _ = Ok _ |- _ =>
      cbv [mbind M_bind lift round1 mret M_ret] in H;
      injection H as <- <-
  end; repeat split; reflexivity.

Lemma frame_ret : frame (fun self => mret self).
Proof. intros self w self' w' H. apply ret_Ok in H as [-> ->]. auto. Qed.

Lemma frame_bind f g :
  frame f -> frame g -> frame (fun self => self ← f self; g self).
Proof.
  intros Hf Hg self w self' w' H.
  apply bind_Ok in H as (s1 & w1 & H1 & H2).
  apply Hf in H1 as (Hc1 & Hi1 & He1). apply Hg in H2 as (Hc2 & Hi2 & He2).
  repeat split; congruence.
Qed.

Lemma frame_for_each {A : Type} (l : list A)
  (body : A -> GeneratorController -> M GeneratorController) :
  (forall x, frame (body x)) -> frame (for_each l body).
Proof.
  intros Hb. induction l as [|x l IH]; simpl.
  - apply frame_ret.
  - apply (frame_bind (body x) (for_each l body)); auto.
Qed.

Lemma frame_clear_dbus_item name : frame (clear_dbus_item name).
Proof.
  intros self w self' w' H. unfold clear_dbus_item in H.
  destruct (dbus_items self !! name); [|discriminate].
  frame_done.
Qed.

Lemma frame_set_dbus_value name v : frame (set_dbus_value name v).
Proof.
  intros self w self' w' H.
  destruct (set_dbus_value_spec name v self w) as (items & Hs).
  rewrite Hs in H. frame_done.
Qed.

Lemma frame_check_and_create_connections : frame check_and_create_connections.
Proof.
  unfold check_and_create_connections. apply frame_for_each.
  intros [k v] self w self' w' H.
  destruct (dict_get (dbus_items self) k).
  - frame_done.
  - unfold mbind, M_bind, ask in H. destruct (importable (env w) k); frame_done.
Qed.

Lemma frame_update_battery_soc : frame update_battery_soc.
Proof.
  intros self w self' w' H. unfold update_battery_soc in H.
  read_bus H val. destruct val; frame_done.
Qed.

Lemma frame_update_battery_limits : frame update_battery_limits.
Proof.
  intros self w self' w' H. unfold update_battery_limits in H.
  read_bus H charge_lim. read_bus H discharge_lim. simpl in H.
  destruct charge_lim, discharge_lim; try discriminate.
  frame_done.
Qed.

Lemma frame_update_ac_output_current : frame update_ac_output_current.
Proof.
  intros self w self' w' H. unfold update_ac_output_current in H.
  read_bus H val. destruct val.
  - frame_done.
  - apply frame_clear_dbus_item in H. exact H.
Qed.

Lemma frame_update_inverter_switch_mode : frame update_inverter_switch_mode.
Proof.
  intros self w self' w' H. unfold update_inverter_switch_mode in H.
  read_bus H val. destruct val; frame_done.
Qed.

Lemma frame_update_relay_states : frame update_relay_states.
Proof.
  intros self w self' w' H. unfold update_relay_states in H.
  apply frame_for_each in H; [exact H|].
  clear. intros relay_no self w self' w' H.
  read_bus H val. frame_done.
Qed.

Lemma frame_set_relay relay_no t : frame (set_relay relay_no t).
Proof.
  intros self w self' w' H. unfold set_relay in H.
  destruct (py_ne_opt _ _).
  - apply frame_set_dbus_value in H. exact H.
  - frame_done.
Qed.

Lemma frame_set_outputs : frame set_outputs.
Proof.
  intros self w self' w' H. unfold set_outputs in H.
  apply bind_Ok in H as (s2 & w2 & H2 & H).
  assert (F2 : core s2 = core self /\ input_values s2 = input_values self
               /\ env w2 = env w).
  { destruct (Fault_Detected self).
    - apply bind_Ok in H2 as (s1 & w1 & H1 & H2).
      apply frame_set_relay in H1 as (Hc & Hi & He).
      apply ret_Ok in H2 as [-> ->].
      repeat split; [rewrite <- Hc | rewrite <- Hi | rewrite <- He];
        reflexivity.
    - apply frame_set_relay in H2. exact H2. }
  destruct F2 as (Hc2 & Hi2 & He2).
  repeat (let s := fresh "s" in
          let w := fresh "w" in
          let Hs := fresh "Hs" in
          let Hc := fresh "Hc" in
          let Hi := fresh "Hi" in
          let He := fresh "He" in
          apply bind_Ok in H as (s & w & Hs & H);
          apply frame_set_relay in Hs as (Hc & Hi & He)).
  apply frame_set_relay in H as (Hclast & Hilast & Helast).
  repeat split; congruence.
Qed.

Lemma frame_set_inverter_switch_mode : frame set_inverter_switch_mode.
Proof.
  intros self w self' w' H. unfold set_inverter_switch_mode in H.
  destruct (py_ne _ _); [|frame_done].
  unfold Battery_Contactors_Closed, truthy in H.
  destruct (Qeq_bool _ 0) eqn:E; cbv beta iota zeta in H; rewrite E in H;
    simpl in H; [frame_done|].
  destruct (_ =? 0); [|frame_done].
  cbv [mbind M_bind time] in H; simpl in H.
  destruct (Qgtb _ 5); [|frame_done].
  apply frame_set_dbus_value in H. exact H.
Qed.

(** One pass of the loop acts on the core as [update_mode] on the sampled
    inputs, followed, in the two running modes, by [check_reverse_power]
    on the state [s] the telemetry reads leave. *)
Lemma tick_core self w self' w' :
  tick self w = Ok (self', w') ->
  exists s,
    core s = core (update_mode (with_input_values (digital_inputs (env w)) self))
    /\ core self'
       = core (if (Mode s =? "On")%string || (Mode s =? "ChargeOnly")%string
               then check_reverse_power s else s).
Proof.
  intros H. unfold tick in H.
  apply bind_Ok in H as (t0 & w1 & Ht & H).
  cbv [time] in Ht. injection Ht as _ <-.
  apply bind_Ok in H as (s1 & w2 & H1 & H).
  apply frame_check_and_create_connections in H1 as (Hc1 & Hi1 & He1).
  simpl in He1.
  apply bind_Ok in H as (s2 & w3 & H2 & H).
  cbv [update_inputs mbind M_bind ask mret M_ret] in H2.
  injection H2 as <- <-.
  apply bind_Ok in H as (s3 & w4 & H3 & H).
  apply frame_update_battery_soc in H3 as (Hc3 & Hi3 & He3).
  apply bind_Ok in H as (s4 & w5 & H4 & H).
  apply frame_update_battery_limits in H4 as (Hc4 & Hi4 & He4).
  apply bind_Ok in H as (s5 & w6 & H5 & H).
  apply bind_Ok in H as (s6 & w7 & H6 & H).
  apply frame_update_relay_states in H6 as (Hc6 & Hi6 & He6).
  apply bind_Ok in H as (s7 & w8 & H7 & H).
  apply frame_set_outputs in H7 as (Hc7 & Hi7 & He7).
  apply bind_Ok in H as (s8 & w9 & H8 & H).
  apply frame_update_inverter_switch_mode in H8 as (Hc8 & Hi8 & He8).
  apply bind_Ok in H as (s9 & w10 & H9 & H).
  apply frame_set_inverter_switch_mode in H9 as (Hc9 & Hi9 & He9).
  assert (self' = s9) as ->.
  { destruct (Service_Restart_Requested s9); [discriminate|].
    cbv [mbind M_bind time mret M_ret] in H. congruence. }
  assert (Hin : core s4
                = core (update_mode
                          (with_input_values (digital_inputs (env w)) self))).
  { rewrite Hc4, Hc3. apply update_mode_core_ext.
    - exact Hc1.
    - simpl. rewrite He1. reflexivity. }
  assert (Hout : core s9 = core s5) by congruence.
  destruct ((Mode s4 =? "On")%string || (Mode s4 =? "ChargeOnly")%string)
    eqn:Hrun.
  - apply bind_Ok in H5 as (sa & wa & Ha & H5).
    apply frame_update_ac_output_current in Ha as (Hca & Hia & Hea).
    apply ret_Ok in H5 as [-> ->].
    exists sa. split; [congruence|].
    assert (Mode sa = Mode s4) as ->
        by (unfold core in Hca; congruence).
    rewrite Hrun. exact Hout.
  - apply ret_Ok in H5 as [-> ->].
    exists s4. split; [exact Hin|]. rewrite Hrun. exact Hout.
Qed.

(** The operator-facing part of the core after a pass is what
    [update_mode] computes from the sampled buttons. *)
Lemma tick_buttons self w self' w' :
  tick self w = Ok (self', w') ->
  let s := update_mode (with_input_values (digital_inputs (env w)) self) in
  Mode self' = Mode s
  /\ Off_Button_Pressed_Counter self' = Off_Button_Pressed_Counter s
  /\ BMS_Disable self' = BMS_Disable s.
Proof.
  intros H. apply tick_core in H as (s1 & Hs1 & Hc). simpl.
  assert (Hk : forall x : GeneratorController,
             Mode (if (Mode s1 =? "On")%string || (Mode s1 =? "ChargeOnly")%string
                   then check_reverse_power x else x) = Mode x
             /\ Off_Button_Pressed_Counter
                  (if (Mode s1 =? "On")%string || (Mode s1 =? "ChargeOnly")%string
                   then check_reverse_power x else x)
                = Off_Button_Pressed_Counter x
             /\ BMS_Disable
                  (if (Mode s1 =? "On")%string || (Mode s1 =? "ChargeOnly")%string
                   then check_reverse_power x else x) = BMS_Disable x).
  { intros x. destruct (_ || _); [|auto].
    destruct (check_reverse_power_frame x) as (-> & -> & -> & _). auto. }
  destruct (Hk s1) as (Hm & Ho & Hb).
  unfold core in Hs1, Hc.
  injection Hc as Hc1 Hc2 Hc3 _ _. injection Hs1 as Hs1 Hs2 Hs3 _ _.
  repeat split; congruence.
Qed.

Lemma reachable_Mode self :
  reachable self -> Mode self = EmptyString \/ valid_mode (Mode self).
Proof.
  induction 1 as [w self w' H | self w self' w' _ IH H].
  - apply frame_check_and_create_connections in H as (Hc & _).
    unfold core in Hc. injection Hc as -> _ _ _ _. left. reflexivity.
  - apply tick_buttons in H as (-> & _).
    destruct (update_mode_valid
                (with_input_values (digital_inputs (env w)) self)) as [Hv | ->];
      [right; exact Hv | exact IH].
Qed.

(** ** The mode state machine (C6, C7, C8) *)

(** C6.  Along every run, a pass of the loop sets the mode to Off, On or
    ChargeOnly when the matching button is the only one asserted; with no
    button or several asserted it leaves the mode as it was, except that the
    empty mode of a fresh controller defaults to Off; and whatever the
    buttons, the mode after a pass is one of Off, On, ChargeOnly. *)
Theorem mode_changes_only_on_single_button self w self' w' :
  reachable self ->
  tick self w = Ok (self', w') ->
  let i := digital_inputs (env w) in
  (Off_alone i -> Mode self' = "Off")
  /\ (On_alone i -> Mode self' = "On")
  /\ (Charge_alone i -> Mode self' = "ChargeOnly")
  /\ (no_single_button i -> Mode self <> EmptyString -> Mode self' = Mode self)
  /\ (no_single_button i -> Mode self = EmptyString -> Mode self' = "Off")
  /\ valid_mode (Mode self').
Proof.
  intros Hr H. apply tick_buttons in H as (Hm & _). simpl in *.
  assert (Hv : valid_mode (Mode self')).
  { rewrite Hm.
    destruct (update_mode_valid
                (with_input_values (digital_inputs (env w)) self)) as [Hv|He];
      [exact Hv|].
    destruct (reachable_Mode self Hr) as [Hempty|Hv].
    - exfalso. apply (update_mode_not_empty
                        (with_input_values (digital_inputs (env w)) self)).
      rewrite He. exact Hempty.
    - rewrite He. exact Hv. }
  rewrite update_mode_Mode in Hm. simpl in Hm.
  unfold no_single_button, Off_alone, On_alone, Charge_alone.
  repeat split; try exact Hv.
  - intros (Ho & Hn & Hc). rewrite Hn, Ho, Hc in Hm. exact Hm.
  - intros (Hn & Ho & Hc). rewrite Hn, Ho, Hc in Hm. exact Hm.
  - intros (Hc & Hn & Ho). rewrite Hn, Ho, Hc in Hm. exact Hm.
  - intros (H1 & H2 & H3) Hne. rewrite Hm.
    destruct (Off_Button _), (On_Button _), (Charge_Button _); simpl;
      try (exfalso; tauto);
      (destruct (String.eqb_spec (Mode self) EmptyString); [contradiction | reflexivity]).
  - intros (H1 & H2 & H3) He. rewrite Hm, He.
    destruct (Off_Button _), (On_Button _), (Charge_Button _); simpl;
      try (exfalso; tauto); reflexivity.
Qed.

(** C7.  In a pass of the loop the hold counter grows by one when the Off
    button is held and is reset to 0 otherwise; a counter of 10 or more sets
    [BMS_Disable]; once set it stays set through every pass that is not a
    lone On or a lone Charge press, and such a press clears it. *)
Theorem off_hold_counter_latches_bms_disable self w self' w' :
  tick self w = Ok (self', w') ->
  let i := digital_inputs (env w) in
  (Off_Button i = true ->
   Off_Button_Pressed_Counter self' = Off_Button_Pressed_Counter self + 1)
  /\ (Off_Button i = false -> Off_Button_Pressed_Counter self' = 0)
  /\ (10 <= Off_Button_Pressed_Counter self' -> BMS_Disable self' = true)
  /\ (BMS_Disable self = true -> ~ On_alone i -> ~ Charge_alone i ->
      BMS_Disable self' = true)
  /\ (On_alone i \/ Charge_alone i -> BMS_Disable self' = false).
Proof.
  intros H. apply tick_buttons in H as (_ & Hc & Hb). simpl in *.
  rewrite update_mode_BMS_Disable in Hb. rewrite <- Hc in Hb.
  rewrite update_mode_counter in Hc. simpl in Hb, Hc.
  unfold On_alone, Charge_alone.
  repeat split.
  - intros Ho. rewrite Ho in Hc. exact Hc.
  - intros Ho. rewrite Ho in Hc. exact Hc.
  - intros Hten. apply Z.leb_le in Hten. rewrite Hten in Hb.
    destruct (Off_Button _) eqn:Ho.
    + rewrite Hb. destruct (On_Button _), (Charge_Button _); reflexivity.
    + rewrite Hc in Hten. discriminate.
  - intros Hd Hn Hch. rewrite Hb, Hd.
    destruct (Off_Button _), (On_Button _), (Charge_Button _); simpl;
      try (exfalso; tauto);
      destruct (10 <=? _); reflexivity.
  - intros [(Hn & Ho & Hch) | (Hch & Hn & Ho)];
      rewrite Hn, Ho, Hch in Hb; exact Hb.
Qed.

(** The hold counter after a pass, and the escalation it drives. *)
Lemma tick_hold self w self' w' :
  tick self w = Ok (self', w') ->
  Off_Button_Pressed_Counter self'
  = (if Off_Button (digital_inputs (env w))
     then Off_Button_Pressed_Counter self + 1 else 0)
  /\ (10 <= Off_Button_Pressed_Counter self' -> BMS_Disable self' = true).
Proof.
  intros H. apply tick_buttons in H as (_ & Hc & Hb). simpl in *.
  rewrite update_mode_BMS_Disable in Hb. rewrite <- Hc in Hb.
  rewrite update_mode_counter in Hc. simpl in Hb, Hc.
  split; [exact Hc|].
  intros Hten. apply Z.leb_le in Hten. rewrite Hten in Hb.
  destruct (Off_Button _) eqn:Ho.
  - rewrite Hb. destruct (On_Button _), (Charge_Button _); reflexivity.
  - rewrite Hc in Hten. discriminate.
Qed.

(** Holding Off through every pass of a run adds the length of the run to
    the hold counter, and sets [BMS_Disable] once the counter is at 10. *)
Lemma run_off_held envs : forall self w self' w',
  Forall (fun e => Off_Button (digital_inputs e) = true) envs ->
  run envs self w = Ok (self', w') ->
  Off_Button_Pressed_Counter self'
  = Off_Button_Pressed_Counter self + Z.of_nat (length envs)
  /\ (envs <> [] -> 10 <= Off_Button_Pressed_Counter self' ->
      BMS_Disable self' = true).
Proof.
  induction envs as [|e envs IH]; intros self w self' w' Hall H.
  - apply ret_Ok in H as [-> ->]. simpl. split; [lia | congruence].
  - simpl in H.
    destruct (tick self _) as [[s1 w1]|] eqn:Ht; [|discriminate].
    apply Forall_cons in Hall as [He Hall].
    destruct (tick_hold self _ _ _ Ht) as (Hinc & Hset). simpl in Hinc.
    rewrite He in Hinc.
    destruct (IH _ _ _ _ Hall H) as [Hcount Hdis].
    split; [rewrite Hcount, Hinc, length_cons; lia|].
    intros _ Hten.
    destruct envs as [|e' envs'].
    + apply ret_Ok in H as [-> ->]. apply Hset. exact Hten.
    + apply Hdis; [discriminate | exact Hten].
Qed.

(** Ten consecutive passes with Off held, starting from a counter that is
    not negative, leave [BMS_Disable] set. *)
Corollary ten_ticks_off_held envs self w self' w' :
  length envs = 10%nat ->
  Forall (fun e => Off_Button (digital_inputs e) = true) envs ->
  0 <= Off_Button_Pressed_Counter self ->
  run envs self w = Ok (self', w') ->
  BMS_Disable self' = true.
Proof.
  intros Hlen Hall Hpos H.
  destruct (run_off_held envs self w self' w' Hall H) as [Hc Hd].
  apply Hd; [destruct envs; [discriminate | congruence] | lia].
Qed.

(** C8.  With the reverse-power alarm set the switch-mode target is OFF
    (4) in every mode.  Otherwise it is the table image of the mode: Off
    gives 4, On gives 3, ChargeOnly gives 1.  The table also holds
    InvertOnly, with code 2, but no state of a run has that target. *)
Theorem inverter_switch_mode_target_table self :
  (Reverse_Power_Alarm self = true -> Inverter_Switch_Mode_Target self = Some 4)
  /\ (Reverse_Power_Alarm self = false ->
      (Mode self = "Off" -> Inverter_Switch_Mode_Target self = Some 4)
      /\ (Mode self = "On" -> Inverter_Switch_Mode_Target self = Some 3)
      /\ (Mode self = "ChargeOnly" -> Inverter_Switch_Mode_Target self = Some 1))
  /\ modes !! "InvertOnly" = Some 2
  /\ (reachable self -> Inverter_Switch_Mode_Target self <> Some 2).
Proof.
  unfold Inverter_Switch_Mode_Target.
  split; [intros ->; reflexivity|].
  split; [intros ->; repeat split; intros ->; reflexivity|].
  split; [reflexivity|].
  intros Hr. destruct (Reverse_Power_Alarm self); [discriminate|].
  destruct (reachable_Mode self Hr) as [-> | [-> | [-> | ->]]]; discriminate.
Qed.

(** ** The output sequencer (C1, C4, C9, C10) *)

Lemma emitted_app w w' l : log w' = l ++ log w -> emitted w w' = l.
Proof.
  intros H. unfold emitted. rewrite H, length_app.
  replace (length l + length (log w) - length (log w))%nat with (length l)
    by lia.
  apply take_app_length.
Qed.

Lemma emitted_same w : emitted w w = [].
Proof. apply (emitted_app w w []). reflexivity. Qed.

Lemma py_ne_true a b : py_ne a b = true <-> a <> Some b.
Proof.
  destruct a as [x|]; simpl; [|split; [discriminate | reflexivity]].
  rewrite negb_true_iff, Z.eqb_neq. split; congruence.
Qed.

Lemma py_ne_false a b : py_ne a b = false <-> a = Some b.
Proof.
  destruct a as [x|]; simpl; [|split; discriminate].
  rewrite negb_false_iff, Z.eqb_eq. split; congruence.
Qed.

Lemma py_ne_opt_true a b : py_ne_opt a b = true <-> b <> Some a.
Proof.
  destruct b as [y|]; simpl; [|split; [discriminate | reflexivity]].
  rewrite negb_true_iff, Z.eqb_neq. split; congruence.
Qed.

Lemma truthy_py_and a b : truthy (py_and a b) = truthy a && truthy b.
Proof. unfold py_and. destruct (truthy a) eqn:E; [reflexivity | exact E]. Qed.

Lemma Qgtb_true x y : Qgtb x y = true <-> (y < x)%Q.
Proof.
  unfold Qgtb, Qltb. rewrite Qlt_alt.
  destruct (y ?= x)%Q; split; congruence.
Qed.

(** What [set_inverter_switch_mode] returns, branch by branch. *)
Lemma set_inverter_switch_mode_spec self w :
  let now := clock w (clock_reads w) in
  let stamp := clock w (S (clock_reads w)) in
  let target := Inverter_Switch_Mode_Target self in
  if py_ne target (Inverter_Switch_Mode self)
  then
    if truthy (Battery_Charge_Limit self) && truthy (Battery_Discharge_Limit self)
    then
      if inverter_delay self =? 0
      then
        if Qgtb (now - _inverter_switch_mode_update_time self) 5
        then
          exists items,
            set_inverter_switch_mode self w
            = Ok (with_dbus_items items
                    (with_inverter_switch_mode_update_time stamp self),
                  mkWorld (env w) (clock w) (S (S (clock_reads w)))
                    (bus_writes "inverter_switch_mode" target self w
                     ++ Command "inverter_switch_mode" target :: log w))
        else
          set_inverter_switch_mode self w
          = Ok (self, mkWorld (env w) (clock w) (S (clock_reads w)) (log w))
      else
        set_inverter_switch_mode self w
        = Ok (with_inverter_delay (Z.max 0 (inverter_delay self - 1)) self, w)
    else set_inverter_switch_mode self w = Ok (with_inverter_delay 10 self, w)
  else set_inverter_switch_mode self w = Ok (self, w).
Proof.
  simpl. unfold set_inverter_switch_mode.
  destruct (py_ne _ _); [|reflexivity].
  unfold Battery_Contactors_Closed.
  rewrite <- truthy_py_and. unfold truthy at 1.
  destruct (Qeq_bool _ 0) eqn:E; cbv beta iota zeta; unfold truthy;
    rewrite E; simpl; [reflexivity|].
  destruct (inverter_delay self =? 0); [|reflexivity].
  cbv [mbind M_bind time]; simpl.
  destruct (Qgtb _ 5); [|reflexivity].
  destruct (set_dbus_value_spec "inverter_switch_mode"
              (Inverter_Switch_Mode_Target self)
              (with_inverter_switch_mode_update_time
                 (clock w (S (clock_reads w))) self)
              (mkWorld (env w) (clock w) (S (S (clock_reads w))) (log w)))
    as (items & Hs).
  exists items. exact Hs.
Qed.

Lemma contactors_open_or_closed self :
  truthy (Battery_Charge_Limit self) && truthy (Battery_Discharge_Limit self)
  = true <-> contactors_closed self.
Proof. unfold contactors_closed. apply andb_true_iff. Qed.

Lemma contactors_open_iff self :
  truthy (Battery_Charge_Limit self) && truthy (Battery_Discharge_Limit self)
  = false <-> contactors_open self.
Proof. unfold contactors_open. apply andb_false_iff. Qed.

(** Through the gate the command goes out and its time is recorded. *)
Lemma set_inverter_switch_mode_commits self w :
  switch_gate self (clock w (clock_reads w)) ->
  exists self' w',
    set_inverter_switch_mode self w = Ok (self', w')
    /\ switch_command self ∈ emitted w w'
    /\ _inverter_switch_mode_update_time self' = clock w (S (clock_reads w)).
Proof.
  intros (Hp & Hc & Hd & Ht).
  pose proof (set_inverter_switch_mode_spec self w) as H. simpl in H.
  apply py_ne_true in Hp. apply contactors_open_or_closed in Hc.
  apply Z.eqb_eq in Hd. apply Qgtb_true in Ht.
  rewrite Hp, Hc, Hd, Ht in H. destruct H as (items & H).
  eexists _, _. split; [exact H|].
  rewrite (emitted_app _ _ (bus_writes "inverter_switch_mode"
                              (Inverter_Switch_Mode_Target self) self w
                            ++ [switch_command self]))
    by (simpl; rewrite <- app_assoc; reflexivity).
  split; [|reflexivity].
  apply elem_of_app. right. apply list_elem_of_singleton. reflexivity.
Qed.

(** C1, as the code has it.  [set_inverter_switch_mode] always returns.
    It issues the switch-mode command if and only if the target differs
    from the confirmed switch mode, both current limits are truthy, the
    settle delay is 0, and strictly more than 5 time units separate the
    clock reading from the last command; issuing the command records a
    fresh clock reading as the command time, and when the gate fails
    nothing is sent and the command time is kept. *)
Theorem switch_command_iff_gate self w :
  exists self' w',
    set_inverter_switch_mode self w = Ok (self', w')
    /\ (switch_command self ∈ emitted w w'
        <-> switch_gate self (clock w (clock_reads w)))
    /\ (switch_gate self (clock w (clock_reads w)) ->
        _inverter_switch_mode_update_time self' = clock w (S (clock_reads w)))
    /\ (~ switch_gate self (clock w (clock_reads w)) ->
        emitted w w' = []
        /\ _inverter_switch_mode_update_time self'
           = _inverter_switch_mode_update_time self).
Proof.
  pose proof (set_inverter_switch_mode_spec self w) as H. simpl in H.
  assert (Hno : forall self' w',
             set_inverter_switch_mode self w = Ok (self', w') ->
             log w' = log w ->
             _inverter_switch_mode_update_time self'
             = _inverter_switch_mode_update_time self ->
             ~ switch_gate self (clock w (clock_reads w)) ->
             exists self' w',
               set_inverter_switch_mode self w = Ok (self', w')
               /\ (switch_command self ∈ emitted w w'
                   <-> switch_gate self (clock w (clock_reads w)))
               /\ (switch_gate self (clock w (clock_reads w)) ->
                   _inverter_switch_mode_update_time self'
                   = clock w (S (clock_reads w)))
               /\ (~ switch_gate self (clock w (clock_reads w)) ->
                   emitted w w' = []
                   /\ _inverter_switch_mode_update_time self'
                      = _inverter_switch_mode_update_time self)).
  { intros s' w' Hs Hl Ht Hng. exists s', w'.
    rewrite (emitted_app w w' []) by exact Hl.
    split; [exact Hs|]. split; [|split].
    - split; [intros Hin; inversion Hin | intros Hg; contradiction].
    - intros Hg. contradiction.
    - intros _. split; [reflexivity | exact Ht]. }
  destruct (py_ne _ _) eqn:Hp.
  2:{ apply py_ne_false in Hp. apply (Hno _ _ H); try reflexivity.
      intros (Hpe & _). apply Hpe. exact Hp. }
  apply py_ne_true in Hp.
  destruct (truthy _ && truthy _) eqn:Hc.
  2:{ apply (Hno _ _ H); try reflexivity.
      intros (_ & Hcl & _). apply contactors_open_or_closed in Hcl.
      congruence. }
  apply contactors_open_or_closed in Hc.
  destruct (inverter_delay self =? 0) eqn:Hd.
  2:{ apply Z.eqb_neq in Hd. apply (Hno _ _ H); try reflexivity.
      intros (_ & _ & Hz & _). contradiction. }
  apply Z.eqb_eq in Hd.
  destruct (Qgtb _ 5) eqn:Ht.
  - apply Qgtb_true in Ht. clear Hno.
    assert (Hg : switch_gate self (clock w (clock_reads w)))
      by (unfold switch_gate; auto).
    destruct H as (items & H).
    eexists _, _. split; [exact H|].
    rewrite (emitted_app _ _ (bus_writes "inverter_switch_mode"
                                (Inverter_Switch_Mode_Target self) self w
                              ++ [switch_command self]))
      by (simpl; rewrite <- app_assoc; reflexivity).
    split; [|split].
    + split; [intros _; exact Hg|].
      intros _. apply elem_of_app. right. apply list_elem_of_singleton.
      reflexivity.
    + intros _. reflexivity.
    + intros Hn. contradiction.
  - apply (Hno _ _ H); try reflexivity.
    intros (_ & _ & _ & Hlt). apply Qgtb_true in Hlt. congruence.
Qed.

(** C4, as the code has it.  The contactors are examined only while a
    command is pending.  Then, if a current limit is falsy, the settle delay
    is set to 10 and nothing is sent; if both are truthy, the delay moves
    one step toward 0, floored at 0, and a command goes out only when the
    delay was already 0.  While no command is pending the delay is left as
    it was. *)
Theorem settle_delay_while_pending self w :
  exists self' w',
    set_inverter_switch_mode self w = Ok (self', w')
    /\ (pending self -> contactors_open self ->
        inverter_delay self' = 10 /\ emitted w w' = [])
    /\ (pending self -> contactors_closed self ->
        inverter_delay self' = Z.max 0 (inverter_delay self - 1)
        /\ (switch_command self ∈ emitted w w' -> inverter_delay self = 0))
    /\ (~ pending self ->
        inverter_delay self' = inverter_delay self /\ emitted w w' = []).
Proof.
  pose proof (set_inverter_switch_mode_spec self w) as H. simpl in H.

  destruct (py_ne _ _) eqn:Hp.
  2:{ apply py_ne_false in Hp. exists self, w. rewrite emitted_same.
      split; [exact H|]. unfold pending.
      split; [|split]; try (intros Hpe; contradiction).
      intros _. split; reflexivity. }
  apply py_ne_true in Hp.
  destruct (truthy _ && truthy _) eqn:Hc.
  2:{ apply contactors_open_iff in Hc. eexists _, w. rewrite emitted_same.
      split; [exact H|].
      split; [|split]; try (intros Hpe; contradiction).
      - intros _ _. split; reflexivity.
      - intros _ Hcl. apply contactors_open_or_closed in Hcl.
        apply contactors_open_iff in Hc. congruence. }
  assert (Hnopen : ~ contactors_open self).
  { intros Ho. apply contactors_open_iff in Ho. congruence. }
  destruct (inverter_delay self =? 0) eqn:Hd.
  2:{ apply Z.eqb_neq in Hd. eexists _, w. rewrite emitted_same.
      split; [exact H|].
      split; [|split]; try (intros Hpe; contradiction).
      intros _ _. split; [reflexivity|]. intros Hin. inversion Hin. }
  apply Z.eqb_eq in Hd.
  assert (Hz : 0 = Z.max 0 (inverter_delay self - 1)) by lia.
  destruct (Qgtb _ 5) eqn:Ht.
  - destruct H as (items & H).
    eexists _, _. split; [exact H|].
    split; [|split]; try (intros Hpe; contradiction).
    intros _ _. simpl. split; [lia | intros _; exact Hd].
  - eexists _, _. split; [exact H|].
    split; [|split]; try (intros Hpe; contradiction).
    intros _ _. split; [lia | intros _; exact Hd].
Qed.

(** C9.  [set_relay] always returns.  It calls for a write of the relay
    if and only if the target, a boolean being read as 0 or 1, differs from
    the state last recorded for that relay; the write reaches the bus when,
    in addition, the relay's item handle is there and its [set_value] does
    not raise.  When target and recorded state are equal it sends nothing
    and leaves the object and the bus as they were. *)
Theorem relay_write_iff_changed relay_no t self w :
  exists self' w',
    set_relay relay_no t self w = Ok (self', w')
    /\ (Command (relay_name relay_no) (Some (coerce t)) ∈ emitted w w'
        <-> dict_get (relay_states self) relay_no <> Some (coerce t))
    /\ (BusWrite (relay_name relay_no) (Some (coerce t)) ∈ emitted w w'
        <-> dict_get (relay_states self) relay_no <> Some (coerce t)
            /\ dict_get (dbus_items self) (relay_name relay_no) <> None
            /\ set_value_raises (env w) (relay_name relay_no) = false)
    /\ (dict_get (relay_states self) relay_no = Some (coerce t) ->
        self' = self /\ w' = w).
Proof.
  unfold set_relay.
  destruct (py_ne_opt _ _) eqn:Hne.
  - apply py_ne_opt_true in Hne.
    destruct (set_dbus_value_spec (relay_name relay_no) (Some (coerce t)) self w)
      as (items & Hs).
    eexists _, _. split; [exact Hs|].
    rewrite (emitted_app _ _ (bus_writes (relay_name relay_no)
                                (Some (coerce t)) self w
                              ++ [Command (relay_name relay_no)
                                    (Some (coerce t))]))
      by (simpl; rewrite <- app_assoc; reflexivity).
    split; [|split].
    + split; [intros _; exact Hne|].
      intros _. apply elem_of_app. right. apply list_elem_of_singleton.
      reflexivity.
    + rewrite elem_of_app, elem_of_bus_writes, list_elem_of_singleton.
      split.
      * intros [Hw | Hc]; [tauto | discriminate].
      * intros (_ & Hh & Hr). left. split; assumption.
    + intros Heq. contradiction.
  - assert (Heq : dict_get (relay_states self) relay_no = Some (coerce t)).
    { destruct (dict_get (relay_states self) relay_no) as [y|]; simpl in Hne;
        [|discriminate].
      apply negb_false_iff, Z.eqb_eq in Hne. congruence. }
    exists self, w. rewrite emitted_same.
    split; [reflexivity|]. split; [|split].
    + split; [intros Hin; inversion Hin | intros Hn; contradiction].
    + split; [intros Hin; inversion Hin | intros [Hn _]; contradiction].
    + intros _. split; reflexivity.
Qed.

(** *** A dead inverter link *)

Lemma read_fails_None {A : Type} (G : Env -> string -> reply A) name self w :
  read_fails G name self w ->
  match dict_get (dbus_items self) name with
  | Some _ => match G (env w) name with
              | Value v => v
              | DBusException => None
              end
  | None => None
  end = None.
Proof.
  intros [-> | [-> | ->]]; [reflexivity | |];
    destruct (dict_get _ _); reflexivity.
Qed.

(** No state has 0 as its switch-mode target. *)
Lemma target_not_zero self : Inverter_Switch_Mode_Target self <> Some 0.
Proof.
  unfold Inverter_Switch_Mode_Target, modes.
  destruct (Reverse_Power_Alarm self); [discriminate|].
  rewrite !lookup_insert. repeat case_decide; discriminate.
Qed.

(** C10.  A failed read of the inverter switch mode marks the inverter
    disconnected and records 0 as the confirmed switch mode.  0 is none of
    the command codes, so a command is pending in every such state, and as
    soon as the contactors are closed, the settle delay is 0 and more than
    5 time units have passed since the last command, the sequencer issues
    the command and records its time. *)
Theorem link_down_keeps_commanding self w :
  read_fails discrete "inverter_switch_mode" self w ->
  exists self1,
    update_inverter_switch_mode self w = Ok (self1, w)
    /\ Inverter_Connected self1 = false
    /\ Inverter_Switch_Mode self1 = 0
    /\ (0 ∉ [INV_SWITCH_CHARGE_ONLY; INV_SWITCH_INVERT_ONLY; INV_SWITCH_ON;
             INV_SWITCH_OFF])
    /\ pending self1
    /\ (contactors_closed self -> inverter_delay self = 0 ->
        (5 < clock w (clock_reads w)
             - _inverter_switch_mode_update_time self)%Q ->
        exists self2 w2,
          set_inverter_switch_mode self1 w = Ok (self2, w2)
          /\ switch_command self1 ∈ emitted w w2
          /\ _inverter_switch_mode_update_time self2
             = clock w (S (clock_reads w))).
Proof.
  intros Hfail. apply read_fails_None in Hfail.
  destruct (get_dbus_value_spec discrete "inverter_switch_mode" self w)
    as (items & Hg & _).
  rewrite Hfail in Hg.
  exists (with_Inverter_Switch_Mode 0
            (with_Inverter_Connected false (with_dbus_items items self))).
  split.
  { unfold update_inverter_switch_mode.
    rewrite (bind_Ok_eq _ _ _ _ _ Hg). reflexivity. }
  split; [reflexivity|]. split; [reflexivity|].
  split.
  { intros Hin. repeat (apply elem_of_cons in Hin as [Hin|Hin];
                        [discriminate|]).
    inversion Hin. }
  set (self1 := with_Inverter_Switch_Mode 0 _).
  assert (Hp : pending self1) by apply target_not_zero.
  split; [exact Hp|].
  intros Hc Hd Ht.
  assert (Hgate : switch_gate self1 (clock w (clock_reads w)))
    by (unfold switch_gate; auto).
  exact (set_inverter_switch_mode_commits self1 w Hgate).
Qed.

(** ** Link failures (C5) *)

Lemma dict_get_insert_ne {K A : Type} `{Countable K}
  (d : gmap K (option A)) k k' v :
  k <> k' -> dict_get (<[k := v]> d) k' = dict_get d k'.
Proof. intros Hne. unfold dict_get. rewrite lookup_insert_ne; done. Qed.

Lemma dict_get_delete_ne {K A : Type} `{Countable K}
  (d : gmap K (option A)) k k' :
  k <> k' -> dict_get (delete k d) k' = dict_get d k'.
Proof. intros Hne. unfold dict_get. rewrite lookup_delete_ne; done. Qed.

(** [check_and_create_connections] always returns, and an item that is
    missing and cannot be imported is missing afterwards. *)
Lemma check_and_create_connections_total self w :
  exists self',
    check_and_create_connections self w = Ok (self', w)
    /\ forall k, dict_get (dbus_items self) k = None ->
                 importable (env w) k = false ->
                 dict_get (dbus_items self') k = None.
Proof.
  unfold check_and_create_connections.
  generalize dbus_items_spec. intros l. revert self.
  induction l as [|[k v] l IH]; intros self; simpl.
  - exists self. split; [reflexivity | auto].
  - unfold mbind, M_bind, ask.
    destruct (dict_get (dbus_items self) k) eqn:Hk; [apply IH|].
    destruct (importable (env w) k) eqn:Hi.
    + destruct (IH (with_dbus_items (<[k:=Some v]> (dbus_items self)) self))
        as (s' & Hs & Hkeep).
      exists s'. split; [exact Hs|].
      intros k' Hnone Himp. apply Hkeep; [|exact Himp]. simpl.
      rewrite dict_get_insert_ne; [exact Hnone | congruence].
    + destruct (IH (with_dbus_items (<[k:=None]> (dbus_items self)) self))
        as (s' & Hs & Hkeep).
      exists s'. split; [exact Hs|].
      intros k' Hnone Himp. apply Hkeep; [|exact Himp]. simpl.
      destruct (decide (k = k')) as [->|Hne].
      * unfold dict_get. rewrite lookup_insert_eq. reflexivity.
      * rewrite dict_get_insert_ne; [exact Hnone | exact Hne].
Qed.

Lemma update_inputs_eq self w :
  update_inputs self w = Ok (with_input_values (digital_inputs (env w)) self, w).
Proof. reflexivity. Qed.

Lemma update_mode_dbus_items self :
  dbus_items (update_mode self) = dbus_items self.
Proof. update_mode_cases self; reflexivity. Qed.

Lemma update_battery_soc_total self w :
  exists self',
    update_battery_soc self w = Ok (self', w)
    /\ forall k, k <> "battery_soc" ->
                 dict_get (dbus_items self') k = dict_get (dbus_items self) k.
Proof.
  unfold update_battery_soc.
  destruct (get_dbus_value_spec analog "battery_soc" self w)
    as (items & Hg & Hitems).
  rewrite (bind_Ok_eq _ _ _ _ _ Hg). cbv beta iota.
  assert (Hk : forall k, k <> "battery_soc" ->
                         dict_get items k = dict_get (dbus_items self) k).
  { intros k Hne. destruct Hitems as [-> | ->]; [reflexivity|].
    apply dict_get_delete_ne. congruence. }
  destruct (match dict_get _ _ with Some _ => _ | None => _ end);
    eexists; (split; [reflexivity | exact Hk]).
Qed.

(** A failed read of either current limit makes [update_battery_limits]
    raise [TypeError]: the guard that should send it to the link-down
    branch tests the attributes of the object, which are never [None]. *)
Lemma update_battery_limits_raises self w :
  read_fails analog "battery_charge_limit" self w
  \/ read_fails analog "battery_discharge_limit" self w ->
  update_battery_limits self w = Raise TypeError.
Proof.
  intros Hfail. unfold update_battery_limits.
  destruct (get_dbus_value_spec analog "battery_charge_limit" self w)
    as (items & Hg & Hitems).
  rewrite (bind_Ok_eq _ _ _ _ _ Hg). cbv beta iota.
  destruct (get_dbus_value_spec analog "battery_discharge_limit"
              (with_dbus_items items self) w) as (items' & Hg' & _).
  rewrite (bind_Ok_eq _ _ _ _ _ Hg'). cbv beta iota.
  destruct Hfail as [Hc | Hd].
  - rewrite (read_fails_None _ _ _ _ Hc). reflexivity.
  - assert (Hd' : read_fails analog "battery_discharge_limit"
                    (with_dbus_items items self) w).
    { destruct Hd as [Hd | Hd]; [left | right; exact Hd]. simpl.
      destruct Hitems as [-> | ->]; [exact Hd|].
      unfold dict_get in *. rewrite lookup_delete_ne by discriminate. exact Hd. }
    rewrite (read_fails_None _ _ _ _ Hd').
    destruct (match dict_get (dbus_items self) "battery_charge_limit" with
              | Some _ => _ | None => _ end); reflexivity.
Qed.

(** The inverter side has a failure of its own: when the read of the AC
    output current raises, [get_dbus_value] drops the item, and the
    link-down branch of [update_ac_output_current] drops it a second time. *)
Lemma update_ac_output_current_raises self w :
  dict_get (dbus_items self) "ac_output_current" <> None ->
  analog (env w) "ac_output_current" = DBusException ->
  update_ac_output_current self w = Raise KeyError.
Proof.
  intros Hitem Hexn.
  unfold update_ac_output_current, get_dbus_value.
  destruct (dict_get (dbus_items self) "ac_output_current") as [item|] eqn:Hget;
    [|contradiction].
  apply dict_get_Some in Hget.
  unfold mbind, M_bind, ask, clear_dbus_item. rewrite Hexn, Hget. simpl.
  rewrite lookup_delete_eq. reflexivity.
Qed.

(** C5 fails on the code.  Whenever one of the two battery current limits
    cannot be read in a pass of the loop, because the bus raises on the
    access, or answers with no value, or the item is missing and cannot be
    imported, the pass does not complete: [TypeError] escapes [tick]. *)
Theorem battery_link_failure_escapes_tick self w :
  link_down "battery_charge_limit" self w
  \/ link_down "battery_discharge_limit" self w ->
  tick self w = Raise TypeError.
Proof.
  intros Hfail. unfold tick.
  set (w1 := mkWorld (env w) (clock w) (S (clock_reads w)) (log w)).
  rewrite (bind_Ok_eq time _ w w1 (clock w (clock_reads w)) eq_refl).
  destruct (check_and_create_connections_total self w1) as (s1 & H1 & Hgone).
  rewrite (bind_Ok_eq _ _ _ _ _ H1).
  rewrite (bind_Ok_eq _ _ _ _ _ (update_inputs_eq s1 w1)). cbv zeta.
  set (s2 := update_mode (with_input_values (digital_inputs (env w1)) s1)).
  destruct (update_battery_soc_total s2 w1) as (s3 & H3 & Hsame).
  rewrite (bind_Ok_eq _ _ _ _ _ H3).
  apply bind_Raise. apply update_battery_limits_raises.
  assert (Hdown : forall k, k <> "battery_soc" -> link_down k self w ->
                            read_fails analog k s3 w1).
  { intros k Hne [He | [Hv | [Hnone Himp]]].
    - right. left. exact He.
    - right. right. exact Hv.
    - left. rewrite (Hsame k Hne). subst s2.
      rewrite update_mode_dbus_items. simpl. apply Hgone; assumption. }
  destruct Hfail as [Hc | Hd]; [left | right]; apply Hdown;
    (discriminate || assumption).
Qed.

(** ** Reverse power (C2, C3) *)

(** Every detection adds one to the counter, whatever its value: the
    [max] of the detected branch is computed and dropped. *)
Lemma check_reverse_power_increments self :
  Reverse_Power_Detected self = true ->
  Reverse_Power_Counter (check_reverse_power self)
  = Reverse_Power_Counter self + 1.
Proof. intros H. rewrite check_reverse_power_counter, H. reflexivity. Qed.

(** Downwards the counter does saturate. *)
Lemma check_reverse_power_decrements self :
  Reverse_Power_Detected self = false ->
  Reverse_Power_Counter (check_reverse_power self)
  = Z.max 0 (Reverse_Power_Counter self - 1).
Proof. intros H. rewrite check_reverse_power_counter, H. reflexivity. Qed.

(** The alarm is set exactly when the updated counter is at the threshold
    or above. *)
Lemma check_reverse_power_sets_alarm self :
  Reverse_Power_Alarm self = false ->
  (Reverse_Power_Alarm (check_reverse_power self) = true
   <-> REVERSE_POWER_COUNTER_THRESHOLD
       <= Reverse_Power_Counter (check_reverse_power self)).
Proof.
  intros Ha. rewrite check_reverse_power_alarm, Ha.
  destruct (REVERSE_POWER_COUNTER_THRESHOLD <=? _) eqn:E.
  - apply Z.leb_le in E. tauto.
  - apply Z.leb_gt in E. destruct (_ && _); split; (discriminate || lia).
Qed.

(** Called on its own, [check_reverse_power] clears the alarm when the
    mode is Off and the updated counter is 0. *)
Lemma check_reverse_power_clears_alarm self :
  Mode self = "Off" ->
  Reverse_Power_Counter (check_reverse_power self) = 0 ->
  Reverse_Power_Alarm (check_reverse_power self) = false.
Proof.
  intros Hm Hz. rewrite check_reverse_power_alarm, Hz, Hm. reflexivity.
Qed.

(** In a running mode [check_reverse_power] never clears the alarm. *)
Lemma check_reverse_power_keeps_alarm self :
  (Mode self =? "On")%string || (Mode self =? "ChargeOnly")%string = true ->
  Reverse_Power_Alarm self = true ->
  Reverse_Power_Alarm (check_reverse_power self) = true.
Proof.
  intros Hrun Ha. rewrite check_reverse_power_alarm, Ha.
  destruct (String.eqb_spec (Mode self) "Off") as [Hoff|_].
  - rewrite Hoff in Hrun. discriminate.
  - simpl. destruct (_ <=? _); reflexivity.
Qed.

(** The counter is never negative along a run. *)
Lemma reverse_power_counter_nonneg self :
  reachable self -> 0 <= Reverse_Power_Counter self.
Proof.
  induction 1 as [w self w' H | self w self' w' _ IH H].
  - apply frame_check_and_create_connections in H as (Hc & _).
    unfold core in Hc. injection Hc as _ _ _ -> _. reflexivity.
  - apply tick_core in H as (s & Hs & Hc).
    assert (Hcs : Reverse_Power_Counter s = Reverse_Power_Counter self).
    { unfold core in Hs. injection Hs as _ _ _ -> _.
      destruct (update_mode_reverse_power
                  (with_input_values (digital_inputs (env w)) self)) as [-> _].
      reflexivity. }
    unfold core in Hc. injection Hc as _ _ _ -> _.
    destruct (_ || _); [|lia].
    rewrite check_reverse_power_counter.
    destruct (Reverse_Power_Detected s); lia.
Qed.

(** C3 fails on the code.  [run] calls [check_reverse_power] only in the
    modes On and ChargeOnly, where its clearing branch cannot be taken, so
    no pass of the loop ever clears the alarm: once set, it is set after
    every later pass, also with the mode Off and the counter at 0. *)
Theorem alarm_survives_every_tick self w self' w' :
  tick self w = Ok (self', w') ->
  Reverse_Power_Alarm self = true ->
  Reverse_Power_Alarm self' = true.
Proof.
  intros H Ha. apply tick_core in H as (s & Hs & Hc).
  assert (Has : Reverse_Power_Alarm s = true).
  { unfold core in Hs. injection Hs as _ _ _ _ ->.
    destruct (update_mode_reverse_power
                (with_input_values (digital_inputs (env w)) self)) as [_ ->].
    exact Ha. }
  unfold core in Hc. injection Hc as _ _ _ _ ->.
  destruct (_ || _) eqn:Hrun; [|exact Has].
  apply check_reverse_power_keeps_alarm; assumption.
Qed.

(** In the mode Off a pass of the loop leaves the counter where it is. *)
Lemma tick_off_keeps_counter self w self' w' :
  tick self w = Ok (self', w') ->
  Mode self' = "Off" ->
  Reverse_Power_Counter self' = Reverse_Power_Counter self.
Proof.
  intros H Hoff. apply tick_core in H as (s & Hs & Hc).
  assert (Hcs : Reverse_Power_Counter s = Reverse_Power_Counter self).
  { unfold core in Hs. injection Hs as _ _ _ -> _.
    destruct (update_mode_reverse_power
                (with_input_values (digital_inputs (env w)) self)) as [-> _].
    reflexivity. }
  destruct (_ || _) eqn:Hrun.
  - exfalso. unfold core in Hc. injection Hc as Hm _ _ _ _.
    destruct (check_reverse_power_frame s) as (Hms & _).
    rewrite Hms in Hm. rewrite <- Hm, Hoff in Hrun. discriminate.
  - unfold core in Hc. injection Hc as _ _ _ -> _. exact Hcs.
Qed.

(** *** What the bench runs compute *)

Lemma fresh_reachable : reachable fresh.
Proof.
  apply (reachable_init (bench_world idle_env) fresh (bench_world idle_env)).
  vm_compute. reflexivity.
Qed.

Lemma run_reachable envs : forall self w self' w',
  reachable self -> run envs self w = Ok (self', w') -> reachable self'.
Proof.
  induction envs as [|e envs IH]; intros self w self' w' Hr H; simpl in H.
  - apply ret_Ok in H as [-> _]. exact Hr.
  - destruct (tick self _) as [[s1 w1]|] eqn:Ht; [|discriminate].
    apply (IH s1 w1 self' w'); [|exact H].
    apply (reachable_tick _ _ _ _ Hr Ht).
Qed.

Lemma tick_on_returns :
  tick fresh (bench_world on_env) = Ok (fst after_on, snd after_on).
Proof. vm_compute. reflexivity. Qed.

Lemma tick_idle_returns :
  tick fresh (bench_world idle_env) = Ok (fst after_idle, snd after_idle).
Proof. vm_compute. reflexivity. Qed.

Lemma run_eleven_reverse_returns :
  run (replicate 11 reverse_env) fresh (bench_world idle_env)
  = Ok (fst after_eleven_reverse, snd after_eleven_reverse).
Proof. vm_compute. reflexivity. Qed.

Lemma run_tripped_then_off_returns :
  run (replicate 10 reverse_env ++ replicate 12 on_env ++ [off_env])
    fresh (bench_world idle_env)
  = Ok (fst tripped_then_off, snd tripped_then_off).
Proof. vm_compute. reflexivity. Qed.

Lemma tick_after_trip_returns :
  tick (fst tripped_then_off) (bench_world idle_env)
  = Ok (fst after_trip_idle, snd after_trip_idle).
Proof. vm_compute. reflexivity. Qed.

Lemma stalled_at_five :
  set_inverter_switch_mode commanded_at_1000 (world_at on_env 1005)
  = Ok (commanded_at_1000, mkWorld on_env (fun _ => 1005%Q) 1 []).
Proof. vm_compute. reflexivity. Qed.

Lemma commanded_at_1000_gate_as_stated :
  switch_gate_as_stated commanded_at_1000 1005.
Proof.
  unfold switch_gate_as_stated, pending, contactors_closed.
  repeat split; try (vm_compute; congruence).
Qed.

Lemma commanded_at_1000_gate : switch_gate commanded_at_1000 1006.
Proof.
  unfold switch_gate, pending, contactors_closed.
  repeat split; try (vm_compute; congruence).
Qed.

(** ** Counterexamples, failing inputs and witnesses *)

(** C1 as stated fails.  In mode On with the command pending, the
    contactors closed and no settle delay left, exactly 5 time units after
    the last command the stated gate holds and no command is issued. *)
Lemma switch_command_at_five_units_not_issued :
  ~ (forall self w self' w',
        set_inverter_switch_mode self w = Ok (self', w') ->
        (switch_command self ∈ emitted w w'
         <-> switch_gate_as_stated self (clock w (clock_reads w)))).
Proof.
  intros H.
  destruct (H _ _ _ _ stalled_at_five) as [_ Hissue].
  specialize (Hissue commanded_at_1000_gate_as_stated).
  vm_compute in Hissue. inversion Hissue.
Qed.

(** The gate open: 6 time units after the last command the command goes
    out and its time is recorded. *)
Lemma switch_command_iff_gate_witness :
  exists self' w',
    set_inverter_switch_mode commanded_at_1000 (world_at on_env 1006)
    = Ok (self', w')
    /\ switch_command commanded_at_1000 ∈ emitted (world_at on_env 1006) w'
    /\ _inverter_switch_mode_update_time self' = 1006%Q.
Proof.
  destruct (switch_command_iff_gate commanded_at_1000 (world_at on_env 1006))
    as (self' & w' & Hs & Hiff & Hstamp & _).
  exists self', w'. split; [exact Hs|].
  split; [apply Hiff | apply Hstamp]; exact commanded_at_1000_gate.
Defined.

(** C4 as stated fails.  On the first pass of a fresh controller with the
    battery limits reading 0 and the inverter already Off, no command is
    pending; the contactors read open and the settle delay stays 0. *)
Lemma settle_delay_not_reset_without_pending_command :
  ~ (forall self w self' w',
        tick self w = Ok (self', w') ->
        contactors_open self' -> inverter_delay self' = 10).
Proof.
  intros H.
  assert (Hopen : contactors_open (fst after_idle))
    by (left; vm_compute; reflexivity).
  specialize (H _ _ _ _ tick_idle_returns Hopen).
  vm_compute in H. discriminate.
Qed.

(** A pending command with the charge limit at 0: the delay is set to 10
    and nothing is sent. *)
Lemma settle_delay_while_pending_witness :
  exists self' w',
    set_inverter_switch_mode pending_contactors_open (bench_world on_env)
    = Ok (self', w')
    /\ inverter_delay self' = 10
    /\ emitted (bench_world on_env) w' = [].
Proof.
  destruct (settle_delay_while_pending pending_contactors_open
              (bench_world on_env)) as (self' & w' & Hs & Hopen & _).
  exists self', w'. split; [exact Hs|].
  apply Hopen.
  - unfold pending. vm_compute. discriminate.
  - left. vm_compute. reflexivity.
Defined.

(** C2 fails on the code.  Eleven passes in mode On with 8 A flowing
    backwards leave the counter at 11, above the threshold of 10; the state
    is one a run reaches. *)
Theorem reverse_power_counter_exceeds_threshold :
  run (replicate 11 reverse_env) fresh (bench_world idle_env)
  = Ok (fst after_eleven_reverse, snd after_eleven_reverse)
  /\ reachable (fst after_eleven_reverse)
  /\ Reverse_Power_Counter (fst after_eleven_reverse) = 11
  /\ REVERSE_POWER_COUNTER_THRESHOLD
     < Reverse_Power_Counter (fst after_eleven_reverse).
Proof.
  split; [exact run_eleven_reverse_returns|].
  split; [exact (run_reachable _ _ _ _ _ fresh_reachable
                   run_eleven_reverse_returns)|].
  split; vm_compute; reflexivity.
Qed.

(** The failing input of C3: a state a run reaches, with the alarm set,
    the mode Off and the counter at 0, and a further pass of the loop. *)
Lemma alarm_survives_every_tick_witness :
  reachable (fst tripped_then_off)
  /\ Mode (fst tripped_then_off) = "Off"
  /\ Reverse_Power_Counter (fst tripped_then_off) = 0
  /\ Reverse_Power_Alarm (fst tripped_then_off) = true
  /\ tick (fst tripped_then_off) (bench_world idle_env)
     = Ok (fst after_trip_idle, snd after_trip_idle)
  /\ Reverse_Power_Alarm (fst after_trip_idle) = true.
Proof.
  split; [exact (run_reachable _ _ _ _ _ fresh_reachable
                   run_tripped_then_off_returns)|].
  split; [vm_compute; reflexivity|].
  split; [vm_compute; reflexivity|].
  split; [vm_compute; reflexivity|].
  split; [exact tick_after_trip_returns|].
  apply (alarm_survives_every_tick _ _ _ _ tick_after_trip_returns).
  vm_compute. reflexivity.
Defined.

(** The failing input of C5: the first pass of a fresh controller with the
    battery service gone. *)
Lemma battery_link_failure_escapes_tick_witness :
  tick fresh (bench_world (bench_env_battery_down (buttons false false false)))
  = Raise TypeError.
Proof.
  apply battery_link_failure_escapes_tick. left. left. reflexivity.
Defined.

(** A lone On press on a fresh controller. *)
Lemma mode_changes_only_on_single_button_witness :
  reachable fresh
  /\ tick fresh (bench_world on_env) = Ok (fst after_on, snd after_on)
  /\ Mode (fst after_on) = "On"
  /\ valid_mode (Mode (fst after_on)).
Proof.
  split; [exact fresh_reachable|].
  split; [exact tick_on_returns|].
  destruct (mode_changes_only_on_single_button _ _ _ _ fresh_reachable
              tick_on_returns) as (_ & Hon & _ & _ & _ & Hvalid).
  split; [|exact Hvalid].
  apply Hon. repeat split; reflexivity.
Defined.

(** The same press leaves the hold counter at 0 and [BMS_Disable] clear. *)
Lemma off_hold_counter_latches_bms_disable_witness :
  tick fresh (bench_world on_env) = Ok (fst after_on, snd after_on)
  /\ Off_Button_Pressed_Counter (fst after_on) = 0
  /\ BMS_Disable (fst after_on) = false.
Proof.
  split; [exact tick_on_returns|].
  destruct (off_hold_counter_latches_bms_disable _ _ _ _ tick_on_returns)
    as (_ & Hreset & _ & _ & Hclear).
  split; [apply Hreset; reflexivity|].
  apply Hclear. left. repeat split; reflexivity.
Defined.

(** In mode On without alarm the target is 3. *)
Lemma inverter_switch_mode_target_table_witness :
  Inverter_Switch_Mode_Target (fst after_on) = Some 3
  /\ Inverter_Switch_Mode_Target (fst after_on) <> Some 2.
Proof.
  destruct (inverter_switch_mode_target_table (fst after_on))
    as (_ & Htable & _ & Hnever).
  split.
  - destruct Htable as (_ & Hon & _); [vm_compute; reflexivity|].
    apply Hon. vm_compute. reflexivity.
  - apply Hnever.
    exact (reachable_tick _ _ _ _ fresh_reachable tick_on_returns).
Defined.

(** Relay 3 recorded at 0 and driven to [True]: a write is called for. *)
Lemma relay_write_iff_changed_witness :
  exists self' w',
    set_relay 3 (PyBool true) (fst after_on) (bench_world on_env)
    = Ok (self', w')
    /\ Command "relay_3" (Some 1) ∈ emitted (bench_world on_env) w'.
Proof.
  destruct (relay_write_iff_changed 3 (PyBool true) (fst after_on)
              (bench_world on_env)) as (self' & w' & Hs & Hiff & _).
  exists self', w'. split; [exact Hs|].
  apply Hiff. vm_compute. discriminate.
Defined.

(** The inverter service gone while a command is due. *)
Lemma link_down_keeps_commanding_witness :
  exists self1 self2 w2,
    update_inverter_switch_mode commanded_at_1000 inverter_down_at_1006
    = Ok (self1, inverter_down_at_1006)
    /\ Inverter_Switch_Mode self1 = 0
    /\ set_inverter_switch_mode self1 inverter_down_at_1006 = Ok (self2, w2)
    /\ switch_command self1 ∈ emitted inverter_down_at_1006 w2.
Proof.
  destruct (link_down_keeps_commanding commanded_at_1000 inverter_down_at_1006)
    as (self1 & Hu & _ & Hzero & _ & _ & Hcmd).
  { right. left. reflexivity. }
  destruct Hcmd as (self2 & w2 & Hs & Hin & _).
  - split; vm_compute; reflexivity.
  - vm_compute. reflexivity.
  - vm_compute. reflexivity.
  - exists self1, self2, w2. auto.
Defined.

(** * The rest of the controller *)

(** ** Bus access, exactly *)

Lemma get_dbus_value_eq {A : Type} (G : Env -> string -> reply A) name self w :
  get_dbus_value G name self w
  = Ok ((read_value G name self w,
         with_dbus_items (handles_after_read G name self w) self), w).
Proof.
  unfold get_dbus_value, read_value, handles_after_read.
  destruct (dict_get (dbus_items self) name) as [item|] eqn:Hget.
  - apply dict_get_Some in Hget.
    unfold mbind, M_bind, ask, clear_dbus_item; simpl.
    destruct (G (env w) name) as [v|].
    + rewrite with_dbus_items_same. reflexivity.
    + rewrite Hget. reflexivity.
  - rewrite with_dbus_items_same. reflexivity.
Qed.

Lemma handles_after_read_other {A : Type} (G : Env -> string -> reply A)
  name self w k :
  k <> name -> handles_after_read G name self w !! k = dbus_items self !! k.
Proof.
  intros Hne. unfold handles_after_read.
  destruct (dict_get _ _); [destruct (G _ _)|]; try reflexivity.
  apply lookup_delete_ne. congruence.
Qed.

Lemma dict_get_handles_after_read_other {A : Type}
  (G : Env -> string -> reply A) name self w k :
  k <> name ->
  dict_get (handles_after_read G name self w) k = dict_get (dbus_items self) k.
Proof.
  intros Hne. unfold dict_get. rewrite handles_after_read_other by exact Hne.
  reflexivity.
Qed.

(** A read of another item sees the same value after a read of [name]. *)
Lemma read_value_after_read {A B : Type} (G : Env -> string -> reply A)
  (G' : Env -> string -> reply B) name self w k w' :
  k <> name ->
  read_value G' k (with_dbus_items (handles_after_read G name self w) self) w'
  = read_value G' k self w'.
Proof.
  intros Hne. unfold read_value. simpl.
  rewrite dict_get_handles_after_read_other by exact Hne. reflexivity.
Qed.

(** X1.  A read on which the proxy raises returns [None] and discards the
    item handle, and only that handle: the object and the world are
    otherwise as before, and until the item is imported again every further
    read of it returns [None] whatever the bus would answer. *)
Theorem failed_read_drops_the_handle {A : Type} (G : Env -> string -> reply A)
  name self w :
  dict_get (dbus_items self) name <> None ->
  G (env w) name = DBusException ->
  exists self',
    get_dbus_value G name self w = Ok ((None, self'), w)
    /\ self' = with_dbus_items (delete name (dbus_items self)) self
    /\ dbus_items self' !! name = None
    /\ (forall k, k <> name -> dbus_items self' !! k = dbus_items self !! k)
    /\ (forall (B : Type) (G2 : Env -> string -> reply B) w2,
          get_dbus_value G2 name self' w2 = Ok ((None, self'), w2)).
Proof.
  intros Hitem Hexn.
  exists (with_dbus_items (delete name (dbus_items self)) self).
  assert (Hgone : dict_get (delete name (dbus_items self)) name = None).
  { unfold dict_get. rewrite lookup_delete_eq. reflexivity. }
  split.
  { rewrite get_dbus_value_eq. unfold read_value, handles_after_read.
    destruct (dict_get (dbus_items self) name); [|contradiction].
    rewrite Hexn. reflexivity. }
  split; [reflexivity|].
  split; [apply lookup_delete_eq|].
  split; [intros k Hne; simpl; apply lookup_delete_ne; congruence|].
  intros B G2 w2. rewrite get_dbus_value_eq.
  unfold read_value, handles_after_read. simpl. rewrite Hgone.
  reflexivity.
Qed.

(** The body of the loop of [check_and_create_connections], run over any
    list of items with distinct keys. *)
Lemma create_connections_items (l : list (string * VeDbusItemImport)) :
  NoDup (l.*1) ->
  forall self w,
  exists items,
    for_each l
      (fun '(k, v) self =>
         match dict_get (dbus_items self) k with
         | None =>
             ok ← ask (fun e => importable e k);
             if ok : bool
             then mret (with_dbus_items (<[k := Some v]> (dbus_items self)) self)
             else mret (with_dbus_items (<[k := None]> (dbus_items self)) self)
         | Some _ => mret self
         end)
      self w
    = Ok (with_dbus_items items self, w)
    /\ (forall k, k ∉ l.*1 -> items !! k = dbus_items self !! k)
    /\ (forall k v, (k, v) ∈ l ->
          is_Some (items !! k)
          /\ dict_get items k
             = match dict_get (dbus_items self) k with
               | Some h => Some h
               | None => if importable (env w) k then Some v else None
               end).
Proof.
  induction l as [|[k v] l IH]; intros Hnd self w; simpl.
  - exists (dbus_items self). rewrite with_dbus_items_same.
    split; [reflexivity|]. split; [reflexivity|].
    intros k v Hin. inversion Hin.
  - simpl in Hnd. apply NoDup_cons in Hnd as [Hk Hnd].
    set (s1 := match dict_get (dbus_items self) k with
               | Some _ => dbus_items self
               | None => if importable (env w) k
                         then <[k := Some v]> (dbus_items self)
                         else <[k := None]> (dbus_items self)
               end).
    destruct (IH Hnd (with_dbus_items s1 self) w) as (items & Hrun & Hout & Hin).
    simpl in Hrun, Hout, Hin.
    exists items. split.
    { unfold mbind at 1, M_bind at 1.
      destruct (dict_get (dbus_items self) k) eqn:Hg.
      - subst s1. rewrite with_dbus_items_same in Hrun. simpl. exact Hrun.
      - unfold mbind, M_bind, ask. subst s1.
        destruct (importable (env w) k); simpl; exact Hrun. }
    assert (Hs1 : forall k', k' <> k -> s1 !! k' = dbus_items self !! k').
    { intros k' Hne. subst s1.
      destruct (dict_get (dbus_items self) k); [reflexivity|].
      destruct (importable (env w) k); apply lookup_insert_ne; congruence. }
    assert (Hs1k : is_Some (s1 !! k)
                   /\ dict_get s1 k
                      = match dict_get (dbus_items self) k with
                        | Some h => Some h
                        | None => if importable (env w) k then Some v else None
                        end).
    { subst s1. destruct (dict_get (dbus_items self) k) eqn:Hg.
      - split; [|exact Hg]. apply dict_get_Some in Hg. rewrite Hg. eauto.
      - unfold dict_get.
        destruct (importable (env w) k); rewrite lookup_insert_eq; eauto. }
    split.
    { intros k' Hnot. apply not_elem_of_cons in Hnot as [Hne Hnot].
      rewrite (Hout k' Hnot). apply Hs1. exact Hne. }
    intros k' v' Hel. apply elem_of_cons in Hel as [Heq | Hel].
    + injection Heq as -> ->.
      unfold dict_get. rewrite (Hout k Hk). exact Hs1k.
    + destruct (Hin k' v' Hel) as [Hsome Hget].
      split; [exact Hsome|]. rewrite Hget.
      assert (Hne : k' <> k).
      { intros ->. apply Hk. apply list_elem_of_fmap. exists (k, v'). auto. }
      unfold dict_get. rewrite (Hs1 k' Hne). reflexivity.
Qed.

Lemma dbus_items_spec_NoDup : NoDup (dbus_items_spec.*1).
Proof.
  apply (bool_decide_unpack (NoDup (dbus_items_spec.*1))). vm_compute. exact I.
Qed.

(** X2.  [check_and_create_connections] always returns and changes
    nothing but [dbus_items].  A handle that is there is kept; every item of
    [dbus_items_spec] without a handle is imported afresh, and gets [None]
    when the import fails; keys outside [dbus_items_spec] are untouched. *)
Theorem connections_after_check self w :
  exists self',
    check_and_create_connections self w = Ok (self', w)
    /\ self' = with_dbus_items (dbus_items self') self
    /\ (forall k v, (k, v) ∈ dbus_items_spec ->
          is_Some (dbus_items self' !! k)
          /\ dict_get (dbus_items self') k
             = match dict_get (dbus_items self) k with
               | Some h => Some h
               | None => if importable (env w) k then Some v else None
               end)
    /\ (forall k, k ∉ dbus_items_spec.*1 ->
          dbus_items self' !! k = dbus_items self !! k).
Proof.
  destruct (create_connections_items dbus_items_spec dbus_items_spec_NoDup
              self w) as (items & Hrun & Hout & Hin).
  exists (with_dbus_items items self).
  split; [exact Hrun|]. split; [reflexivity|].
  split; [exact Hin | exact Hout].
Qed.

(** ** Relay states *)

Lemma relay_name_inj n m : relay_name n = relay_name m -> n = m.
Proof.
  unfold relay_name. simpl. intros H. injection H as H.
  exact (inj (pretty : Z -> string) n m H).
Qed.

(** The loop of [update_relay_states] over any list of distinct relay
    numbers: every relay of the list is recorded with the value its read
    yields, the reads of one relay being blind to the handles dropped by the
    reads of the others. *)
Lemma read_relays (l : list Z) :
  NoDup l ->
  forall self w,
  exists items states,
    for_each l
      (fun relay_no self =>
         '(val, self) ← get_dbus_value discrete (relay_name relay_no) self;
         mret (with_relay_states (<[relay_no := val]> (relay_states self)) self))
      self w
    = Ok (with_relay_states states (with_dbus_items items self), w)
    /\ (forall n, n ∈ l ->
          states !! n = Some (read_value discrete (relay_name n) self w))
    /\ (forall n, n ∉ l -> states !! n = relay_states self !! n)
    /\ (forall k, (forall n, n ∈ l -> k <> relay_name n) ->
          items !! k = dbus_items self !! k).
Proof.
  induction l as [|x l IH]; intros Hnd self w; simpl.
  - exists (dbus_items self), (relay_states self).
    split; [destruct self; reflexivity|].
    split; [intros n Hin; inversion Hin|].
    split; reflexivity.
  - apply NoDup_cons in Hnd as [Hx Hnd].
    set (s0 := with_dbus_items
                 (handles_after_read discrete (relay_name x) self w) self).
    set (s1 := with_relay_states
                 (<[x := read_value discrete (relay_name x) self w]>
                    (relay_states s0)) s0).
    assert (Hb : (get_dbus_value discrete (relay_name x) self
                  ≫= λ '(val, self0),
                       mret (with_relay_states
                               (<[x := val]> (relay_states self0)) self0)) w
                 = Ok (s1, w)).
    { rewrite (bind_Ok_eq _ _ _ _ _
                 (get_dbus_value_eq discrete (relay_name x) self w)).
      reflexivity. }
    rewrite (bind_Ok_eq _ _ _ _ _ Hb).
    destruct (IH Hnd s1 w) as (items & states & Hrun & Hin & Hout & Hitems).
    exists items, states. split; [rewrite Hrun; reflexivity|].
    split; [|split].
    + intros n Hel. apply elem_of_cons in Hel as [-> | Hel].
      * rewrite (Hout x Hx). subst s1. simpl. apply lookup_insert_eq.
      * rewrite (Hin n Hel). f_equal. subst s1.
        unfold read_value. simpl.
        rewrite dict_get_handles_after_read_other; [reflexivity|].
        intros Heq. apply relay_name_inj in Heq. subst n. contradiction.
    + intros n Hnot. apply not_elem_of_cons in Hnot as [Hne Hnot].
      rewrite (Hout n Hnot). subst s1. simpl.
      apply lookup_insert_ne. congruence.
    + intros k Hk. rewrite Hitems.
      * subst s1. simpl. apply handles_after_read_other.
        apply Hk. apply elem_of_cons. left. reflexivity.
      * intros n Hel. apply Hk. apply elem_of_cons. right. exact Hel.
Qed.

(** X3.  [update_relay_states] always returns.  Afterwards [relay_states]
    holds exactly the relays 2 to 9, each with the value its read yields
    ([None] for a relay that cannot be read); whatever was recorded before
    is forgotten; apart from [relay_states] and the item handles the object
    is unchanged, and so is the world. *)
Theorem relay_states_after_update self w :
  exists self',
    update_relay_states self w = Ok (self', w)
    /\ self' = with_relay_states (relay_states self')
                 (with_dbus_items (dbus_items self') self)
    /\ (forall n, 2 <= n <= 9 ->
          relay_states self' !! n
          = Some (read_value discrete (relay_name n) self w))
    /\ (forall n, ~ 2 <= n <= 9 -> relay_states self' !! n = None).
Proof.
  assert (Hnd : NoDup (seqZ 2 8)) by apply NoDup_seqZ.
  destruct (read_relays (seqZ 2 8) Hnd (with_relay_states ∅ self) w)
    as (items & states & Hrun & Hin & Hout & _).
  exists (with_relay_states states (with_dbus_items items self)).
  split; [exact Hrun|]. split; [reflexivity|].
  split.
  - intros n Hn. simpl. rewrite Hin; [reflexivity|].
    apply elem_of_seqZ. lia.
  - intros n Hn. simpl. rewrite Hout; [apply lookup_empty|].
    rewrite elem_of_seqZ. lia.
Qed.

(** ** The relay outputs *)

Lemma set_dbus_value_eq name v self w :
  set_dbus_value name v self w
  = Ok (with_dbus_items (handles_after_write name self w) self,
        mkWorld (env w) (clock w) (clock_reads w)
          (bus_writes name v self w ++ Command name v :: log w)).
Proof.
  unfold set_dbus_value, bus_writes, handles_after_write.
  destruct (dict_get (dbus_items self) name) as [item|] eqn:Hget.
  - apply dict_get_Some in Hget.
    unfold mbind, M_bind, ask, emit, clear_dbus_item; simpl.
    destruct (set_value_raises (env w) name).
    + rewrite Hget. reflexivity.
    + rewrite with_dbus_items_same. reflexivity.
  - rewrite with_dbus_items_same. reflexivity.
Qed.

Lemma dict_get_handles_after_write_other name self w k :
  k <> name ->
  dict_get (handles_after_write name self w) k = dict_get (dbus_items self) k.
Proof.
  intros Hne. unfold handles_after_write.
  destruct (dict_get (dbus_items self) name);
    [destruct (set_value_raises (env w) name)|]; try reflexivity.
  apply dict_get_delete_ne. congruence.
Qed.

(** One call of [set_relay], exactly. *)
Lemma set_relay_eq relay_no t self w :
  exists items,
    set_relay relay_no t self w
    = Ok (with_dbus_items items self,
          mkWorld (env w) (clock w) (clock_reads w)
            (relay_events relay_no t self w ++ log w))
    /\ forall k, k <> relay_name relay_no ->
                 dict_get items k = dict_get (dbus_items self) k.
Proof.
  unfold set_relay, relay_events.
  destruct (py_ne_opt _ _).
  - rewrite set_dbus_value_eq. eexists. split.
    + rewrite <- app_assoc. reflexivity.
    + intros k Hne. apply dict_get_handles_after_write_other. exact Hne.
  - exists (dbus_items self). rewrite with_dbus_items_same.
    split; [destruct w; reflexivity | reflexivity].
Qed.

(** What a relay logs does not depend on the handles of the other items,
    nor on the clock or the log. *)
Lemma relay_events_ext relay_no t self w s w' :
  relay_states s = relay_states self ->
  dict_get (dbus_items s) (relay_name relay_no)
  = dict_get (dbus_items self) (relay_name relay_no) ->
  env w' = env w ->
  relay_events relay_no t s w' = relay_events relay_no t self w.
Proof.
  intros Hr Hd He. unfold relay_events, bus_writes.
  rewrite Hr, Hd, He. reflexivity.
Qed.

(** One [set_relay] in the course of [set_outputs]: [self] is the object at
    the start, [tg] the toggle state and [items] the handles by now, [evs]
    what has been logged so far. *)
Lemma set_relay_step self w tg items evs relay_no t :
  (forall m, relay_no <= m ->
     dict_get items (relay_name m) = dict_get (dbus_items self) (relay_name m)) ->
  exists items',
    set_relay relay_no t (with_Toggle_State tg (with_dbus_items items self))
      (mkWorld (env w) (clock w) (clock_reads w) (evs ++ log w))
    = Ok (with_Toggle_State tg (with_dbus_items items' self),
          mkWorld (env w) (clock w) (clock_reads w)
            ((relay_events relay_no t self w ++ evs) ++ log w))
    /\ (forall m, relay_no < m ->
          dict_get items' (relay_name m)
          = dict_get (dbus_items self) (relay_name m)).
Proof.
  intros Hitems.
  destruct (set_relay_eq relay_no t
              (with_Toggle_State tg (with_dbus_items items self))
              (mkWorld (env w) (clock w) (clock_reads w) (evs ++ log w)))
    as (items' & Hs & Hother).
  exists items'. split.
  - rewrite Hs, <- app_assoc.
    rewrite (relay_events_ext relay_no t self w
               (with_Toggle_State tg (with_dbus_items items self))
               (mkWorld (env w) (clock w) (clock_reads w) (evs ++ log w)));
      [reflexivity | reflexivity | | reflexivity].
    simpl. apply Hitems. lia.
  - intros m Hm. rewrite Hother.
    + simpl. apply Hitems. lia.
    + intros Heq. apply relay_name_inj in Heq. lia.
Qed.

Lemma exists_eq_trans {A B : Type} (x y : A) (R : B -> A) :
  x = y -> (exists b, y = R b) -> exists b, x = R b.
Proof. intros ->. auto. Qed.

Lemma with_Toggle_State_same self :
  with_Toggle_State (_Toggle_State self) self = self.
Proof. destruct self; reflexivity. Qed.

(** [set_outputs], exactly: it always returns; the toggle state flips
    when, and only when, a fault is detected; each of the relays 2 to 9 logs
    what a lone [set_relay] with its target would log on the object and the
    bus as they were at the start. *)
Lemma set_outputs_eq self w :
  exists items,
    set_outputs self w
    = Ok (with_Toggle_State (xorb (_Toggle_State self) (Fault_Detected self))
            (with_dbus_items items self),
          mkWorld (env w) (clock w) (clock_reads w)
            (outputs_events self w ++ log w)).
Proof.
  unfold set_outputs.
  assert (Hstart : forall m : Z, 2 <= m ->
            dict_get (dbus_items self) (relay_name m)
            = dict_get (dbus_items self) (relay_name m)) by reflexivity.
  assert (Hself : forall t,
            set_relay 2 t self w
            = set_relay 2 t
                (with_Toggle_State (_Toggle_State self)
                   (with_dbus_items (dbus_items self) self))
                (mkWorld (env w) (clock w) (clock_reads w) ([] ++ log w))).
  { intros t. rewrite with_dbus_items_same, with_Toggle_State_same.
    destruct w; reflexivity. }
  set (t2 := PyBool (if Fault_Detected self then _Toggle_State self
                     else Off_LED self)).
  destruct (set_relay_step self w (_Toggle_State self) (dbus_items self) []
              2 t2 Hstart) as (i2 & H2 & K2).
  rewrite <- Hself in H2.
  assert (Hfirst :
            (if Fault_Detected self
             then self0 ← set_relay 2 (PyBool (_Toggle_State self)) self;
                  mret (with_Toggle_State (negb (_Toggle_State self0)) self0)
             else set_relay 2 (PyBool (Off_LED self)) self) w
            = Ok (with_Toggle_State
                    (xorb (_Toggle_State self) (Fault_Detected self))
                    (with_dbus_items i2 self),
                  mkWorld (env w) (clock w) (clock_reads w)
                    ((relay_events 2 t2 self w ++ []) ++ log w))).
  { subst t2. destruct (Fault_Detected self).
    - rewrite (bind_Ok_eq _ _ _ _ _ H2). rewrite xorb_true_r. reflexivity.
    - rewrite H2, xorb_false_r. reflexivity. }
  rewrite (bind_Ok_eq _ _ _ _ _ Hfirst). clear Hfirst H2 Hself Hstart.
  set (tg := xorb _ _).
  repeat
    (cbv beta;
     match goal with
     | K : forall m : Z, _ < m -> dict_get ?i _ = _
       |- context [mbind _ (set_relay ?n ?t
                              (with_Toggle_State tg (with_dbus_items ?i self)))
                     (mkWorld _ _ _ (?evs ++ _))] =>
         let i' := fresh "i" in
         let H := fresh "H" in
         let K' := fresh "K" in
         destruct (set_relay_step self w tg i evs n t
                     ltac:(intros; apply K; lia)) as (i' & H & K');
         eapply exists_eq_trans; [apply (bind_Ok_eq _ _ _ _ _ H)|];
         clear H K
     end).
  cbv beta.
  match goal with
  | K : forall m : Z, _ < m -> dict_get ?i _ = _
    |- context [set_relay ?n ?t (with_Toggle_State tg (with_dbus_items ?i self))
                  (mkWorld _ _ _ (?evs ++ _))] =>
      destruct (set_relay_step self w tg i evs n t
                  ltac:(intros; apply K; lia)) as (i9 & H9 & K9)
  end.
  exists i9. rewrite H9. reflexivity.
Qed.

Lemma elem_of_outputs_events e self w :
  e ∈ outputs_events self w
  <-> exists n t, (n, t) ∈ relay_targets self /\ e ∈ relay_events n t self w.
Proof.
  unfold outputs_events.
  rewrite list_elem_of_In, in_concat. split.
  - intros (l & Hl & He).
    apply list_elem_of_In, elem_of_reverse, list_elem_of_In, in_map_iff in Hl.
    destruct Hl as ([n t] & <- & Hin).
    exists n, t. rewrite !list_elem_of_In. auto.
  - intros (n & t & Hin & He).
    exists (relay_events n t self w). split; [|apply list_elem_of_In; exact He].
    apply list_elem_of_In, elem_of_reverse, list_elem_of_In, in_map_iff.
    exists (n, t). split; [reflexivity|]. apply list_elem_of_In. exact Hin.
Qed.

Lemma elem_of_relay_events e relay_no t self w :
  e ∈ relay_events relay_no t self w
  <-> dict_get (relay_states self) relay_no <> Some (coerce t)
      /\ (e = Command (relay_name relay_no) (Some (coerce t))
          \/ e ∈ bus_writes (relay_name relay_no) (Some (coerce t)) self w).
Proof.
  unfold relay_events.
  destruct (py_ne_opt _ _) eqn:Hne.
  - apply py_ne_opt_true in Hne.
    rewrite elem_of_app, list_elem_of_singleton. tauto.
  - assert (Heq : dict_get (relay_states self) relay_no = Some (coerce t)).
    { destruct (dict_get (relay_states self) relay_no) as [y|]; simpl in Hne;
        [|discriminate].
      apply negb_false_iff, Z.eqb_eq in Hne. congruence. }
    split; [intros Hin; inversion Hin | intros [Hn _]; contradiction].
Qed.

Lemma elem_of_bus_writes_inv e name v self w :
  e ∈ bus_writes name v self w -> e = BusWrite name v.
Proof.
  unfold bus_writes. intros Hin.
  destruct (dict_get (dbus_items self) name);
    [destruct (set_value_raises (env w) name)|];
    try (inversion Hin; fail).
  apply list_elem_of_singleton in Hin. exact Hin.
Qed.

Lemma relay_targets_range n t self :
  (n, t) ∈ relay_targets self -> 2 <= n <= 9 /\ (coerce t = 0 \/ coerce t = 1).
Proof.
  unfold relay_targets. intros Hin.
  repeat (apply elem_of_cons in Hin as [Hin | Hin];
          [injection Hin as -> ->; split; [lia|];
           simpl; match goal with |- Z.b2z ?b = 0 \/ _ => destruct b end;
           auto|]).
  inversion Hin.
Qed.

(** X4.  [set_outputs] always returns and changes nothing on the object
    but the toggle state, which flips exactly when a fault is detected, and
    the item handles.  A write of relay [n] is called for if and only if [n]
    is one of the eight relays and its target differs from the state
    recorded for it; everything logged is on the relays 2 to 9 and carries 0
    or 1. *)
Theorem outputs_write_changed_relays self w :
  exists self' w',
    set_outputs self w = Ok (self', w')
    /\ self' = with_Toggle_State
                 (xorb (_Toggle_State self) (Fault_Detected self))
                 (with_dbus_items (dbus_items self') self)
    /\ env w' = env w
    /\ (forall n v,
          Command (relay_name n) v ∈ emitted w w'
          <-> exists t, (n, t) ∈ relay_targets self
                        /\ v = Some (coerce t)
                        /\ dict_get (relay_states self) n <> Some (coerce t))
    /\ (forall e, e ∈ emitted w w' -> relay_event e).
Proof.
  destruct (set_outputs_eq self w) as (items & Hs).
  eexists _, _. split; [exact Hs|].
  split; [reflexivity|]. split; [reflexivity|].
  rewrite (emitted_app _ _ (outputs_events self w)) by reflexivity.
  split.
  - intros n v. rewrite elem_of_outputs_events. split.
    + intros (n' & t & Hin & He).
      apply elem_of_relay_events in He as (Hdiff & [Hc | Hb]).
      * assert (Hn : relay_name n = relay_name n') by congruence.
        assert (Hv : v = Some (coerce t)) by congruence.
        apply relay_name_inj in Hn. subst n'.
        exists t. auto.
      * apply elem_of_bus_writes_inv in Hb. discriminate.
    + intros (t & Hin & -> & Hdiff).
      exists n, t. split; [exact Hin|].
      apply elem_of_relay_events. auto.
  - intros e He. apply elem_of_outputs_events in He as (n & t & Hin & He).
    destruct (relay_targets_range n t self Hin) as [Hn Hv].
    apply elem_of_relay_events in He as (_ & [-> | Hb]).
    + exists n, (coerce t). auto.
    + apply elem_of_bus_writes_inv in Hb. subst e.
      exists n, (coerce t). auto.
Qed.

(** X5.  When the state recorded for each of the eight relays is already
    its target, [set_outputs] sends nothing: the world is as before, and the
    object too, up to the toggle state. *)
Theorem outputs_quiescent self w :
  (forall n t, (n, t) ∈ relay_targets self ->
               dict_get (relay_states self) n = Some (coerce t)) ->
  set_outputs self w
  = Ok (with_Toggle_State (xorb (_Toggle_State self) (Fault_Detected self))
          self, w).
Proof.
  intros Hsame. unfold set_outputs.
  assert (Hq : forall n t s w0,
             (n, t) ∈ relay_targets self ->
             relay_states s = relay_states self ->
             set_relay n t s w0 = Ok (s, w0)).
  { intros n t s w0 Hin Hr. unfold set_relay. rewrite Hr, (Hsame n t Hin).
    simpl. rewrite Z.eqb_refl. reflexivity. }
  assert (Hin : forall p, In p (relay_targets self) -> p ∈ relay_targets self)
    by (intros p; apply list_elem_of_In).
  set (s1 := with_Toggle_State
               (xorb (_Toggle_State self) (Fault_Detected self)) self).
  assert (Hfirst :
            (if Fault_Detected self
             then self0 ← set_relay 2 (PyBool (_Toggle_State self)) self;
                  mret (with_Toggle_State (negb (_Toggle_State self0)) self0)
             else set_relay 2 (PyBool (Off_LED self)) self) w
            = Ok (s1, w)).
  { subst s1. pose proof (Hq 2 _ self w (Hin _ (or_introl eq_refl)) eq_refl)
      as H2.
    destruct (Fault_Detected self).
    - rewrite (bind_Ok_eq _ _ _ _ _ H2), xorb_true_r. reflexivity.
    - rewrite H2, xorb_false_r, with_Toggle_State_same. reflexivity. }
  rewrite (bind_Ok_eq _ _ _ _ _ Hfirst).
  rewrite (bind_Ok_eq _ _ _ _ _
             (Hq 3 (PyBool (On_LED s1)) s1 w
                (Hin _ (or_intror (or_introl eq_refl))) eq_refl)).
  rewrite (bind_Ok_eq _ _ _ _ _
             (Hq 4 (PyBool (Charge_LED s1)) s1 w
                (Hin _ (or_intror (or_intror (or_introl eq_refl)))) eq_refl)).
  rewrite (bind_Ok_eq _ _ _ _ _
             (Hq 5 (PyBool (BMS_Wake s1)) s1 w
                (Hin _ (or_intror (or_intror (or_intror (or_introl eq_refl)))))
                eq_refl)).
  rewrite (bind_Ok_eq _ _ _ _ _
             (Hq 6 (PyBool (DSE_Remote_Start s1)) s1 w
                (Hin _ (or_intror (or_intror (or_intror (or_intror
                          (or_introl eq_refl)))))) eq_refl)).
  rewrite (bind_Ok_eq _ _ _ _ _
             (Hq 7 (PyBool (DSE_Mode_Request s1)) s1 w
                (Hin _ (or_intror (or_intror (or_intror (or_intror
                          (or_intror (or_introl eq_refl))))))) eq_refl)).
  rewrite (bind_Ok_eq _ _ _ _ _
             (Hq 8 (PyBool (RCD_Reset_Switch s1)) s1 w
                (Hin _ (or_intror (or_intror (or_intror (or_intror
                          (or_intror (or_intror (or_introl eq_refl))))))))
                eq_refl)).
  apply (Hq 9 (PyBool (Reverse_Power_Alarm s1)) s1 w); [|reflexivity].
  apply Hin. do 7 right. left. reflexivity.
Qed.

(** ** Telemetry, exactly *)

Lemma round1_Some q : round1 (Some q) = Ok (rounded q).
Proof. reflexivity. Qed.

Lemma update_battery_soc_eq self w :
  update_battery_soc self w
  = Ok (let s0 := with_dbus_items
                    (handles_after_read analog "battery_soc" self w) self in
        match read_value analog "battery_soc" self w with
        | Some v => with_Battery_SOC v (with_BMS_Connected true s0)
        | None => with_Battery_SOC 0 (with_BMS_Connected false s0)
        end, w).
Proof.
  unfold update_battery_soc.
  rewrite (bind_Ok_eq _ _ _ _ _ (get_dbus_value_eq analog "battery_soc" self w)).
  cbv beta iota zeta.
  destruct (read_value analog "battery_soc" self w); reflexivity.
Qed.

Lemma update_battery_limits_eq self w :
  update_battery_limits self w
  = let s0 := with_dbus_items
                (handles_after_read analog "battery_charge_limit" self w)
                self in
    let s1 := with_dbus_items
                (handles_after_read analog "battery_discharge_limit" s0 w)
                s0 in
    match read_value analog "battery_charge_limit" self w,
          read_value analog "battery_discharge_limit" self w with
    | Some c, Some d =>
        Ok (with_Battery_Discharge_Limit (rounded d)
              (with_Battery_Charge_Limit (rounded c)
                 (with_BMS_Connected true s1)), w)
    | _, _ => Raise TypeError
    end.
Proof.
  unfold update_battery_limits.
  rewrite (bind_Ok_eq _ _ _ _ _
             (get_dbus_value_eq analog "battery_charge_limit" self w)).
  cbv beta iota.
  rewrite (bind_Ok_eq _ _ _ _ _
             (get_dbus_value_eq analog "battery_discharge_limit" _ w)).
  cbv beta iota zeta.
  rewrite (read_value_after_read analog analog "battery_charge_limit" self w
             "battery_discharge_limit" w) by discriminate.
  destruct (read_value analog "battery_charge_limit" self w) as [c|];
    [|reflexivity].
  destruct (read_value analog "battery_discharge_limit" self w) as [d|];
    reflexivity.
Qed.

Lemma update_ac_output_current_eq self w :
  update_ac_output_current self w
  = let items := handles_after_read analog "ac_output_current" self w in
    let s0 := with_dbus_items items self in
    match read_value analog "ac_output_current" self w with
    | Some v =>
        Ok (with_AC_Output_Current (Some (rounded v))
              (with_Inverter_Connected true s0), w)
    | None =>
        match items !! "ac_output_current" with
        | Some _ =>
            Ok (with_dbus_items (delete "ac_output_current" items)
                  (with_AC_Output_Current None
                     (with_Inverter_Connected false s0)), w)
        | None => Raise KeyError
        end
    end.
Proof.
  unfold update_ac_output_current.
  rewrite (bind_Ok_eq _ _ _ _ _
             (get_dbus_value_eq analog "ac_output_current" self w)).
  cbv beta iota zeta.
  destruct (read_value analog "ac_output_current" self w) as [v|];
    [reflexivity|].
  unfold clear_dbus_item. simpl.
  destruct (handles_after_read analog "ac_output_current" self w
              !! "ac_output_current"); reflexivity.
Qed.

Lemma update_inverter_switch_mode_eq self w :
  update_inverter_switch_mode self w
  = Ok (let s0 := with_dbus_items
                    (handles_after_read discrete "inverter_switch_mode" self w)
                    self in
        match read_value discrete "inverter_switch_mode" self w with
        | Some v => with_Inverter_Switch_Mode v (with_Inverter_Connected true s0)
        | None => with_Inverter_Switch_Mode 0 (with_Inverter_Connected false s0)
        end, w).
Proof.
  unfold update_inverter_switch_mode.
  rewrite (bind_Ok_eq _ _ _ _ _
             (get_dbus_value_eq discrete "inverter_switch_mode" self w)).
  cbv beta iota zeta.
  destruct (read_value discrete "inverter_switch_mode" self w); reflexivity.
Qed.

(** [set_inverter_switch_mode] always returns. *)
Lemma set_inverter_switch_mode_total self w :
  exists self' w', set_inverter_switch_mode self w = Ok (self', w').
Proof.
  pose proof (set_inverter_switch_mode_spec self w) as H. simpl in H.
  destruct (py_ne _ _); [|eauto].
  destruct (_ && _); [|eauto].
  destruct (_ =? 0); [|eauto].
  destruct (Qgtb _ 5); [|eauto].
  destruct H as (items & H). eauto.
Qed.

(** ** One pass of the loop, step by step *)

Lemma update_relay_states_total self w :
  exists self',
    update_relay_states self w = Ok (self', w)
    /\ self' = with_relay_states (relay_states self')
                 (with_dbus_items (dbus_items self') self).
Proof.
  destruct (read_relays (seqZ 2 8) (NoDup_seqZ 2 8) (with_relay_states ∅ self) w)
    as (items & states & Hrun & _).
  exists (with_relay_states states (with_dbus_items items self)).
  split; [exact Hrun | reflexivity].
Qed.

(** The steps of a pass that returns.  [w1] is the world after the clock
    reading that opens the pass; the reads leave it as it is. *)
Lemma tick_inv self w self' w' :
  tick self w = Ok (self', w') ->
  let w1 := mkWorld (env w) (clock w) (S (clock_reads w)) (log w) in
  exists s1 s3 s4 s5 s6 s7 s8 w7 w9,
    check_and_create_connections self w1 = Ok (s1, w1)
    /\ update_battery_soc
         (update_mode (with_input_values (digital_inputs (env w)) s1)) w1
       = Ok (s3, w1)
    /\ update_battery_limits s3 w1 = Ok (s4, w1)
    /\ (if running s4
        then exists sa, update_ac_output_current s4 w1 = Ok (sa, w1)
                        /\ s5 = check_reverse_power sa
        else s5 = s4)
    /\ update_relay_states s5 w1 = Ok (s6, w1)
    /\ set_outputs s6 w1 = Ok (s7, w7)
    /\ update_inverter_switch_mode s7 w7 = Ok (s8, w7)
    /\ set_inverter_switch_mode s8 w7 = Ok (self', w9)
    /\ Service_Restart_Requested self' = false
    /\ w' = mkWorld (env w9) (clock w9) (S (clock_reads w9)) (log w9).
Proof.
  intros H w1. unfold tick in H.
  rewrite (bind_Ok_eq time _ w w1 (clock w (clock_reads w)) eq_refl) in H.
  destruct (check_and_create_connections_total self w1) as (s1 & H1 & _).
  rewrite (bind_Ok_eq _ _ _ _ _ H1) in H.
  rewrite (bind_Ok_eq _ _ _ _ _ (update_inputs_eq s1 w1)) in H. cbv zeta in H.
  change (env w1) with (env w) in H.
  set (s2 := update_mode (with_input_values (digital_inputs (env w)) s1)) in *.
  pose proof (update_battery_soc_eq s2 w1) as H3.
  rewrite (bind_Ok_eq _ _ _ _ _ H3) in H.
  match type of H3 with _ = Ok (?s, _) => set (s3 := s) in * end.
  apply bind_Ok in H as (s4 & w4 & H4 & H).
  assert (w4 = w1) as ->.
  { rewrite update_battery_limits_eq in H4. cbv zeta in H4.
    destruct (read_value analog "battery_charge_limit" s3 w1);
      [|discriminate H4].
    destruct (read_value analog "battery_discharge_limit" s3 w1);
      [|discriminate H4].
    congruence. }
  apply bind_Ok in H as (s5 & w5 & H5 & H).
  change ((Mode s4 =? "On")%string || (Mode s4 =? "ChargeOnly")%string)
    with (running s4) in H5.
  assert (Hac : w5 = w1
                /\ if running s4
                   then exists sa, update_ac_output_current s4 w1 = Ok (sa, w1)
                                   /\ s5 = check_reverse_power sa
                   else s5 = s4).
  { destruct (running s4).
    - apply bind_Ok in H5 as (sa & wa & Ha & H5).
      apply ret_Ok in H5 as [-> ->].
      assert (wa = w1) as ->.
      { rewrite update_ac_output_current_eq in Ha. cbv zeta in Ha.
        destruct (read_value analog "ac_output_current" s4 w1);
          [congruence|].
        destruct (handles_after_read analog "ac_output_current" s4 w1
                    !! "ac_output_current");
          [congruence | discriminate Ha]. }
      split; [reflexivity|]. exists sa. auto.
    - apply ret_Ok in H5 as [-> ->]. auto. }
  destruct Hac as [-> Hac].
  apply bind_Ok in H as (s6 & w6 & H6 & H).
  assert (w6 = w1) as ->.
  { destruct (update_relay_states_total s5 w1) as (s & Hs & _). congruence. }
  apply bind_Ok in H as (s7 & w7 & H7 & H).
  apply bind_Ok in H as (s8 & w8 & H8 & H).
  assert (w8 = w7) as ->.
  { rewrite update_inverter_switch_mode_eq in H8. congruence. }
  apply bind_Ok in H as (s9 & w9 & H9 & H).
  destruct (Service_Restart_Requested s9) eqn:Hr; [discriminate|].
  cbv [mbind M_bind time mret M_ret] in H. injection H as <- <-.
  exists s1, s3, s4, s5, s6, s7, s8, w7, w9.
  repeat (split; [first [assumption | reflexivity]|]). reflexivity.
Qed.

(** *** What each step assigns *)

Lemma update_battery_soc_shape self w self' w' :
  update_battery_soc self w = Ok (self', w') ->
  exists soc b items,
    self' = with_Battery_SOC soc (with_BMS_Connected b
              (with_dbus_items items self))
    /\ (read_value analog "battery_soc" self w = None -> soc = 0%Q).
Proof.
  rewrite update_battery_soc_eq. cbv zeta. intros [= <- <-].
  destruct (read_value analog "battery_soc" self w);
    eexists _, _, _; (split; [reflexivity|]); [discriminate | reflexivity].
Qed.

Lemma update_battery_limits_shape self w self' w' :
  update_battery_limits self w = Ok (self', w') ->
  exists c d items,
    read_value analog "battery_charge_limit" self w = Some c
    /\ read_value analog "battery_discharge_limit" self w = Some d
    /\ self' = with_Battery_Discharge_Limit (rounded d)
                 (with_Battery_Charge_Limit (rounded c)
                    (with_BMS_Connected true (with_dbus_items items self))).
Proof.
  rewrite update_battery_limits_eq. cbv zeta.
  destruct (read_value analog "battery_charge_limit" self w) as [c|];
    [|discriminate].
  destruct (read_value analog "battery_discharge_limit" self w) as [d|];
    [|discriminate].
  intros [= <- <-]. eexists c, d, _. auto.
Qed.

Lemma update_ac_output_current_shape self w self' w' :
  update_ac_output_current self w = Ok (self', w') ->
  exists ac items,
    self' = with_dbus_items items
              (with_AC_Output_Current ac
                 (with_Inverter_Connected (is_not_None ac) self))
    /\ ac = rounded <$> read_value analog "ac_output_current" self w.
Proof.
  rewrite update_ac_output_current_eq. cbv zeta.
  destruct (read_value analog "ac_output_current" self w) as [v|].
  - intros [= <- <-]. eexists (Some (rounded v)), _. split; reflexivity.
  - destruct (_ !! _); [|discriminate].
    intros [= <- <-]. eexists None, _. split; reflexivity.
Qed.

Lemma check_reverse_power_shape self :
  check_reverse_power self
  = with_Reverse_Power_Alarm (Reverse_Power_Alarm (check_reverse_power self))
      (with_Reverse_Power_Counter
         (Reverse_Power_Counter (check_reverse_power self)) self).
Proof. check_reverse_power_cases self; destruct self; reflexivity. Qed.

Lemma update_mode_shape self :
  update_mode self
  = with_BMS_Disable (BMS_Disable (update_mode self))
      (with_Off_Button_Pressed_Counter
         (Off_Button_Pressed_Counter (update_mode self))
         (with_Mode (Mode (update_mode self)) self)).
Proof. update_mode_cases self; destruct self; reflexivity. Qed.

Lemma update_inverter_switch_mode_shape self w self' w' :
  update_inverter_switch_mode self w = Ok (self', w') ->
  exists sm items,
    self' = with_Inverter_Switch_Mode (default 0 sm)
              (with_Inverter_Connected (is_not_None sm)
                 (with_dbus_items items self))
    /\ sm = read_value discrete "inverter_switch_mode" self w.
Proof.
  rewrite update_inverter_switch_mode_eq. cbv zeta. intros [= <- <-].
  destruct (read_value discrete "inverter_switch_mode" self w) as [v|] eqn:E.
  - eexists (Some v), _. split; reflexivity.
  - eexists None, _. split; reflexivity.
Qed.

Lemma set_inverter_switch_mode_shape self w self' w' :
  set_inverter_switch_mode self w = Ok (self', w') ->
  exists items,
    self' = with_dbus_items items
              (with_inverter_switch_mode_update_time
                 (_inverter_switch_mode_update_time self')
                 (with_inverter_delay (inverter_delay self') self))
    /\ env w' = env w
    /\ exists evs, log w' = evs ++ log w
                   /\ forall e, e ∈ evs ->
                        e = switch_command self
                        \/ e = BusWrite "inverter_switch_mode"
                                 (Inverter_Switch_Mode_Target self).
Proof.
  pose proof (set_inverter_switch_mode_spec self w) as H. simpl in H.
  assert (Hnone : forall e : event, e ∈ [] ->
            e = switch_command self
            \/ e = BusWrite "inverter_switch_mode"
                     (Inverter_Switch_Mode_Target self))
    by (intros e He; inversion He).
  intros Hs.
  assert (Hsame : with_inverter_delay (inverter_delay self) self = self)
    by (destruct self; reflexivity).
  assert (Hquiet : forall d w0,
            set_inverter_switch_mode self w = Ok (with_inverter_delay d self, w0) ->
            env w0 = env w -> log w0 = log w ->
            exists items,
              self' = with_dbus_items items
                        (with_inverter_switch_mode_update_time
                           (_inverter_switch_mode_update_time self')
                           (with_inverter_delay (inverter_delay self') self))
              /\ env w' = env w
              /\ exists evs, log w' = evs ++ log w
                   /\ forall e, e ∈ evs ->
                        e = switch_command self
                        \/ e = BusWrite "inverter_switch_mode"
                                 (Inverter_Switch_Mode_Target self)).
  { intros d w0 Hq He Hl. rewrite Hq in Hs. injection Hs as <- <-.
    exists (dbus_items self).
    split; [destruct self; reflexivity|].
    split; [exact He|]. exists []. auto. }
  destruct (py_ne _ _);
    [|rewrite <- Hsame in H at 2; apply (Hquiet _ _ H); reflexivity].
  destruct (_ && _); [|apply (Hquiet _ _ H); reflexivity].
  destruct (_ =? 0); [|apply (Hquiet _ _ H); reflexivity].
  destruct (Qgtb _ 5);
    [|rewrite <- Hsame in H at 2; apply (Hquiet _ _ H); reflexivity].
  destruct H as (items & H). rewrite H in Hs. injection Hs as <- <-.
  exists items. split; [destruct self; reflexivity|].
  split; [reflexivity|].
  exists (bus_writes "inverter_switch_mode" (Inverter_Switch_Mode_Target self)
            self w ++ [switch_command self]).
  split; [simpl; rewrite <- app_assoc; reflexivity|].
  intros e He. apply elem_of_app in He as [He | He].
  - apply elem_of_bus_writes_inv in He. auto.
  - apply list_elem_of_singleton in He. auto.
Qed.

Lemma read_value_fails {A : Type} (G : Env -> string -> reply A) name self w :
  G (env w) name = DBusException \/ G (env w) name = Value None ->
  read_value G name self w = None.
Proof.
  unfold read_value. intros [-> | ->]; destruct (dict_get _ _); reflexivity.
Qed.

(** *** Which attributes each step may assign *)

Lemma check_and_create_connections_assigns self w self' w' :
  check_and_create_connections self w = Ok (self', w') ->
  self' = with_dbus_items (dbus_items self') self.
Proof.
  destruct (create_connections_items dbus_items_spec dbus_items_spec_NoDup
              self w) as (items & Hrun & _).
  unfold check_and_create_connections. rewrite Hrun.
  intros [= <- <-]. reflexivity.
Qed.

Lemma update_battery_soc_assigns self w self' w' :
  update_battery_soc self w = Ok (self', w') ->
  self' = with_Battery_SOC (Battery_SOC self')
            (with_BMS_Connected (BMS_Connected self')
               (with_dbus_items (dbus_items self') self)).
Proof.
  intros H. apply update_battery_soc_shape in H as (soc & b & items & -> & _).
  reflexivity.
Qed.

Lemma update_battery_limits_assigns self w self' w' :
  update_battery_limits self w = Ok (self', w') ->
  BMS_Connected self' = true
  /\ self' = with_Battery_Discharge_Limit (Battery_Discharge_Limit self')
               (with_Battery_Charge_Limit (Battery_Charge_Limit self')
                  (with_BMS_Connected true
                     (with_dbus_items (dbus_items self') self))).
Proof.
  intros H.
  apply update_battery_limits_shape in H as (c & d & items & _ & _ & ->).
  split; reflexivity.
Qed.

Lemma update_ac_output_current_assigns self w self' w' :
  update_ac_output_current self w = Ok (self', w') ->
  self' = with_dbus_items (dbus_items self')
            (with_AC_Output_Current (AC_Output_Current self')
               (with_Inverter_Connected (Inverter_Connected self') self)).
Proof.
  intros H. apply update_ac_output_current_shape in H as (ac & items & -> & _).
  reflexivity.
Qed.

Lemma update_relay_states_assigns self w self' w' :
  update_relay_states self w = Ok (self', w') ->
  self' = with_relay_states (relay_states self')
            (with_dbus_items (dbus_items self') self).
Proof.
  intros H. destruct (update_relay_states_total self w) as (s & Hs & Hshape).
  rewrite H in Hs. injection Hs as <-. exact Hshape.
Qed.

Lemma set_outputs_assigns self w self' w' :
  set_outputs self w = Ok (self', w') ->
  _Toggle_State self' = xorb (_Toggle_State self) (Fault_Detected self)
  /\ self' = with_Toggle_State (_Toggle_State self')
               (with_dbus_items (dbus_items self') self)
  /\ env w' = env w
  /\ log w' = outputs_events self w ++ log w.
Proof.
  intros H. destruct (set_outputs_eq self w) as (items & Hs).
  rewrite H in Hs. injection Hs as -> ->. repeat split; reflexivity.
Qed.

Lemma update_inverter_switch_mode_assigns self w self' w' :
  update_inverter_switch_mode self w = Ok (self', w') ->
  (Inverter_Connected self' = false -> Inverter_Switch_Mode self' = 0)
  /\ self' = with_Inverter_Switch_Mode (Inverter_Switch_Mode self')
               (with_Inverter_Connected (Inverter_Connected self')
                  (with_dbus_items (dbus_items self') self))
  /\ w' = w.
Proof.
  intros H. pose proof H as H'.
  apply update_inverter_switch_mode_shape in H as (sm & items & -> & _).
  rewrite update_inverter_switch_mode_eq in H'. injection H' as _ <-.
  split; [|split; reflexivity].
  destruct sm; simpl; [discriminate | reflexivity].
Qed.

(** ** Properties of a whole pass *)

(** X6.  After every pass of the loop that returns, [BMS_Connected] is
    true: [update_battery_limits] sets it whenever it returns, also when
    the read of the state of charge has just failed, and then the state of
    charge stands at 0. *)
Theorem bms_connected_after_every_pass self w self' w' :
  tick self w = Ok (self', w') ->
  BMS_Connected self' = true
  /\ (analog (env w) "battery_soc" = DBusException
      \/ analog (env w) "battery_soc" = Value None ->
      Battery_SOC self' = 0%Q).
Proof.
  intros H.
  apply tick_inv in H
    as (s1 & s3 & s4 & s5 & s6 & s7 & s8 & w7 & w9
        & H1 & H3 & H4 & H5 & H6 & H7 & H8 & H9 & Hr & Hw).
  assert (Hlate : BMS_Connected self' = BMS_Connected s5
                  /\ Battery_SOC self' = Battery_SOC s5).
  { destruct (set_inverter_switch_mode_shape _ _ _ _ H9) as (i9 & -> & _).
    destruct (update_inverter_switch_mode_assigns _ _ _ _ H8) as (_ & -> & _).
    destruct (set_outputs_assigns _ _ _ _ H7) as (_ & -> & _).
    rewrite (update_relay_states_assigns _ _ _ _ H6). split; reflexivity. }
  assert (Hmid : BMS_Connected s5 = BMS_Connected s4
                 /\ Battery_SOC s5 = Battery_SOC s4).
  { destruct (running s4).
    - destruct H5 as (sa & Ha & ->).
      rewrite check_reverse_power_shape.
      rewrite (update_ac_output_current_assigns _ _ _ _ Ha).
      split; reflexivity.
    - subst s5. split; reflexivity. }
  destruct Hlate as [-> ->]. destruct Hmid as [-> ->].
  destruct (update_battery_limits_assigns _ _ _ _ H4) as (Hb & Hs4).
  split; [exact Hb|].
  intros Hfail. rewrite Hs4. simpl.
  apply update_battery_soc_shape in H3 as (soc & b & i3 & -> & Hsoc).
  simpl. apply Hsoc. apply read_value_fails. exact Hfail.
Qed.

Lemma Fault_Detected_connected self :
  valid_mode (Mode self) -> BMS_Connected self = true ->
  Fault_Detected self
  = negb (Mode self =? "Off")%string
    && (negb (Inverter_Connected self) || Reverse_Power_Alarm self).
Proof.
  unfold Fault_Detected. intros [Hm | [Hm | Hm]] ->; rewrite Hm; simpl;
    destruct (Inverter_Connected self), (Reverse_Power_Alarm self);
    reflexivity.
Qed.

(** The mode a pass leaves is one of the three, from any reachable state. *)
Lemma tick_valid_mode self w self' w' :
  reachable self -> tick self w = Ok (self', w') -> valid_mode (Mode self').
Proof.
  intros Hr H.
  destruct (reachable_Mode self' (reachable_tick _ _ _ _ Hr H)) as [He | Hv];
    [|exact Hv].
  apply tick_buttons in H as (Hm & _). simpl in Hm. rewrite Hm in He.
  exfalso. exact (update_mode_not_empty _ He).
Qed.

(** The three stretches of a pass, by the attributes they leave alone.
    Each equation compares the two objects with the attributes the stretch
    may assign blanked out. *)

Ltac attribute p E H := pose proof (f_equal p E) as H; simpl in H.

(** From [set_outputs] to the end of the pass. *)
Lemma tick_late s6 w1 s7 w7 s8 w8 self' w9 :
  set_outputs s6 w1 = Ok (s7, w7) ->
  update_inverter_switch_mode s7 w7 = Ok (s8, w8) ->
  set_inverter_switch_mode s8 w8 = Ok (self', w9) ->
  _Toggle_State self' = xorb (_Toggle_State s6) (Fault_Detected s6)
  /\ with_dbus_items ∅
       (with_inverter_switch_mode_update_time 0
          (with_inverter_delay 0
             (with_Inverter_Switch_Mode 0
                (with_Inverter_Connected false
                   (with_Toggle_State false self')))))
     = with_dbus_items ∅
         (with_inverter_switch_mode_update_time 0
            (with_inverter_delay 0
               (with_Inverter_Switch_Mode 0
                  (with_Inverter_Connected false
                     (with_Toggle_State false s6))))).
Proof.
  intros H7 H8 H9.
  destruct (set_inverter_switch_mode_shape _ _ _ _ H9) as (i9 & E9 & _).
  destruct (update_inverter_switch_mode_assigns _ _ _ _ H8) as (_ & E8 & _).
  destruct (set_outputs_assigns _ _ _ _ H7) as (Ht & E7 & _).
  split.
  - rewrite <- Ht. attribute _Toggle_State E9 T9. attribute _Toggle_State E8 T8.
    congruence.
  - rewrite E9. simpl. rewrite E8. simpl. rewrite E7. reflexivity.
Qed.

(** From the end of the battery reads to [set_outputs]. *)
Lemma tick_mid s4 w1 s5 s6 w6 :
  (if running s4
   then exists sa, update_ac_output_current s4 w1 = Ok (sa, w1)
                   /\ s5 = check_reverse_power sa
   else s5 = s4) ->
  update_relay_states s5 w1 = Ok (s6, w6) ->
  (running s4 = true ->
   Inverter_Connected s6 = is_not_None (AC_Output_Current s6))
  /\ (running s4 = false ->
      Inverter_Connected s6 = Inverter_Connected s4
      /\ AC_Output_Current s6 = AC_Output_Current s4
      /\ Reverse_Power_Counter s6 = Reverse_Power_Counter s4
      /\ Reverse_Power_Alarm s6 = Reverse_Power_Alarm s4)
  /\ with_dbus_items ∅
       (with_relay_states ∅
          (with_Reverse_Power_Alarm false
             (with_Reverse_Power_Counter 0
                (with_AC_Output_Current None
                   (with_Inverter_Connected false s6)))))
     = with_dbus_items ∅
         (with_relay_states ∅
            (with_Reverse_Power_Alarm false
               (with_Reverse_Power_Counter 0
                  (with_AC_Output_Current None
                     (with_Inverter_Connected false s4))))).
Proof.
  intros H5 H6.
  pose proof (update_relay_states_assigns _ _ _ _ H6) as E6.
  destruct (running s4).
  - destruct H5 as (sa & Ha & ->).
    apply update_ac_output_current_shape in Ha as (ac & ia & -> & _).
    split; [|split; [discriminate|]].
    + intros _. rewrite E6. simpl.
      rewrite check_reverse_power_shape. reflexivity.
    + rewrite E6. simpl. rewrite check_reverse_power_shape. reflexivity.
  - subst s5. split; [discriminate|]. split.
    + intros _. rewrite E6. repeat split; reflexivity.
    + rewrite E6. reflexivity.
Qed.

(** From the top of the pass to the end of the battery reads. *)
Lemma tick_early self w1 s1 i s3 w3 s4 w4 :
  check_and_create_connections self w1 = Ok (s1, w1) ->
  update_battery_soc (update_mode (with_input_values i s1)) w1 = Ok (s3, w3) ->
  update_battery_limits s3 w3 = Ok (s4, w4) ->
  BMS_Connected s4 = true
  /\ input_values s4 = i
  /\ core s4 = core (update_mode (with_input_values i self))
  /\ with_dbus_items ∅
       (with_Battery_Discharge_Limit 0
          (with_Battery_Charge_Limit 0
             (with_BMS_Connected false
                (with_Battery_SOC 0
                   (with_BMS_Disable false
                      (with_Off_Button_Pressed_Counter 0
                         (with_Mode EmptyString
                            (with_input_values i s4))))))))
     = with_dbus_items ∅
         (with_Battery_Discharge_Limit 0
            (with_Battery_Charge_Limit 0
               (with_BMS_Connected false
                  (with_Battery_SOC 0
                     (with_BMS_Disable false
                        (with_Off_Button_Pressed_Counter 0
                           (with_Mode EmptyString
                              (with_input_values i self)))))))).
Proof.
  intros H1 H3 H4.
  pose proof (check_and_create_connections_assigns _ _ _ _ H1) as E1.
  pose proof (update_battery_soc_assigns _ _ _ _ H3) as E3.
  destruct (update_battery_limits_assigns _ _ _ _ H4) as (Hb & E4).
  split; [exact Hb|].
  assert (Hi : input_values s4 = i).
  { attribute input_values E4 I4. attribute input_values E3 I3.
    rewrite update_mode_input_values in I3. simpl in I3. congruence. }
  split; [exact Hi|].
  split.
  { apply frame_update_battery_limits in H4 as (-> & _).
    apply frame_update_battery_soc in H3 as (-> & _).
    apply update_mode_core_ext; [|reflexivity].
    apply frame_check_and_create_connections in H1 as (Hc & _). exact Hc. }
  rewrite E4. simpl. rewrite E3. simpl.
  rewrite update_mode_shape. simpl. rewrite E1. reflexivity.
Qed.

(** X7.  The fault blink.  On a pass that returns, from any state a run
    reaches, the toggle state of the Off indicator flips exactly when the
    mode is On or ChargeOnly and either the AC current could not be read
    or the reverse-power alarm is set; in mode Off it never flips. *)
Theorem fault_blink_after_pass self w self' w' :
  reachable self ->
  tick self w = Ok (self', w') ->
  _Toggle_State self'
  = xorb (_Toggle_State self)
      (negb (Mode self' =? "Off")%string
       && (negb (is_not_None (AC_Output_Current self'))
           || Reverse_Power_Alarm self')).
Proof.
  intros Hreach H.
  pose proof (tick_valid_mode _ _ _ _ Hreach H) as Hvalid.
  apply tick_inv in H
    as (s1 & s3 & s4 & s5 & s6 & s7 & s8 & w7 & w9
        & H1 & H3 & H4 & H5 & H6 & H7 & H8 & H9 & Hr & Hw).
  destruct (tick_late _ _ _ _ _ _ _ _ H7 H8 H9) as (Ht & Elate).
  destruct (tick_mid _ _ _ _ _ H5 H6) as (Hic & _ & Emid).
  destruct (tick_early _ _ _ _ _ _ _ _ H1 H3 H4) as (Hb & _ & _ & Eearly).
  attribute Mode Elate M1. attribute AC_Output_Current Elate A1.
  attribute Reverse_Power_Alarm Elate R1. attribute BMS_Connected Elate B1.
  attribute Mode Emid M2. attribute _Toggle_State Emid T2.
  attribute BMS_Connected Emid B2. attribute _Toggle_State Eearly T3.
  rewrite Ht, T2, T3, M1, A1, R1. f_equal.
  rewrite Fault_Detected_connected by congruence.
  destruct (String.eqb_spec (Mode s6) "Off") as [Hoff | Hon]; [reflexivity|].
  simpl. rewrite Hic; [reflexivity|].
  unfold running. rewrite <- M2.
  rewrite M1 in Hvalid.
  destruct Hvalid as [Hv | [-> | ->]]; [contradiction | reflexivity..].
Qed.

Lemma outputs_events_relay e self w :
  e ∈ outputs_events self w -> relay_event e.
Proof.
  intros He. apply elem_of_outputs_events in He as (n & t & Hin & He).
  destruct (relay_targets_range n t self Hin) as [Hn Hv].
  apply elem_of_relay_events in He as (_ & [-> | Hb]).
  - exists n, (coerce t). auto.
  - apply elem_of_bus_writes_inv in Hb. subst e.
    exists n, (coerce t). auto.
Qed.

Lemma target_of_valid_mode self :
  valid_mode (Mode self) ->
  exists v, (v = INV_SWITCH_CHARGE_ONLY \/ v = INV_SWITCH_ON
             \/ v = INV_SWITCH_OFF)
            /\ Inverter_Switch_Mode_Target self = Some v.
Proof.
  unfold Inverter_Switch_Mode_Target.
  destruct (Reverse_Power_Alarm self); [exists INV_SWITCH_OFF; auto|].
  intros [-> | [-> | ->]]; eexists; (split; [|reflexivity]); auto.
Qed.

(** X8.  What a pass sends.  Everything a returning pass logs, from any
    state a run reaches, is either on one of the relays 2 to 9 and carries 0
    or 1, or is on the inverter switch and carries 1, 3 or 4: no other item
    is ever written, and the inverter is never told InvertOnly nor sent an
    empty value. *)
Theorem pass_sends_relay_and_switch_events self w self' w' :
  reachable self ->
  tick self w = Ok (self', w') ->
  forall e, e ∈ emitted w w' -> relay_event e \/ switch_event e.
Proof.
  intros Hreach H.
  pose proof (tick_valid_mode _ _ _ _ Hreach H) as Hvalid.
  apply tick_inv in H
    as (s1 & s3 & s4 & s5 & s6 & s7 & s8 & w7 & w9
        & H1 & H3 & H4 & H5 & H6 & H7 & H8 & H9 & Hr & Hw).
  destruct (tick_late _ _ _ _ _ _ _ _ H7 H8 H9) as (_ & Elate).
  destruct (set_inverter_switch_mode_shape _ _ _ _ H9)
    as (i9 & E9 & _ & evs & Hlog9 & Hevs).
  destruct (update_inverter_switch_mode_assigns _ _ _ _ H8) as (_ & E8 & _).
  destruct (set_outputs_assigns _ _ _ _ H7) as (_ & E7 & _ & Hlog7).
  assert (Htarget : exists v,
             (v = INV_SWITCH_CHARGE_ONLY \/ v = INV_SWITCH_ON
              \/ v = INV_SWITCH_OFF)
             /\ Inverter_Switch_Mode_Target s8 = Some v).
  { apply target_of_valid_mode.
    attribute Mode E9 M9. rewrite <- M9. exact Hvalid. }
  destruct Htarget as (v & Hv & Htarget).
  assert (Hem : emitted w w' = evs ++ outputs_events s6
                  (mkWorld (env w) (clock w) (S (clock_reads w)) (log w))).
  { apply emitted_app. subst w'. simpl. rewrite Hlog9, Hlog7. simpl.
    apply app_assoc. }
  intros e He. rewrite Hem in He. apply elem_of_app in He as [He | He].
  - right. exists v. split; [exact Hv|].
    destruct (Hevs e He) as [-> | ->]; unfold switch_command;
      rewrite Htarget; auto.
  - left. exact (outputs_events_relay _ _ _ He).
Qed.

Lemma read_value_None_iff {A : Type} (G : Env -> string -> reply A)
  name self w :
  read_value G name self w = None <-> read_fails G name self w.
Proof.
  unfold read_value, read_fails.
  destruct (dict_get (dbus_items self) name) as [h|]; [|tauto].
  destruct (G (env w) name) as [[v|]|]; split; intros H; auto;
    try discriminate.
  destruct H as [H | [H | H]]; discriminate.
Qed.

(** The four ways a pass can end, and when. *)
Lemma tick_outcome self w :
  (battery_down self w /\ tick self w = Raise TypeError)
  \/ (~ battery_down self w
      /\ ((running (after_buttons self w) = true /\ ac_read_raises self w
           /\ tick self w = Raise KeyError)
          \/ (~ (running (after_buttons self w) = true
                 /\ ac_read_raises self w)
              /\ ((all_buttons (digital_inputs (env w))
                   /\ tick self w = Raise SystemExit)
                  \/ (~ all_buttons (digital_inputs (env w))
                      /\ exists self' w', tick self w = Ok (self', w')))))).
Proof.
  set (w1 := mkWorld (env w) (clock w) (S (clock_reads w)) (log w)).
  set (i := digital_inputs (env w)).
  remember (tick self w) as r eqn:Hr. unfold tick in Hr.
  rewrite (bind_Ok_eq time _ w w1 (clock w (clock_reads w)) eq_refl) in Hr.
  destruct (create_connections_items dbus_items_spec dbus_items_spec_NoDup
              self w1) as (items & H1 & _ & Hin).
  change (check_and_create_connections self w1
          = Ok (with_dbus_items items self, w1)) in H1.
  set (s1 := with_dbus_items items self) in *.
  rewrite (bind_Ok_eq _ _ _ _ _ H1) in Hr.
  rewrite (bind_Ok_eq _ _ _ _ _ (update_inputs_eq s1 w1)) in Hr.
  cbv zeta in Hr. change (digital_inputs (env w1)) with i in Hr.
  set (s2 := update_mode (with_input_values i s1)) in *.
  pose proof (update_battery_soc_eq s2 w1) as H3. cbv zeta in H3.
  match type of H3 with _ = Ok (?s, _) => set (s3 := s) in * end.
  rewrite (bind_Ok_eq _ _ _ _ _ H3) in Hr.
  assert (Hitems3 : forall k, k <> "battery_soc" ->
                              dbus_items s3 !! k = items !! k).
  { intros k Hne. subst s3.
    destruct (read_value analog "battery_soc" s2 w1); simpl;
      rewrite handles_after_read_other by exact Hne;
      subst s2; rewrite update_mode_dbus_items; reflexivity. }
  assert (Hi3 : input_values s3 = i).
  { apply frame_update_battery_soc in H3 as (_ & -> & _).
    subst s2. rewrite update_mode_input_values. reflexivity. }
  assert (Hm3 : Mode s3 = Mode (after_buttons self w)).
  { apply frame_update_battery_soc in H3 as (Hc & _).
    assert (Hc2 : core s2 = core (after_buttons self w)).
    { apply update_mode_core_ext; reflexivity. }
    rewrite Hc2 in Hc. unfold core in Hc. congruence. }
  assert (Hdown : forall k v, (k, v) ∈ dbus_items_spec -> k <> "battery_soc" ->
            (read_value analog k s3 w1 = None <-> link_down k self w)).
  { intros k v Hk Hne. rewrite read_value_None_iff.
    unfold read_fails, link_down. change (env w1) with (env w).
    destruct (Hin k v Hk) as [_ Hget]. change (env w1) with (env w) in Hget.
    assert (Hg3 : dict_get (dbus_items s3) k = dict_get items k)
      by (unfold dict_get; rewrite Hitems3 by exact Hne; reflexivity).
    rewrite Hg3, Hget.
    destruct (dict_get (dbus_items self) k) as [h|];
      [|destruct (importable (env w) k)]; split; intros [H | [H | H]];
      auto; try discriminate; destruct H; discriminate. }
  assert (Hcharge : ("battery_charge_limit",
                     mkItem "com.victronenergy.battery.socketcan_vecan0"
                       "/Info/MaxChargeCurrent") ∈ dbus_items_spec)
    by (apply list_elem_of_In; simpl; tauto).
  assert (Hdischarge : ("battery_discharge_limit",
                        mkItem "com.victronenergy.battery.socketcan_vecan0"
                          "/Info/MaxDischargeCurrent") ∈ dbus_items_spec)
    by (apply list_elem_of_In; simpl; tauto).
  assert (Hac_item : ("ac_output_current",
                      mkItem "com.victronenergy.vebus.ttyS2" "/Ac/Out/L1/I")
                     ∈ dbus_items_spec)
    by (apply list_elem_of_In; simpl; tauto).
  pose proof (Hdown _ _ Hcharge ltac:(discriminate)) as Hc.
  pose proof (Hdown _ _ Hdischarge ltac:(discriminate)) as Hd.
  pose proof (update_battery_limits_eq s3 w1) as H4. cbv zeta in H4.
  destruct (read_value analog "battery_charge_limit" s3 w1) as [c|];
    [|left; split;
      [left; apply Hc; reflexivity
      | rewrite Hr; apply bind_Raise; exact H4]].
  destruct (read_value analog "battery_discharge_limit" s3 w1) as [d|];
    [|left; split;
      [right; apply Hd; reflexivity
      | rewrite Hr; apply bind_Raise; exact H4]].
  right. split.
  { intros [H | H]; [apply Hc in H | apply Hd in H]; discriminate. }
  clear Hc Hd Hdown.
  match type of H4 with _ = Ok (?s, _) => set (s4 := s) in * end.
  rewrite (bind_Ok_eq _ _ _ _ _ H4) in Hr.
  assert (Hi4 : input_values s4 = i) by exact Hi3.
  assert (Hm4 : running s4 = running (after_buttons self w)).
  { unfold running. rewrite <- Hm3. reflexivity. }
  assert (Hitems4 : dbus_items s4 !! "ac_output_current"
                    = items !! "ac_output_current").
  { subst s4. simpl. rewrite !handles_after_read_other by discriminate.
    simpl. rewrite !handles_after_read_other by discriminate.
    apply Hitems3. discriminate. }
  change ((Mode s4 =? "On")%string || (Mode s4 =? "ChargeOnly")%string)
    with (running s4) in Hr.
  rewrite Hm4 in Hr. clear Hm4.
  match type of Hr with _ = (_ ≫= ?k) w1 => set (K := k) in Hr end.
  assert (Htail : forall s5, input_values s5 = i ->
            (all_buttons i /\ K s5 w1 = Raise SystemExit)
            \/ (~ all_buttons i /\ exists self' w', K s5 w1 = Ok (self', w'))).
  { intros s5 Hi5. subst K. cbv beta.
    destruct (update_relay_states_total s5 w1) as (s6 & H6 & _).
    rewrite (bind_Ok_eq _ _ _ _ _ H6).
    destruct (set_outputs_eq s6 w1) as (i7 & H7).
    rewrite (bind_Ok_eq _ _ _ _ _ H7).
    match type of H7 with _ = Ok (?s, ?w) =>
      set (s7 := s) in *; set (w7 := w) in * end.
    pose proof (update_inverter_switch_mode_eq s7 w7) as H8. cbv zeta in H8.
    match type of H8 with _ = Ok (?s, _) => set (s8 := s) in * end.
    rewrite (bind_Ok_eq _ _ _ _ _ H8).
    destruct (set_inverter_switch_mode_total s8 w7) as (s9 & w9 & H9).
    rewrite (bind_Ok_eq _ _ _ _ _ H9).
    assert (Hi9 : input_values s9 = i).
    { apply frame_set_inverter_switch_mode in H9 as (_ & -> & _).
      apply frame_update_inverter_switch_mode in H8 as (_ & -> & _).
      apply frame_set_outputs in H7 as (_ & -> & _).
      apply frame_update_relay_states in H6 as (_ & -> & _). exact Hi5. }
    unfold Service_Restart_Requested, Off_Button_Pressed, On_Button_Pressed,
      Charge_Button_Pressed. rewrite Hi9. unfold all_buttons.
    destruct (Off_Button i), (On_Button i), (Charge_Button i); simpl;
      first [ left; split; [auto | reflexivity]
            | right; split;
              [intros (? & ? & ?); discriminate
              | eexists _, _; reflexivity] ]. }
  destruct (running (after_buttons self w)) eqn:Hrun.
  2:{ right. split; [intros [Hf _]; discriminate|].
      rewrite Hr. apply (Htail s4 Hi4). }
  pose proof (update_ac_output_current_eq s4 w1) as Ha. cbv zeta in Ha.
  destruct (Hin _ _ Hac_item) as [Hsome Hget].
  change (env w1) with (env w) in Hget.
  assert (Hg4 : dict_get (dbus_items s4) "ac_output_current"
                = dict_get items "ac_output_current")
    by (unfold dict_get; rewrite Hitems4; reflexivity).
  assert (Hcase :
    (ac_read_raises self w
     /\ update_ac_output_current s4 w1 = Raise KeyError)
    \/ (~ ac_read_raises self w
        /\ exists sa, update_ac_output_current s4 w1 = Ok (sa, w1)
                      /\ input_values sa = i)).
  { unfold ac_read_raises.
    unfold read_value, handles_after_read in Ha. rewrite Hg4 in Ha.
    change (env w1) with (env w) in Ha.
    destruct Hsome as [x Hx].
    assert (Hreturns : forall sa,
              update_ac_output_current s4 w1 = Ok (sa, w1) ->
              exists sa, update_ac_output_current s4 w1 = Ok (sa, w1)
                         /\ input_values sa = i).
    { intros sa Hsa. exists sa. split; [exact Hsa|].
      apply frame_update_ac_output_current in Hsa as (_ & -> & _).
      exact Hi4. }
    destruct (analog (env w) "ac_output_current") as [v|] eqn:Hreply.
    - right. split; [intros [Hf _]; discriminate Hf|].
      destruct (dict_get items "ac_output_current"); [destruct v|];
        cbv beta iota in Ha; try rewrite Hitems4, Hx in Ha;
        exact (Hreturns _ Ha).
    - destruct (dict_get items "ac_output_current") as [h|] eqn:Hgi;
        cbv beta iota in Ha.
      + left. rewrite lookup_delete_eq in Ha. split; [|exact Ha].
        split; [reflexivity|].
        destruct (dict_get (dbus_items self) "ac_output_current");
          [left; discriminate|].
        destruct (importable (env w) "ac_output_current");
          [right; reflexivity | discriminate Hget].
      + right. rewrite Hitems4, Hx in Ha. split; [|exact (Hreturns _ Ha)].
        intros [_ [Hf | Hf]].
        * destruct (dict_get (dbus_items self) "ac_output_current");
            [discriminate Hget | contradiction].
        * rewrite Hf in Hget.
          destruct (dict_get (dbus_items self) "ac_output_current");
            discriminate Hget. }
  destruct Hcase as [[Hraises Hk] | [Hnot (sa & Hsa & Hia)]].
  - left. split; [reflexivity|]. split; [exact Hraises|].
    rewrite Hr. apply bind_Raise. apply bind_Raise. exact Hk.
  - right. split; [intros [_ Hf]; contradiction|].
    rewrite Hr.
    assert (Hstep : ((sa0 ← update_ac_output_current s4;
                      mret (check_reverse_power sa0)) ≫= K) w1
                    = K (check_reverse_power sa) w1).
    { apply bind_Ok_eq. rewrite (bind_Ok_eq _ _ _ _ _ Hsa). reflexivity. }
    rewrite Hstep. apply Htail.
    destruct (check_reverse_power_frame sa) as (_ & _ & _ & ->). exact Hia.
Qed.

(** X9.  A pass raises [TypeError] exactly when one of the two battery
    current limits cannot be read in it. *)
Theorem pass_raises_TypeError_iff self w :
  tick self w = Raise TypeError <-> battery_down self w.
Proof.
  destruct (tick_outcome self w)
    as [[Hd Ht] | [Hnd [(Hr & Ha & Ht)
                       | [Hna [[Hb Ht] | [Hnb (s & w' & Ht)]]]]]];
    rewrite Ht; split; intros H;
    first [discriminate H | contradiction | reflexivity | assumption].
Qed.

(** X10.  A pass raises [KeyError] exactly when both battery limits are
    read, the buttons leave the mode On or ChargeOnly, and the proxy of the
    AC output current raises on the read: [get_dbus_value] drops the item
    and [update_ac_output_current] drops it once more. *)
Theorem pass_raises_KeyError_iff self w :
  tick self w = Raise KeyError
  <-> ~ battery_down self w
      /\ running (after_buttons self w) = true
      /\ ac_read_raises self w.
Proof.
  destruct (tick_outcome self w)
    as [[Hd Ht] | [Hnd [(Hr & Ha & Ht)
                       | [Hna [[Hb Ht] | [Hnb (s & w' & Ht)]]]]]];
    rewrite Ht; split; intros H;
    first [discriminate H | reflexivity | tauto].
Qed.

(** X11.  A pass ends the program, by [exit()], exactly when the three
    buttons are asserted together and nothing has raised before the end of
    the pass. *)
Theorem pass_exits_iff self w :
  tick self w = Raise SystemExit
  <-> ~ battery_down self w
      /\ ~ (running (after_buttons self w) = true /\ ac_read_raises self w)
      /\ all_buttons (digital_inputs (env w)).
Proof.
  destruct (tick_outcome self w)
    as [[Hd Ht] | [Hnd [(Hr & Ha & Ht)
                       | [Hna [[Hb Ht] | [Hnb (s & w' & Ht)]]]]]];
    rewrite Ht; split; intros H;
    first [discriminate H | reflexivity | tauto].
Qed.

(** X12.  A pass returns exactly when both battery limits are read, the AC
    output current does not raise in a running mode, and the three buttons
    are not asserted together. *)
Theorem pass_returns_iff self w :
  (exists self' w', tick self w = Ok (self', w'))
  <-> ~ battery_down self w
      /\ ~ (running (after_buttons self w) = true /\ ac_read_raises self w)
      /\ ~ all_buttons (digital_inputs (env w)).
Proof.
  destruct (tick_outcome self w)
    as [[Hd Ht] | [Hnd [(Hr & Ha & Ht)
                       | [Hna [[Hb Ht] | [Hnb (s & w' & Ht)]]]]]];
    rewrite Ht; split; intros H;
    first [ destruct H as (s0 & w0 & H); discriminate H
          | tauto
          | eexists _, _; reflexivity ].
Qed.

(** ** Invariants of a run *)

Lemma set_inverter_switch_mode_delay self w self' w' :
  set_inverter_switch_mode self w = Ok (self', w') ->
  inverter_delay self' = inverter_delay self
  \/ inverter_delay self' = 10
  \/ inverter_delay self' = Z.max 0 (inverter_delay self - 1).
Proof.
  pose proof (set_inverter_switch_mode_spec self w) as H. simpl in H.
  intros Hs. rewrite Hs in H.
  destruct (py_ne _ _); [|injection H as -> _; auto].
  destruct (_ && _); [|injection H as -> _; auto].
  destruct (_ =? 0); [|injection H as -> _; auto].
  destruct (Qgtb _ 5); [|injection H as -> _; auto].
  destruct H as (items & H). injection H as -> _. auto.
Qed.

(** The settle delay a pass starts from is the one the previous call of
    [set_inverter_switch_mode] left. *)
Lemma tick_delay self w self' w' :
  tick self w = Ok (self', w') ->
  inverter_delay self' = inverter_delay self
  \/ inverter_delay self' = 10
  \/ inverter_delay self' = Z.max 0 (inverter_delay self - 1).
Proof.
  intros H.
  apply tick_inv in H
    as (s1 & s3 & s4 & s5 & s6 & s7 & s8 & w7 & w9
        & H1 & H3 & H4 & H5 & H6 & H7 & H8 & H9 & Hr & Hw).
  destruct (update_inverter_switch_mode_assigns _ _ _ _ H8) as (_ & E8 & _).
  destruct (set_outputs_assigns _ _ _ _ H7) as (_ & E7 & _).
  destruct (tick_mid _ _ _ _ _ H5 H6) as (_ & _ & Emid).
  destruct (tick_early _ _ _ _ _ _ _ _ H1 H3 H4) as (_ & _ & _ & Eearly).
  attribute inverter_delay E8 D8. attribute inverter_delay E7 D7.
  attribute inverter_delay Emid D6. attribute inverter_delay Eearly D4.
  apply set_inverter_switch_mode_delay in H9.
  rewrite D8, D7, D6, D4 in H9. exact H9.
Qed.

(** X13.  Along every run the settle delay stays between 0 and 10. *)
Theorem settle_delay_bounds self :
  reachable self -> 0 <= inverter_delay self <= 10.
Proof.
  induction 1 as [w self w' H | self w self' w' _ IH H].
  - apply check_and_create_connections_assigns in H.
    attribute inverter_delay H D. rewrite D. lia.
  - apply tick_delay in H. lia.
Qed.

(** X14.  Along every run the reverse-power counter is never negative, and
    whenever it stands at the threshold or above the alarm is set: with the
    alarm clear the counter is below the threshold. *)
Theorem alarm_set_at_threshold self :
  reachable self ->
  0 <= Reverse_Power_Counter self
  /\ (REVERSE_POWER_COUNTER_THRESHOLD <= Reverse_Power_Counter self ->
      Reverse_Power_Alarm self = true).
Proof.
  induction 1 as [w self w' H | self w self' w' _ IH H].
  - apply check_and_create_connections_assigns in H.
    attribute Reverse_Power_Counter H C. rewrite C.
    split; [lia|]. intros Hge. vm_compute in Hge. contradiction.
  - apply tick_core in H as (s & Hs & Hc).
    destruct (update_mode_reverse_power
                (with_input_values (digital_inputs (env w)) self))
      as [Hcount Halarm].
    simpl in Hcount, Halarm.
    assert (Hcs : Reverse_Power_Counter s = Reverse_Power_Counter self
                  /\ Reverse_Power_Alarm s = Reverse_Power_Alarm self).
    { unfold core in Hs. injection Hs as _ _ _ -> ->. auto. }
    destruct Hcs as [Hcs Has].
    unfold core in Hc. injection Hc as _ _ _ -> ->.
    destruct (_ || _); [|rewrite Hcs, Has; exact IH].
    rewrite check_reverse_power_alarm, check_reverse_power_counter.
    rewrite Hcs.
    destruct (Reverse_Power_Detected s).
    + split; [lia|]. intros Hge.
      apply Z.leb_le in Hge. rewrite Hge. reflexivity.
    + split; [lia|]. intros Hge.
      apply Z.leb_le in Hge. rewrite Hge. reflexivity.
Qed.

(** ** Reverse power over several checks *)

Lemma check_reverse_power_detected self :
  Reverse_Power_Detected (check_reverse_power self)
  = Reverse_Power_Detected self.
Proof. rewrite check_reverse_power_shape. reflexivity. Qed.

Lemma iter_check_reverse_power n self :
  Reverse_Power_Detected (Nat.iter n check_reverse_power self)
  = Reverse_Power_Detected self
  /\ Mode (Nat.iter n check_reverse_power self) = Mode self.
Proof.
  induction n as [|n [IHd IHm]]; [split; reflexivity|]. simpl.
  rewrite check_reverse_power_detected.
  destruct (check_reverse_power_frame (Nat.iter n check_reverse_power self))
    as (-> & _). auto.
Qed.

(** X15.  The trip.  With reverse power detected at every check, starting
    with the alarm clear and the counter below the threshold, each check
    adds one to the counter, without bound, and the alarm is set exactly
    from the check that brings the counter to the threshold. *)
Theorem alarm_trips_at_threshold n self :
  Reverse_Power_Detected self = true ->
  Reverse_Power_Alarm self = false ->
  0 <= Reverse_Power_Counter self < REVERSE_POWER_COUNTER_THRESHOLD ->
  Reverse_Power_Counter (Nat.iter n check_reverse_power self)
  = Reverse_Power_Counter self + Z.of_nat n
  /\ (Reverse_Power_Alarm (Nat.iter n check_reverse_power self) = true
      <-> REVERSE_POWER_COUNTER_THRESHOLD
          <= Reverse_Power_Counter self + Z.of_nat n).
Proof.
  intros Hd Ha Hc. induction n as [|n [IHc IHa]].
  - simpl. split; [lia|]. rewrite Ha. split; [discriminate | lia].
  - destruct (iter_check_reverse_power n self) as [Hdn _].
    rewrite Hd in Hdn. simpl Nat.iter.
    rewrite check_reverse_power_alarm.
    rewrite (check_reverse_power_increments _ Hdn), IHc.
    split; [lia|].
    replace (Reverse_Power_Counter self + Z.of_nat n + 1)
      with (Reverse_Power_Counter self + Z.of_nat (S n)) by lia.
    destruct (REVERSE_POWER_COUNTER_THRESHOLD
              <=? Reverse_Power_Counter self + Z.of_nat (S n)) eqn:E.
    + apply Z.leb_le in E. tauto.
    + apply Z.leb_gt in E.
      replace (Reverse_Power_Counter self + Z.of_nat (S n) =? 0) with false
        by (symmetry; apply Z.eqb_neq; lia).
      rewrite andb_false_r.
      split; [|lia]. intros Ht. apply IHa in Ht. lia.
Qed.

(** X16.  The recovery.  Called in the mode Off without reverse power
    detected, each check takes one off the counter down to 0, and an alarm
    that is set is cleared exactly by the check that brings the counter to
    0: it stays set through the checks before, also once the counter is
    below the threshold. *)
Theorem alarm_clears_when_drained n self :
  Reverse_Power_Detected self = false ->
  Mode self = "Off" ->
  Reverse_Power_Alarm self = true ->
  0 <= Reverse_Power_Counter self ->
  Reverse_Power_Counter (Nat.iter n check_reverse_power self)
  = Z.max 0 (Reverse_Power_Counter self - Z.of_nat n)
  /\ ((0 < n)%nat ->
      (Reverse_Power_Alarm (Nat.iter n check_reverse_power self) = true
       <-> Z.of_nat n < Reverse_Power_Counter self)).
Proof.
  intros Hd Hm Ha Hc. induction n as [|n [IHc IHa]].
  - simpl. split; [lia|]. intros Hn. inversion Hn.
  - destruct (iter_check_reverse_power n self) as [Hdn Hmn].
    rewrite Hd in Hdn. rewrite Hm in Hmn. simpl Nat.iter.
    rewrite check_reverse_power_alarm.
    rewrite (check_reverse_power_decrements _ Hdn), IHc, Hmn.
    split; [lia|]. intros _.
    replace (Z.max 0 (Z.max 0 (Reverse_Power_Counter self - Z.of_nat n) - 1))
      with (Z.max 0 (Reverse_Power_Counter self - Z.of_nat (S n))) by lia.
    destruct (REVERSE_POWER_COUNTER_THRESHOLD <=? _) eqn:E.
    + apply Z.leb_le in E. unfold REVERSE_POWER_COUNTER_THRESHOLD in E.
      change (10 / TIMESTEP) with 10 in E. split; [lia | reflexivity].
    + destruct (Z.max 0 (Reverse_Power_Counter self - Z.of_nat (S n)) =? 0)
        eqn:Ez; simpl.
      * apply Z.eqb_eq in Ez. split; [discriminate | lia].
      * apply Z.eqb_neq in Ez. destruct n as [|n].
        -- simpl. rewrite Ha. split; [lia | reflexivity].
        -- rewrite IHa by lia. lia.
Qed.

(** ** The settle countdown *)

Lemma with_inverter_delay_same self :
  with_inverter_delay (inverter_delay self) self = self.
Proof. destruct self; reflexivity. Qed.

(** X17.  The countdown.  With a command pending and both current limits
    truthy, successive calls of [set_inverter_switch_mode] take the settle
    delay down by one each, and do nothing else: no command goes out and
    the clock is not read until the delay has reached 0. *)
Theorem settle_countdown n : forall self w,
  pending self -> contactors_closed self ->
  Z.of_nat n <= inverter_delay self ->
  times n set_inverter_switch_mode self w
  = Ok (with_inverter_delay (inverter_delay self - Z.of_nat n) self, w).
Proof.
  induction n as [|n IH]; intros self w Hp Hc Hd.
  - simpl. rewrite Z.sub_0_r, with_inverter_delay_same. reflexivity.
  - pose proof (set_inverter_switch_mode_spec self w) as H. simpl in H.
    pose proof Hp as Hp'. pose proof Hc as Hc'.
    apply py_ne_true in Hp'. apply contactors_open_or_closed in Hc'.
    rewrite Hp', Hc' in H.
    replace (inverter_delay self =? 0) with false in H
      by (symmetry; apply Z.eqb_neq; lia).
    simpl times. rewrite (bind_Ok_eq _ _ _ _ _ H).
    rewrite IH; [| exact Hp | exact Hc | simpl; lia].
    simpl. do 2 f_equal.
    replace (Z.max 0 (inverter_delay self - 1) - Z.of_nat n)
      with (inverter_delay self - Z.of_nat (S n)) by lia.
    destruct self; reflexivity.
Qed.

(** ** Writes that fail *)

(** X18.  [set_dbus_value] never raises.  A write on which [set_value]
    raises is logged as a call but does not reach the bus, and it discards
    the item handle, and only that handle; until the item is imported again
    every further write to it is lost in the same way, whatever the bus
    would do. *)
Theorem failed_write_drops_the_handle name v self w :
  dict_get (dbus_items self) name <> None ->
  set_value_raises (env w) name = true ->
  exists self',
    set_dbus_value name v self w
    = Ok (self', mkWorld (env w) (clock w) (clock_reads w)
                   (Command name v :: log w))
    /\ self' = with_dbus_items (delete name (dbus_items self)) self
    /\ dbus_items self' !! name = None
    /\ (forall k, k <> name -> dbus_items self' !! k = dbus_items self !! k)
    /\ (forall v2 w2,
          set_dbus_value name v2 self' w2
          = Ok (self', mkWorld (env w2) (clock w2) (clock_reads w2)
                         (Command name v2 :: log w2))).
Proof.
  intros Hitem Hexn.
  exists (with_dbus_items (delete name (dbus_items self)) self).
  assert (Hgone : dict_get (delete name (dbus_items self)) name = None).
  { unfold dict_get. rewrite lookup_delete_eq. reflexivity. }
  split.
  { rewrite set_dbus_value_eq. unfold bus_writes, handles_after_write.
    destruct (dict_get (dbus_items self) name); [|contradiction].
    rewrite Hexn. reflexivity. }
  split; [reflexivity|].
  split; [apply lookup_delete_eq|].
  split; [intros k Hne; simpl; apply lookup_delete_ne; congruence|].
  intros v2 w2. rewrite set_dbus_value_eq.
  unfold bus_writes, handles_after_write. simpl. rewrite Hgone.
  rewrite with_dbus_items_twice. reflexivity.
Qed.

(** ** The properties on the bench *)

Lemma after_on_reachable : reachable (fst after_on).
Proof. exact (reachable_tick _ _ _ _ fresh_reachable tick_on_returns). Qed.

(** The charge limit read with the battery service gone. *)
Lemma failed_read_drops_the_handle_witness :
  exists self',
    get_dbus_value analog "battery_charge_limit" fresh battery_down_world
    = Ok ((None, self'), battery_down_world)
    /\ dbus_items self' !! "battery_charge_limit" = None.
Proof.
  destruct (failed_read_drops_the_handle analog "battery_charge_limit" fresh
              battery_down_world) as (self' & Hg & _ & Hgone & _).
  - vm_compute. discriminate.
  - reflexivity.
  - exists self'. split; [exact Hg | exact Hgone].
Defined.

(** Nothing to send when every relay is recorded at its target. *)
Lemma outputs_quiescent_witness :
  set_outputs settled_outputs (bench_world on_env)
  = Ok (with_Toggle_State
          (xorb (_Toggle_State settled_outputs) (Fault_Detected settled_outputs))
          settled_outputs, bench_world on_env).
Proof.
  apply outputs_quiescent. intros n t Hin.
  apply list_elem_of_In in Hin. vm_compute in Hin.
  repeat (destruct Hin as [Hin | Hin];
          [injection Hin as <- <-; vm_compute; reflexivity|]).
  contradiction.
Defined.

(** The first pass with On pressed. *)
Lemma bms_connected_after_every_pass_witness :
  BMS_Connected (fst after_on) = true.
Proof.
  destruct (bms_connected_after_every_pass _ _ _ _ tick_on_returns) as [H _].
  exact H.
Defined.

Lemma fault_blink_after_pass_witness :
  _Toggle_State (fst after_on)
  = xorb (_Toggle_State fresh)
      (negb (Mode (fst after_on) =? "Off")%string
       && (negb (is_not_None (AC_Output_Current (fst after_on)))
           || Reverse_Power_Alarm (fst after_on))).
Proof.
  exact (fault_blink_after_pass _ _ _ _ fresh_reachable tick_on_returns).
Defined.

Lemma pass_sends_relay_and_switch_events_witness :
  relay_event (Command "relay_3" (Some 1))
  \/ switch_event (Command "relay_3" (Some 1)).
Proof.
  apply (pass_sends_relay_and_switch_events _ _ _ _ fresh_reachable
           tick_on_returns).
  apply list_elem_of_In. vm_compute. do 9 right. left. reflexivity.
Defined.

(** The first pass with the battery service gone. *)
Lemma pass_raises_TypeError_iff_witness :
  tick fresh battery_down_world = Raise TypeError.
Proof. apply pass_raises_TypeError_iff. left. left. reflexivity. Defined.

Lemma bench_battery_up i limit ac mode w :
  env w = bench_env i limit ac mode -> ~ battery_down fresh w.
Proof.
  intros He [H | H]; unfold link_down in H; rewrite He in H;
    destruct H as [H | [H | [H _]]]; vm_compute in H; discriminate H.
Qed.

(** The first pass with On pressed and the AC current raising. *)
Lemma pass_raises_KeyError_iff_witness :
  tick fresh (bench_world ac_down_env) = Raise KeyError.
Proof.
  apply pass_raises_KeyError_iff. split; [|split].
  - intros [H | H]; unfold link_down in H;
      destruct H as [H | [H | [H _]]]; vm_compute in H; discriminate H.
  - vm_compute. reflexivity.
  - split; [reflexivity | right; reflexivity].
Defined.

(** The first pass with the three buttons held. *)
Lemma pass_exits_iff_witness :
  tick fresh (bench_world restart_env) = Raise SystemExit.
Proof.
  apply pass_exits_iff. split; [|split].
  - exact (bench_battery_up (buttons true true true) 100 0 4
             (bench_world restart_env) eq_refl).
  - intros [H _]. vm_compute in H. discriminate H.
  - repeat split.
Defined.

(** The first pass with On pressed. *)
Lemma pass_returns_iff_witness :
  exists self' w', tick fresh (bench_world on_env) = Ok (self', w').
Proof.
  apply pass_returns_iff. split; [|split].
  - exact (bench_battery_up (buttons false true false) 100 0 4
             (bench_world on_env) eq_refl).
  - intros [_ [H _]]. vm_compute in H. discriminate H.
  - intros (H & _). vm_compute in H. discriminate H.
Defined.

Lemma settle_delay_bounds_witness : 0 <= inverter_delay (fst after_on) <= 10.
Proof. exact (settle_delay_bounds _ after_on_reachable). Defined.

(** Eleven passes of reverse power: the counter is past the threshold and
    the alarm is set. *)
Lemma alarm_set_at_threshold_witness :
  Reverse_Power_Alarm (fst after_eleven_reverse) = true.
Proof.
  destruct (alarm_set_at_threshold (fst after_eleven_reverse)) as [_ H].
  - exact (run_reachable _ _ _ _ _ fresh_reachable run_eleven_reverse_returns).
  - apply H. vm_compute. discriminate.
Defined.

(** Ten checks of a reverse current, from a counter at 0. *)
Lemma alarm_trips_at_threshold_witness :
  Reverse_Power_Counter (Nat.iter 10 check_reverse_power reverse_flow)
  = Reverse_Power_Counter reverse_flow + 10
  /\ Reverse_Power_Alarm (Nat.iter 10 check_reverse_power reverse_flow) = true.
Proof.
  destruct (alarm_trips_at_threshold 10 reverse_flow) as [Hc Ha].
  - reflexivity.
  - reflexivity.
  - vm_compute. split; [discriminate | reflexivity].
  - split; [exact Hc|]. apply Ha. vm_compute. discriminate.
Defined.

(** A check in the mode Off, alarm set, counter at 0. *)
Lemma alarm_clears_when_drained_witness :
  Reverse_Power_Alarm (Nat.iter 1 check_reverse_power (fst tripped_then_off))
  <> true.
Proof.
  destruct (alarm_clears_when_drained 1 (fst tripped_then_off)) as [_ Ha].
  - reflexivity.
  - reflexivity.
  - reflexivity.
  - vm_compute. discriminate.
  - intros Ht. apply Ha in Ht; [|lia]. vm_compute in Ht. discriminate Ht.
Defined.

(** Ten calls from a delay of 10. *)
Lemma settle_countdown_witness :
  times 10 set_inverter_switch_mode settling (bench_world on_env)
  = Ok (with_inverter_delay (inverter_delay settling - Z.of_nat 10) settling,
        bench_world on_env).
Proof.
  apply settle_countdown.
  - vm_compute. discriminate.
  - split; reflexivity.
  - vm_compute. discriminate.
Defined.

(** A write to relay 3 with every write raising. *)
Lemma failed_write_drops_the_handle_witness :
  exists self',
    set_dbus_value "relay_3" (Some 1) fresh (bench_world writes_fail_env)
    = Ok (self', mkWorld writes_fail_env bench_clock 0
                   [Command "relay_3" (Some 1)])
    /\ dbus_items self' !! "relay_3" = None.
Proof.
  destruct (failed_write_drops_the_handle "relay_3" (Some 1) fresh
              (bench_world writes_fail_env)) as (self' & Hs & _ & Hgone & _).
  - vm_compute. discriminate.
  - reflexivity.
  - exists self'. split; [exact Hs | exact Hgone].
Defined.
